(** * Delivery lifecycle and assignment engine of the food and parcel API

    A shallow embedding of the request handlers in [app/routers/drivers.py],
    [app/routers/food_orders.py] and [app/routers/parcels.py], together with
    the SQLAlchemy models and pydantic schemas they use, and the properties
    of the claim protocol, pricing, cancellation, reviews and rating
    aggregation that follow from the code. The handlers of
    [app/routers/admin.py] and [app/routers/restaurants.py] that delete or
    show the reviews are embedded with them.

    Conventions.
    - A table with a primary key is a finite map from the key to the row;
      the [reviews] and [order_items] tables, which the handlers filter and
      aggregate, are lists of rows in insertion order.
    - A [Numeric(10, 2)] column holds an integer number of cents; the fee
      of a parcel, computed from a float, can also be the NaN of [numeric].
    - [Decimal] values keep Python's coefficient and number of fractional
      digits. The amounts of a food order come from [Numeric(10, 2)] and
      [Integer] columns and are added and multiplied exactly; the fee of a
      parcel comes from the decimal of a float, and each operation on it is
      rounded to the 28 digits of the context of [decimal].
    - [float] is IEEE binary64, as in CPython.
    - Values the code draws from its environment ([uuid.uuid4()],
      [datetime.utcnow()], the authenticated principal) are arguments of the
      handlers; the role check of [require_role] comes before the handler
      and is taken as passed.
    - The bookkeeping columns [created_at] and [updated_at] are left out. *)

From Stdlib Require Import ZArith Floats String.
From stdpp Require Import gmap list sorting relations.

Local Open Scope Z_scope.

Abbreviation UUID := N.
Abbreviation datetime := Z.

(** ** [decimal.Decimal] *)

(** [Decimal "12.50"] is [mkDecimal 1250 2]: the value is
    [coefficient / 10 ^ places]. *)
Record Decimal := mkDecimal { coefficient : Z; places : nat }.

Definition rescale (d : Decimal) (p : nat) : Z :=
  coefficient d * 10 ^ Z.of_nat (p - places d).

(** [a + b]: the result has the larger number of fractional digits. *)
Definition dec_add (a b : Decimal) : Decimal :=
  let p := Nat.max (places a) (places b) in
  mkDecimal (rescale a p + rescale b p) p.

(** [a * b]: coefficients multiply, fractional digits add up. *)
Definition dec_mul (a b : Decimal) : Decimal :=
  mkDecimal (coefficient a * coefficient b) (places a + places b).

(** [a * n] for a Python [int] [n], which converts to [Decimal(n)]. *)
Definition dec_mul_int (a : Decimal) (n : Z) : Decimal :=
  dec_mul a (mkDecimal n 0).


(** [n / q] rounded to the nearest integer, ties away from zero: the rounding
    PostgreSQL applies when a value is stored in a [numeric(p, s)] column. *)
Definition round_half_away (n q : Z) : Z :=
  if 0 <=? n then (2 * n + q) / (2 * q) else - ((2 * - n + q) / (2 * q)).

(** [n / q] rounded to the nearest integer, ties to even: Python's [round]
    on a [Decimal]. *)
Definition round_half_even (n q : Z) : Z :=
  let f := n / q in
  let r := n mod q in
  if 2 * r <? q then f
  else if q <? 2 * r then f + 1
  else if Z.even f then f else f + 1.

(** A decimal brought to two fractional digits with the given rounding; the
    result is a number of cents. *)
Definition quantize_cents (rnd : Z -> Z -> Z) (d : Decimal) : Z :=
  if (places d <=? 2)%nat then coefficient d * 10 ^ Z.of_nat (2 - places d)
  else rnd (coefficient d) (10 ^ Z.of_nat (places d - 2)).

(** Python's [round(d, 2)], in cents. *)
Definition py_round_2 (d : Decimal) : Z := quantize_cents round_half_even d.

(** Reading a [Numeric(10, 2)] column gives a [Decimal] with two places. *)
Definition as_decimal (cents : Z) : Decimal := mkDecimal cents 2.

(** *** Arithmetic in the default context

    [a + b] and [a * b] on [Decimal] compute the exact result and round it
    to the precision of the context, 28 significant digits, ties to even.
    [dec_add] and [dec_mul] are the exact results. A [Decimal] is kept here
    by its value, [coefficient / 10 ^ places]; the rounding depends on the
    value only, and so does everything the handlers do with the result. The
    exponent limits of the context are out of reach of the decimals of
    floats. *)

(** The number of digits that [n] has above 28. *)
Fixpoint excess_digits (fuel : nat) (n : Z) : nat :=
  match fuel with
  | O => O
  | S fuel => if n <? 10 ^ 28 then O else S (excess_digits fuel (n / 10))
  end.

(** A result brought to 28 significant digits. *)
Definition round_context (d : Decimal) : Decimal :=
  let n := Z.abs (coefficient d) in
  let k := excess_digits (Z.to_nat (Z.log2 n)) n in
  let c := Z.sgn (coefficient d) * round_half_even n (10 ^ Z.of_nat k) in
  if (k <=? places d)%nat then mkDecimal c (places d - k)
  else mkDecimal (c * 10 ^ Z.of_nat (k - places d)) 0.

(** A [Decimal] object: a finite decimal, an infinity or a quiet NaN. *)
Module PyDecimal.
Inductive t :=
| Finite (d : Decimal)
| Infinity (negative : bool)
| NaN.
End PyDecimal.

(** [a + b] for a finite [a]. *)
Definition ctx_add (a : Decimal) (b : PyDecimal.t) : PyDecimal.t :=
  match b with
  | PyDecimal.Finite b => PyDecimal.Finite (round_context (dec_add a b))
  | PyDecimal.Infinity negative => PyDecimal.Infinity negative
  | PyDecimal.NaN => PyDecimal.NaN
  end.

(** [a * b] for a finite [b] other than zero (an infinity times zero is an
    invalid operation). *)
Definition ctx_mul (a : PyDecimal.t) (b : Decimal) : PyDecimal.t :=
  match a with
  | PyDecimal.Finite a => PyDecimal.Finite (round_context (dec_mul a b))
  | PyDecimal.Infinity negative =>
      PyDecimal.Infinity (xorb negative (coefficient b <? 0))
  | PyDecimal.NaN => PyDecimal.NaN
  end.

(** The value of a [Numeric(10, 2)] column: a number of cents, or the NaN
    of PostgreSQL's [numeric]. *)
Module Numeric.
Inductive t :=
| Cents (cents : Z)
| NaN.
End Numeric.
Coercion Numeric.Cents : Z >-> Numeric.t.

(** ** Enumerations of the models *)

Module OrderStatus.
Inductive t :=
| PENDING | CONFIRMED | PREPARING | READY | PICKED_UP | DELIVERED | CANCELLED.
End OrderStatus.

Module ParcelStatus.
Inductive t :=
| PENDING | ASSIGNED | PICKED_UP | IN_TRANSIT | DELIVERED | CANCELLED.
End ParcelStatus.

Module ParcelSize.
Inductive t := SMALL | MEDIUM | LARGE.
End ParcelSize.

Module TargetType.
Inductive t := RESTAURANT | DRIVER.
End TargetType.

#[global] Instance OrderStatus_eq_dec : EqDecision OrderStatus.t.
Proof. solve_decision. Defined.
#[global] Instance ParcelStatus_eq_dec : EqDecision ParcelStatus.t.
Proof. solve_decision. Defined.
#[global] Instance ParcelSize_eq_dec : EqDecision ParcelSize.t.
Proof. solve_decision. Defined.
#[global] Instance TargetType_eq_dec : EqDecision TargetType.t.
Proof. solve_decision. Defined.

(** ** Rows of the tables *)

Module Restaurant.
Record t := mk {
  is_active : bool;
  rating_average : float;
  delivery_fee : Z;             (* Numeric(10, 2) *)
}.
Definition set_rating_average (v : float) (r : t) : t :=
  mk (is_active r) v (delivery_fee r).
End Restaurant.

Module MenuItem.
Record t := mk {
  restaurant_id : UUID;
  price : Z;                    (* Numeric(10, 2) *)
  is_available : bool;
}.
End MenuItem.

Module FoodOrder.
Record t := mk {
  customer_id : UUID;
  restaurant_id : UUID;
  driver_id : option UUID;
  status : OrderStatus.t;
  delivery_address : string;
  delivery_latitude : option float;
  delivery_longitude : option float;
  subtotal : Z;                 (* Numeric(10, 2) *)
  delivery_fee : Z;             (* Numeric(10, 2) *)
  tax : Z;                      (* Numeric(10, 2) *)
  total_amount : Z;             (* Numeric(10, 2) *)
  special_instructions : option string;
  confirmed_at : option datetime;
  delivered_at : option datetime;
}.
Definition set_driver_id (v : option UUID) (o : t) : t :=
  mk (customer_id o) (restaurant_id o) v (status o) (delivery_address o)
     (delivery_latitude o) (delivery_longitude o) (subtotal o) (delivery_fee o)
     (tax o) (total_amount o) (special_instructions o) (confirmed_at o)
     (delivered_at o).
Definition set_status (v : OrderStatus.t) (o : t) : t :=
  mk (customer_id o) (restaurant_id o) (driver_id o) v (delivery_address o)
     (delivery_latitude o) (delivery_longitude o) (subtotal o) (delivery_fee o)
     (tax o) (total_amount o) (special_instructions o) (confirmed_at o)
     (delivered_at o).
Definition set_delivered_at (v : option datetime) (o : t) : t :=
  mk (customer_id o) (restaurant_id o) (driver_id o) (status o)
     (delivery_address o) (delivery_latitude o) (delivery_longitude o)
     (subtotal o) (delivery_fee o) (tax o) (total_amount o)
     (special_instructions o) (confirmed_at o) v.
End FoodOrder.

Module OrderItem.
Record t := mk {
  order_id : UUID;
  menu_item_id : UUID;
  quantity : Z;
  unit_price : Z;               (* Numeric(10, 2) *)
  total_price : Z;              (* Numeric(10, 2) *)
  special_instructions : option string;
}.
End OrderItem.

Module ParcelDelivery.
Record t := mk {
  sender_id : UUID;
  driver_id : option UUID;
  recipient_name : string;
  recipient_phone : string;
  pickup_address : string;
  pickup_latitude : option float;
  pickup_longitude : option float;
  delivery_address : string;
  delivery_latitude : option float;
  delivery_longitude : option float;
  parcel_description : option string;
  parcel_size : ParcelSize.t;
  weight_kg : option float;
  status : ParcelStatus.t;
  delivery_fee : Numeric.t;     (* Numeric(10, 2) *)
  estimated_distance_km : option float;
  picked_up_at : option datetime;
  delivered_at : option datetime;
}.
Definition set_driver_id (v : option UUID) (p : t) : t :=
  mk (sender_id p) v (recipient_name p) (recipient_phone p) (pickup_address p)
     (pickup_latitude p) (pickup_longitude p) (delivery_address p)
     (delivery_latitude p) (delivery_longitude p) (parcel_description p)
     (parcel_size p) (weight_kg p) (status p) (delivery_fee p)
     (estimated_distance_km p) (picked_up_at p) (delivered_at p).
Definition set_status (v : ParcelStatus.t) (p : t) : t :=
  mk (sender_id p) (driver_id p) (recipient_name p) (recipient_phone p)
     (pickup_address p) (pickup_latitude p) (pickup_longitude p)
     (delivery_address p) (delivery_latitude p) (delivery_longitude p)
     (parcel_description p) (parcel_size p) (weight_kg p) v (delivery_fee p)
     (estimated_distance_km p) (picked_up_at p) (delivered_at p).
Definition set_picked_up_at (v : option datetime) (p : t) : t :=
  mk (sender_id p) (driver_id p) (recipient_name p) (recipient_phone p)
     (pickup_address p) (pickup_latitude p) (pickup_longitude p)
     (delivery_address p) (delivery_latitude p) (delivery_longitude p)
     (parcel_description p) (parcel_size p) (weight_kg p) (status p)
     (delivery_fee p) (estimated_distance_km p) v (delivered_at p).
Definition set_delivered_at (v : option datetime) (p : t) : t :=
  mk (sender_id p) (driver_id p) (recipient_name p) (recipient_phone p)
     (pickup_address p) (pickup_latitude p) (pickup_longitude p)
     (delivery_address p) (delivery_latitude p) (delivery_longitude p)
     (parcel_description p) (parcel_size p) (weight_kg p) (status p)
     (delivery_fee p) (estimated_distance_km p) (picked_up_at p) v.
End ParcelDelivery.

Module Review.
Record t := mk {
  id : UUID;
  reviewer_id : UUID;
  target_type : TargetType.t;
  target_id : UUID;
  order_id : option UUID;
  rating : Z;
  comment : option string;
}.
End Review.

(** A driver profile; the table is keyed by its unique [user_id]. *)
Module DriverProfile.
Record t := mk {
  is_available : bool;
  rating_average : float;
  total_deliveries : Z;
}.
Definition set_rating_average (v : float) (d : t) : t :=
  mk (is_available d) v (total_deliveries d).
Definition set_total_deliveries (v : Z) (d : t) : t :=
  mk (is_available d) (rating_average d) v.
End DriverProfile.

(** ** The database *)

Record DB := mkDB {
  restaurants : gmap UUID Restaurant.t;
  menu_items : gmap UUID MenuItem.t;
  food_orders : gmap UUID FoodOrder.t;
  order_items : list OrderItem.t;
  parcel_deliveries : gmap UUID ParcelDelivery.t;
  reviews : list Review.t;
  driver_profiles : gmap UUID DriverProfile.t;
}.

Definition set_restaurants (v : gmap UUID Restaurant.t) (db : DB) : DB :=
  mkDB v (menu_items db) (food_orders db) (order_items db)
       (parcel_deliveries db) (reviews db) (driver_profiles db).
Definition set_food_orders (v : gmap UUID FoodOrder.t) (db : DB) : DB :=
  mkDB (restaurants db) (menu_items db) v (order_items db)
       (parcel_deliveries db) (reviews db) (driver_profiles db).
Definition set_order_items (v : list OrderItem.t) (db : DB) : DB :=
  mkDB (restaurants db) (menu_items db) (food_orders db) v
       (parcel_deliveries db) (reviews db) (driver_profiles db).
Definition set_parcel_deliveries (v : gmap UUID ParcelDelivery.t) (db : DB) : DB :=
  mkDB (restaurants db) (menu_items db) (food_orders db) (order_items db)
       v (reviews db) (driver_profiles db).
Definition set_reviews (v : list Review.t) (db : DB) : DB :=
  mkDB (restaurants db) (menu_items db) (food_orders db) (order_items db)
       (parcel_deliveries db) v (driver_profiles db).
Definition set_driver_profiles (v : gmap UUID DriverProfile.t) (db : DB) : DB :=
  mkDB (restaurants db) (menu_items db) (food_orders db) (order_items db)
       (parcel_deliveries db) (reviews db) v.

(** ** Exceptions and the handler monad *)

(** The [detail] of an [HTTPException]: a literal message, or one of the
    three formatted messages of the routers. *)
Inductive Detail :=
| Literal (msg : string)
| MenuItemNotAvailable (menu_item_id : UUID)
| CannotCancelOrder (s : OrderStatus.t)
| CannotCancelParcel (s : ParcelStatus.t).

Inductive Exception :=
| HTTPException (status_code : Z) (detail : Detail)
| IntegrityError  (* a generated primary key is already in the table *)
| DataError       (* a value does not fit the type of its column *)
| ValueError      (* math domain error *)
| AttributeError  (* attribute access on None *)
| TypeError.      (* arithmetic on None *)

Inductive Outcome (A : Type) :=
| Ok (a : A)
| Raise (e : Exception).
Arguments Ok {A} a.
Arguments Raise {A} e.

(** A handler runs against the database and leaves it in a new state. The
    handlers are [async def] without an [await], so within one server
    process a request runs from its first query to its last commit without
    another request in between. An
    exception ends the request; the writes made before it stay. In the
    handlers below every [raise] comes before the first write, but for the
    [AttributeError] of [review_restaurant], which comes after the
    [db.commit()] of the review, and for the [DataError] of a statement
    that the database refuses at [db.commit()], which undoes the writes of
    the request ([transaction]). *)
Definition Handler (A : Type) : Type := DB -> Outcome A * DB.

Definition ret {A} (a : A) : Handler A := fun db => (Ok a, db).

Definition raise {A} (e : Exception) : Handler A := fun db => (Raise e, db).

Definition bind {A B} (m : Handler A) (k : A -> Handler B) : Handler B :=
  fun db =>
    match m db with
    | (Ok a, db') => k a db'
    | (Raise e, db') => (Raise e, db')
    end.

Notation "'do' x <- m ; k" := (bind m (fun x => k))
  (at level 10, x name, m at level 100, k at level 200).
Notation "'exec' m ; k" := (bind m (fun _ => k))
  (at level 10, m at level 100, k at level 200).

(** A handler that only reads. *)
Definition read_only {A} (h : Handler A) : Prop := forall db, snd (h db) = db.

(** [db.query(T).filter(T.id == k).first()] on a keyed table. *)
Definition query_first {A} (table : DB -> gmap UUID A) (k : UUID)
  : Handler (option A) :=
  fun db => (Ok (table db !! k), db).

(** [db.query(Review).filter(...)] on the review rows. *)
Definition query_reviews (P : Review.t -> bool) : Handler (list Review.t) :=
  fun db => (Ok (List.filter P (reviews db)), db).

(** An assignment to a column of a row the session tracks, or [db.add]. *)
Definition write (f : DB -> DB) : Handler unit := fun db => (Ok tt, f db).

(** [db.commit()]: the writes of the request become durable. The model
    keeps one state, so this is a marker. *)
Definition db_commit : Handler unit := ret tt.

(** The statements of a request up to its [db.commit()] are one
    transaction: when the database refuses one of them, the exception
    leaves the handler, the session is closed without a commit, and the
    database is as it was before the first of them. *)
Definition transaction {A} (h : Handler A) : Handler A :=
  fun db =>
    match h db with
    | (Ok a, db') => (Ok a, db')
    | (Raise e, _) => (Raise e, db)
    end.

Definition save_food_order (k : UUID) (o : FoodOrder.t) : Handler unit :=
  write (fun db => set_food_orders (<[k := o]> (food_orders db)) db).
Definition save_parcel (k : UUID) (p : ParcelDelivery.t) : Handler unit :=
  write (fun db => set_parcel_deliveries (<[k := p]> (parcel_deliveries db)) db).
Definition save_driver_profile (k : UUID) (d : DriverProfile.t) : Handler unit :=
  write (fun db => set_driver_profiles (<[k := d]> (driver_profiles db)) db).
Definition save_restaurant (k : UUID) (r : Restaurant.t) : Handler unit :=
  write (fun db => set_restaurants (<[k := r]> (restaurants db)) db).

Definition HTTP_400_BAD_REQUEST : Z := 400.
Definition HTTP_403_FORBIDDEN : Z := 403.
Definition HTTP_404_NOT_FOUND : Z := 404.
Definition HTTP_422_UNPROCESSABLE_ENTITY : Z := 422.

(** Storing a [Decimal] in a [Numeric(10, 2)] column: PostgreSQL rounds to
    two fractional digits and rejects a value of more than ten digits. *)
Definition numeric_10_2 (d : Decimal) : Handler Z :=
  let c := quantize_cents round_half_away d in
  if Z.abs c <? 10 ^ 10 then ret c else raise DataError.

(** Storing a [Decimal] object in a [Numeric(10, 2)] column: psycopg2, the
    driver SQLAlchemy takes for PostgreSQL, sends every [Decimal] that is
    not finite as ['NaN'::numeric], which the column takes. *)
Definition numeric_column (d : PyDecimal.t) : Handler Numeric.t :=
  match d with
  | PyDecimal.Finite d => do cents <- numeric_10_2 d; ret (Numeric.Cents cents)
  | PyDecimal.Infinity _ | PyDecimal.NaN => ret Numeric.NaN
  end.

(** Storing a Python [int] in an [Integer] column, the [int4] of
    PostgreSQL. *)
Definition integer_column (n : Z) : Handler Z :=
  if (- 2 ^ 31 <=? n) && (n <? 2 ^ 31) then ret n else raise DataError.

(** ** app/routers/drivers.py *)

(** The two assignments of [accept_food_order] to the order it claims. *)
Definition claimed_order (current_user : UUID) (order : FoodOrder.t)
  : FoodOrder.t :=
  let order := FoodOrder.set_driver_id (Some current_user) order in
  if decide (FoodOrder.status order = OrderStatus.CONFIRMED)
  then FoodOrder.set_status OrderStatus.PREPARING order
  else order.

Definition accept_food_order (order_id : UUID) (current_user : UUID)
  : Handler string :=
  do order <- query_first food_orders order_id;
  match order with
  | None =>
      raise (HTTPException HTTP_404_NOT_FOUND (Literal "Order not found"))
  | Some order =>
      match FoodOrder.driver_id order with
      | Some _ =>
          raise (HTTPException HTTP_400_BAD_REQUEST
                   (Literal "Order already assigned to a driver"))
      | None =>
          let order := claimed_order current_user order in
          exec save_food_order order_id order;
          exec db_commit;
          ret "Order accepted successfully"%string
      end
  end.

Definition accept_parcel (parcel_id : UUID) (current_user : UUID)
  : Handler string :=
  do parcel <- query_first parcel_deliveries parcel_id;
  match parcel with
  | None =>
      raise (HTTPException HTTP_404_NOT_FOUND (Literal "Parcel not found"))
  | Some parcel =>
      match ParcelDelivery.driver_id parcel with
      | Some _ =>
          raise (HTTPException HTTP_400_BAD_REQUEST
                   (Literal "Parcel already assigned to a driver"))
      | None =>
          let parcel := ParcelDelivery.set_driver_id (Some current_user) parcel in
          let parcel := ParcelDelivery.set_status ParcelStatus.ASSIGNED parcel in
          exec save_parcel parcel_id parcel;
          exec db_commit;
          ret "Parcel accepted successfully"%string
      end
  end.

(** [driver_profile.total_deliveries += 1] when the profile exists; the
    column is an [Integer]. *)
Definition bump_total_deliveries (current_user : UUID) : Handler unit :=
  do driver_profile <- query_first driver_profiles current_user;
  match driver_profile with
  | Some driver_profile =>
      do total_deliveries <-
        integer_column (DriverProfile.total_deliveries driver_profile + 1);
      save_driver_profile current_user
        (DriverProfile.set_total_deliveries total_deliveries driver_profile)
  | None => ret tt
  end.

Definition update_order_status (order_id : UUID) (new_status : OrderStatus.t)
    (current_user : UUID) (utcnow : datetime) : Handler string :=
  do order <- query_first food_orders order_id;
  match order with
  | None =>
      raise (HTTPException HTTP_404_NOT_FOUND (Literal "Order not found"))
  | Some order =>
      if decide (FoodOrder.driver_id order <> Some current_user)
      then raise (HTTPException HTTP_403_FORBIDDEN
                    (Literal "Not authorized to update this order"))
      else
        transaction
          (let order := FoodOrder.set_status new_status order in
           exec save_food_order order_id order;
           exec (if decide (new_status = OrderStatus.DELIVERED)
                 then
                   let order := FoodOrder.set_delivered_at (Some utcnow) order in
                   exec save_food_order order_id order;
                   (* Update driver's total deliveries *)
                   bump_total_deliveries current_user
                 else ret tt);
           exec db_commit;
           ret "Order status updated successfully"%string)
  end.

Definition update_parcel_status (parcel_id : UUID) (new_status : ParcelStatus.t)
    (current_user : UUID) (utcnow : datetime) : Handler string :=
  do parcel <- query_first parcel_deliveries parcel_id;
  match parcel with
  | None =>
      raise (HTTPException HTTP_404_NOT_FOUND (Literal "Parcel not found"))
  | Some parcel =>
      if decide (ParcelDelivery.driver_id parcel <> Some current_user)
      then raise (HTTPException HTTP_403_FORBIDDEN
                    (Literal "Not authorized to update this parcel"))
      else
        transaction
          (let parcel := ParcelDelivery.set_status new_status parcel in
           exec save_parcel parcel_id parcel;
           exec (if decide (new_status = ParcelStatus.PICKED_UP)
                 then
                   save_parcel parcel_id
                     (ParcelDelivery.set_picked_up_at (Some utcnow) parcel)
                 else if decide (new_status = ParcelStatus.DELIVERED)
                 then
                   let parcel :=
                     ParcelDelivery.set_delivered_at (Some utcnow) parcel in
                   exec save_parcel parcel_id parcel;
                   (* Update driver's total deliveries *)
                   bump_total_deliveries current_user
                 else ret tt);
           exec db_commit;
           ret "Parcel status updated successfully"%string)
  end.

(** ** app/schemas *)

Module OrderItemCreate.
Record t := mk {
  menu_item_id : UUID;
  quantity : Z;
  special_instructions : option string;
}.
End OrderItemCreate.

Module FoodOrderCreate.
Record t := mk {
  restaurant_id : UUID;
  delivery_address : string;
  delivery_latitude : option float;
  delivery_longitude : option float;
  special_instructions : option string;
  items : list OrderItemCreate.t;
}.
End FoodOrderCreate.

Module ReviewCreate.
Record t := mk {
  rating : Z;                   (* Field(ge=1, le=5) *)
  comment : option string;
}.
Definition valid (r : t) : bool := (1 <=? rating r) && (rating r <=? 5).
(** The request body is validated before the handler runs. *)
Definition validate (r : t) : Handler unit :=
  if valid r then ret tt
  else raise (HTTPException HTTP_422_UNPROCESSABLE_ENTITY
                (Literal "rating must be between 1 and 5")).
End ReviewCreate.

Module ParcelDeliveryCreate.
Record t := mk {
  recipient_name : string;
  recipient_phone : string;
  pickup_address : string;
  pickup_latitude : option float;
  pickup_longitude : option float;
  delivery_address : string;
  delivery_latitude : option float;
  delivery_longitude : option float;
  parcel_description : option string;
  parcel_size : ParcelSize.t;
  weight_kg : option float;
}.
End ParcelDeliveryCreate.

(** ** app/routers/food_orders.py *)

(** One entry of [order_items_to_create]. *)
Record item_data := mk_item_data {
  item_menu_item_id : UUID;
  item_quantity : Z;
  item_unit_price : Decimal;
  item_total_price : Decimal;
  item_special_instructions : option string;
}.

(** The loop [for item in order_data.items] of [create_food_order], with
    its two accumulators. *)
Fixpoint price_items (items : list OrderItemCreate.t) (subtotal : Decimal)
    (order_items_to_create : list item_data)
  : Handler (Decimal * list item_data) :=
  match items with
  | [] => ret (subtotal, order_items_to_create)
  | item :: rest =>
      do menu_item <- query_first menu_items (OrderItemCreate.menu_item_id item);
      match menu_item with
      | None =>
          raise (HTTPException HTTP_400_BAD_REQUEST
                   (MenuItemNotAvailable (OrderItemCreate.menu_item_id item)))
      | Some menu_item =>
          if negb (MenuItem.is_available menu_item)
          then raise (HTTPException HTTP_400_BAD_REQUEST
                        (MenuItemNotAvailable (OrderItemCreate.menu_item_id item)))
          else
            let price := as_decimal (MenuItem.price menu_item) in
            let item_total := dec_mul_int price (OrderItemCreate.quantity item) in
            price_items rest (dec_add subtotal item_total)
              (order_items_to_create ++
               [mk_item_data (OrderItemCreate.menu_item_id item)
                  (OrderItemCreate.quantity item) price item_total
                  (OrderItemCreate.special_instructions item)])
      end
  end.

(** [OrderItem(order_id=new_order.id, **item_data)] as the row the database
    stores. *)
Definition order_item_row (order_id : UUID) (d : item_data)
  : Handler OrderItem.t :=
  do quantity <- integer_column (item_quantity d);
  do unit_price <- numeric_10_2 (item_unit_price d);
  do total_price <- numeric_10_2 (item_total_price d);
  ret (OrderItem.mk order_id (item_menu_item_id d) quantity
         unit_price total_price (item_special_instructions d)).

Fixpoint order_item_rows (order_id : UUID) (ds : list item_data)
  : Handler (list OrderItem.t) :=
  match ds with
  | [] => ret []
  | d :: ds =>
      do row <- order_item_row order_id d;
      do rows <- order_item_rows order_id ds;
      ret (row :: rows)
  end.

(** [new_uuid] is the [uuid.uuid4()] default of [FoodOrder.id]. A failed
    flush or commit rolls the transaction back, so the values of all rows
    are checked against their columns before the first write. *)
Definition create_food_order (order_data : FoodOrderCreate.t)
    (current_user : UUID) (new_uuid : UUID) : Handler FoodOrder.t :=
  do restaurant <- query_first restaurants (FoodOrderCreate.restaurant_id order_data);
  match restaurant with
  | None =>
      raise (HTTPException HTTP_404_NOT_FOUND
               (Literal "Restaurant not found or inactive"))
  | Some restaurant =>
      if negb (Restaurant.is_active restaurant)
      then raise (HTTPException HTTP_404_NOT_FOUND
                    (Literal "Restaurant not found or inactive"))
      else
        do priced <- price_items (FoodOrderCreate.items order_data)
                       (mkDecimal 0 1) (* Decimal("0.0") *) [];
        let subtotal := fst priced in
        let order_items_to_create := snd priced in
        let delivery_fee := as_decimal (Restaurant.delivery_fee restaurant) in
        let tax := dec_mul subtotal (mkDecimal 8 2) (* Decimal("0.08") *) in
        let total_amount := dec_add (dec_add subtotal delivery_fee) tax in
        do subtotal_col <- numeric_10_2 subtotal;
        do delivery_fee_col <- numeric_10_2 delivery_fee;
        do tax_col <- numeric_10_2 tax;
        do total_amount_col <- numeric_10_2 total_amount;
        let new_order :=
          FoodOrder.mk current_user (FoodOrderCreate.restaurant_id order_data)
            None OrderStatus.PENDING
            (FoodOrderCreate.delivery_address order_data)
            (FoodOrderCreate.delivery_latitude order_data)
            (FoodOrderCreate.delivery_longitude order_data)
            subtotal_col delivery_fee_col tax_col total_amount_col
            (FoodOrderCreate.special_instructions order_data)
            None None in
        do clash <- query_first food_orders new_uuid;
        match clash with
        | Some _ => raise IntegrityError
        | None =>
            do rows <- order_item_rows new_uuid order_items_to_create;
            exec save_food_order new_uuid new_order;
            exec write (fun db => set_order_items (order_items db ++ rows) db);
            exec db_commit;
            ret new_order
        end
  end.

Definition cancel_order (order_id : UUID) (current_user : UUID)
  : Handler string :=
  do order <- query_first food_orders order_id;
  match order with
  | None =>
      raise (HTTPException HTTP_404_NOT_FOUND (Literal "Order not found"))
  | Some order =>
      if decide (FoodOrder.customer_id order <> current_user)
      then raise (HTTPException HTTP_403_FORBIDDEN
                    (Literal "Not authorized to cancel this order"))
      else if negb (bool_decide
                      (FoodOrder.status order
                         ∈ [OrderStatus.PENDING; OrderStatus.CONFIRMED]))
      then raise (HTTPException HTTP_400_BAD_REQUEST
                    (CannotCancelOrder (FoodOrder.status order)))
      else
        exec save_food_order order_id
               (FoodOrder.set_status OrderStatus.CANCELLED order);
        exec db_commit;
        ret "Order cancelled successfully"%string
  end.

(** [int(z)] as a [float]; exact below [2 ^ 53]. *)
Definition float_of_Z (z : Z) : float :=
  if z <? 0 then PrimFloat.opp (PrimFloat.of_uint63 (Uint63.of_Z (- z)))
  else PrimFloat.of_uint63 (Uint63.of_Z z).

(** [a / b] on two Python integers: true division, a [float]. *)
Definition py_truediv (a b : Z) : float :=
  PrimFloat.div (float_of_Z a) (float_of_Z b).

(** [sum(r.rating for r in rs) / len(rs)]. *)
Definition sum_ratings (rs : list Review.t) : Z :=
  fold_right Z.add 0 (List.map Review.rating rs).

Definition avg_rating (rs : list Review.t) : float :=
  py_truediv (sum_ratings rs) (Z.of_nat (length rs)).

(** The filter [Review.order_id == k, Review.reviewer_id == u,
    Review.target_type == tt]. *)
Definition review_of (k : UUID) (u : UUID) (tt : TargetType.t) (r : Review.t)
  : bool :=
  bool_decide (Review.order_id r = Some k) &&
  bool_decide (Review.reviewer_id r = u) &&
  bool_decide (Review.target_type r = tt).

(** The filter [Review.target_type == tt, Review.target_id == k]. *)
Definition review_targets (tt : TargetType.t) (k : UUID) (r : Review.t)
  : bool :=
  bool_decide (Review.target_type r = tt) &&
  bool_decide (Review.target_id r = k).

(** [db.add(review); db.commit()]; [Review.id] is a fresh [uuid.uuid4()]. *)
Definition add_review (review : Review.t) : Handler unit :=
  do rows <- query_reviews (fun r => bool_decide (Review.id r = Review.id review));
  match rows with
  | _ :: _ => raise IntegrityError
  | [] =>
      exec write (fun db => set_reviews (reviews db ++ [review]) db);
      db_commit
  end.

Definition review_restaurant (order_id : UUID) (review_data : ReviewCreate.t)
    (current_user : UUID) (new_uuid : UUID) : Handler Review.t :=
  exec ReviewCreate.validate review_data;
  do order <- query_first food_orders order_id;
  match order with
  | None =>
      raise (HTTPException HTTP_404_NOT_FOUND (Literal "Order not found"))
  | Some order =>
      if decide (FoodOrder.customer_id order <> current_user)
      then raise (HTTPException HTTP_403_FORBIDDEN
                    (Literal "Not authorized to review this order"))
      else if decide (FoodOrder.status order <> OrderStatus.DELIVERED)
      then raise (HTTPException HTTP_400_BAD_REQUEST
                    (Literal "Can only review delivered orders"))
      else
        do existing_review <-
          query_reviews (review_of order_id current_user TargetType.RESTAURANT);
        match existing_review with
        | _ :: _ =>
            raise (HTTPException HTTP_400_BAD_REQUEST
                     (Literal "Order already reviewed"))
        | [] =>
            let review :=
              Review.mk new_uuid current_user TargetType.RESTAURANT
                (FoodOrder.restaurant_id order) (Some order_id)
                (ReviewCreate.rating review_data)
                (ReviewCreate.comment review_data) in
            exec add_review review;
            do restaurant_reviews <-
              query_reviews (review_targets TargetType.RESTAURANT
                               (FoodOrder.restaurant_id order));
            exec (match restaurant_reviews with
                  | [] => ret tt
                  | _ :: _ =>
                      let avg_rating := avg_rating restaurant_reviews in
                      do restaurant <-
                        query_first restaurants (FoodOrder.restaurant_id order);
                      match restaurant with
                      | None => raise AttributeError
                      | Some restaurant =>
                          exec save_restaurant (FoodOrder.restaurant_id order)
                                 (Restaurant.set_rating_average avg_rating
                                    restaurant);
                          db_commit
                      end
                  end);
            ret review
        end
  end.

(** ** app/routers/parcels.py *)

(** What the handlers take from the Python runtime: the functions of
    [math] that IEEE 754 does not fix ([libm_sin] and [libm_cos] are the
    sine and cosine of the C library), [float ** int], and
    [Decimal(str(x))] for a finite float [x]: the decimal that [repr]
    prints, by value ([1e+30] is [mkDecimal (10 ^ 30) 0]). *)
Class PythonRuntime := {
  math_radians : float -> float;
  libm_sin : float -> float;
  libm_cos : float -> float;
  math_atan2 : float -> float -> float;
  float_pow : float -> Z -> float;
  Decimal_of_str : float -> Decimal;
}.

(** [math.sqrt]: a negative argument is a domain error. *)
Definition math_sqrt (x : float) : Handler float :=
  if PrimFloat.ltb x 0%float then raise ValueError else ret (PrimFloat.sqrt x).

(** [math.sin] and [math.cos]: an infinite argument is a domain error; a
    NaN gives a NaN. *)
Definition math_sin `{PythonRuntime} (x : float) : Handler float :=
  if PrimFloat.is_infinity x then raise ValueError else ret (libm_sin x).
Definition math_cos `{PythonRuntime} (x : float) : Handler float :=
  if PrimFloat.is_infinity x then raise ValueError else ret (libm_cos x).

(** [bool(x)] for an [Optional[float]]: [None], [0.0] and [-0.0] are false. *)
Definition truthy (x : option float) : bool :=
  match x with
  | None => false
  | Some f => negb (PrimFloat.eqb f 0%float)
  end.

Section Parcels.
Context `{PythonRuntime}.

Definition size_multiplier (parcel_size : ParcelSize.t) : Decimal :=
  match parcel_size with
  | ParcelSize.SMALL => mkDecimal 10 1   (* Decimal("1.0") *)
  | ParcelSize.MEDIUM => mkDecimal 15 1  (* Decimal("1.5") *)
  | ParcelSize.LARGE => mkDecimal 20 1   (* Decimal("2.0") *)
  end.

(** [Decimal(str(x))]: [str] prints a NaN as ["nan"] and an infinity as
    ["inf"] or ["-inf"], which [Decimal] reads as its own NaN and
    infinities. *)
Definition Decimal_of_float (x : float) : PyDecimal.t :=
  if PrimFloat.is_nan x then PyDecimal.NaN
  else if PrimFloat.is_infinity x then PyDecimal.Infinity (PrimFloat.ltb x 0)
  else PyDecimal.Finite (Decimal_of_str x).

Definition calculate_delivery_fee (distance_km : float)
    (parcel_size : ParcelSize.t) : PyDecimal.t :=
  let base_fee := mkDecimal 50 1 (* Decimal("5.0") *) in
  let distance_fee :=
    ctx_mul (Decimal_of_float distance_km) (mkDecimal 20 1) (* Decimal("2.0") *) in
  let total_fee :=
    ctx_mul (ctx_add base_fee distance_fee) (size_multiplier parcel_size) in
  total_fee.

Definition calculate_distance (lat1 lon1 lat2 lon2 : float) : Handler float :=
  let R := float_of_Z 6371 in
  let dlat := math_radians (lat2 - lat1)%float in
  let dlon := math_radians (lon2 - lon1)%float in
  do sin_dlat <- math_sin (dlat / 2)%float;
  do cos_lat1 <- math_cos (math_radians lat1);
  do cos_lat2 <- math_cos (math_radians lat2);
  do sin_dlon <- math_sin (dlon / 2)%float;
  let a :=
    (float_pow sin_dlat 2 + cos_lat1 * cos_lat2 * float_pow sin_dlon 2)%float in
  do sqrt_a <- math_sqrt a;
  do sqrt_1_a <- math_sqrt (1 - a)%float;
  let c := (2 * math_atan2 sqrt_a sqrt_1_a)%float in
  ret (R * c)%float.

(** [new_uuid] is the [uuid.uuid4()] default of [ParcelDelivery.id]. *)
Definition create_parcel_delivery (parcel_data : ParcelDeliveryCreate.t)
    (current_user : UUID) (new_uuid : UUID) : Handler ParcelDelivery.t :=
  do distance_km <-
    if forallb truthy
         [ParcelDeliveryCreate.pickup_latitude parcel_data;
          ParcelDeliveryCreate.pickup_longitude parcel_data;
          ParcelDeliveryCreate.delivery_latitude parcel_data;
          ParcelDeliveryCreate.delivery_longitude parcel_data]
    then
      match ParcelDeliveryCreate.pickup_latitude parcel_data,
            ParcelDeliveryCreate.pickup_longitude parcel_data,
            ParcelDeliveryCreate.delivery_latitude parcel_data,
            ParcelDeliveryCreate.delivery_longitude parcel_data with
      | Some lat1, Some lon1, Some lat2, Some lon2 =>
          calculate_distance lat1 lon1 lat2 lon2
      | _, _, _, _ => raise TypeError (* not reached: [None] is not truthy *)
      end
    else
      (* Default distance estimate *)
      ret 5%float;
  let delivery_fee :=
    calculate_delivery_fee distance_km
      (ParcelDeliveryCreate.parcel_size parcel_data) in
  do delivery_fee_col <- numeric_column delivery_fee;
  let parcel :=
    ParcelDelivery.mk current_user None
      (ParcelDeliveryCreate.recipient_name parcel_data)
      (ParcelDeliveryCreate.recipient_phone parcel_data)
      (ParcelDeliveryCreate.pickup_address parcel_data)
      (ParcelDeliveryCreate.pickup_latitude parcel_data)
      (ParcelDeliveryCreate.pickup_longitude parcel_data)
      (ParcelDeliveryCreate.delivery_address parcel_data)
      (ParcelDeliveryCreate.delivery_latitude parcel_data)
      (ParcelDeliveryCreate.delivery_longitude parcel_data)
      (ParcelDeliveryCreate.parcel_description parcel_data)
      (ParcelDeliveryCreate.parcel_size parcel_data)
      (ParcelDeliveryCreate.weight_kg parcel_data)
      ParcelStatus.PENDING delivery_fee_col (Some distance_km) None None in
  do clash <- query_first parcel_deliveries new_uuid;
  match clash with
  | Some _ => raise IntegrityError
  | None =>
      exec save_parcel new_uuid parcel;
      exec db_commit;
      ret parcel
  end.

End Parcels.

Definition cancel_parcel (parcel_id : UUID) (current_user : UUID)
  : Handler string :=
  do parcel <- query_first parcel_deliveries parcel_id;
  match parcel with
  | None =>
      raise (HTTPException HTTP_404_NOT_FOUND
               (Literal "Parcel delivery not found"))
  | Some parcel =>
      if decide (ParcelDelivery.sender_id parcel <> current_user)
      then raise (HTTPException HTTP_403_FORBIDDEN
                    (Literal "Not authorized to cancel this parcel"))
      else if negb (bool_decide
                      (ParcelDelivery.status parcel
                         ∈ [ParcelStatus.PENDING; ParcelStatus.ASSIGNED]))
      then raise (HTTPException HTTP_400_BAD_REQUEST
                    (CannotCancelParcel (ParcelDelivery.status parcel)))
      else
        exec save_parcel parcel_id
               (ParcelDelivery.set_status ParcelStatus.CANCELLED parcel);
        exec db_commit;
        ret "Parcel delivery cancelled successfully"%string
  end.

Definition review_driver (parcel_id : UUID) (review_data : ReviewCreate.t)
    (current_user : UUID) (new_uuid : UUID) : Handler Review.t :=
  exec ReviewCreate.validate review_data;
  do parcel <- query_first parcel_deliveries parcel_id;
  match parcel with
  | None =>
      raise (HTTPException HTTP_404_NOT_FOUND
               (Literal "Parcel delivery not found"))
  | Some parcel =>
      if decide (ParcelDelivery.sender_id parcel <> current_user)
      then raise (HTTPException HTTP_403_FORBIDDEN
                    (Literal "Not authorized to review this delivery"))
      else if decide (ParcelDelivery.status parcel <> ParcelStatus.DELIVERED)
      then raise (HTTPException HTTP_400_BAD_REQUEST
                    (Literal "Can only review delivered parcels"))
      else
        match ParcelDelivery.driver_id parcel with
        | None =>
            raise (HTTPException HTTP_400_BAD_REQUEST
                     (Literal "No driver assigned to this delivery"))
        | Some driver_id =>
            do existing_review <-
              query_reviews (review_of parcel_id current_user TargetType.DRIVER);
            match existing_review with
            | _ :: _ =>
                raise (HTTPException HTTP_400_BAD_REQUEST
                         (Literal "Delivery already reviewed"))
            | [] =>
                let review :=
                  Review.mk new_uuid current_user TargetType.DRIVER driver_id
                    (Some parcel_id) (ReviewCreate.rating review_data)
                    (ReviewCreate.comment review_data) in
                exec add_review review;
                do driver_reviews <-
                  query_reviews (review_targets TargetType.DRIVER driver_id);
                exec (match driver_reviews with
                      | [] => ret tt
                      | _ :: _ =>
                          let avg_rating := avg_rating driver_reviews in
                          do driver_profile <-
                            query_first driver_profiles driver_id;
                          match driver_profile with
                          | Some driver_profile =>
                              exec save_driver_profile driver_id
                                     (DriverProfile.set_rating_average
                                        avg_rating driver_profile);
                              db_commit
                          | None => ret tt
                          end
                      end);
                ret review
            end
        end
  end.

(** ** Listings and the other handlers of the routers *)

Module UserRole.
Inductive t := CUSTOMER | DRIVER | ADMIN.
End UserRole.

#[global] Instance UserRole_eq_dec : EqDecision UserRole.t.
Proof. solve_decision. Defined.

(** The authenticated principal, where a handler reads its role. *)
Module User.
Record t := mk {
  id : UUID;
  role : UserRole.t;
}.
End User.

(** [skip: int = Query(0, ge=0)] and [limit: int = Query(50, le=100)]: the
    query parameters are validated before the handler runs. *)
Definition validate_page (skip limit : Z) : Handler unit :=
  if (0 <=? skip) && (limit <=? 100) then ret tt
  else raise (HTTPException HTTP_422_UNPROCESSABLE_ENTITY
                (Literal "skip must be at least 0, limit at most 100")).

(** [db.query(T).filter(...)] on a keyed table: the rows with their keys. *)
Definition query_all {A} (table : DB -> gmap UUID A) (P : UUID * A -> bool)
  : Handler (list (UUID * A)) :=
  fun db => (Ok (List.filter P (map_to_list (table db))), db).

(** [created_at] is a column of the job tables that the rows above leave
    out; a listing that orders by it takes it as a function of the key.
    Rows of equal [created_at], whose order SQL leaves open, come as the
    sort below puts them. *)
Definition earlier {A} (created_at : UUID -> datetime) : relation (UUID * A) :=
  fun x y => created_at (fst x) <= created_at (fst y).

Definition later {A} (created_at : UUID -> datetime) : relation (UUID * A) :=
  fun x y => created_at (fst y) <= created_at (fst x).

#[global] Instance earlier_dec {A} created_at : RelDecision (@earlier A created_at).
Proof. intros x y. unfold earlier. apply _. Defined.
#[global] Instance later_dec {A} created_at : RelDecision (@later A created_at).
Proof. intros x y. unfold later. apply _. Defined.

(** [.offset(skip).limit(limit).all()]; PostgreSQL refuses a negative
    limit. It takes the offset as a [bigint]: this is the listing at an
    offset below 2 ^ 63, a bound beyond the rows of any table; at a larger
    offset PostgreSQL raises a [DataError] where this gives the empty
    page. *)
Definition offset_limit {A} (skip limit : Z) (rows : list A) : Handler (list A) :=
  if limit <? 0 then raise DataError
  else ret (take (Z.to_nat limit) (drop (Z.to_nat skip) rows)).

(** The filter of [get_available_food_orders]. *)
Definition available_order (row : UUID * FoodOrder.t) : bool :=
  bool_decide (FoodOrder.driver_id (snd row) = None) &&
  bool_decide (FoodOrder.status (snd row)
                 ∈ [OrderStatus.CONFIRMED; OrderStatus.READY]).

Definition get_available_food_orders (created_at : UUID -> datetime)
    (skip limit : Z) : Handler (list (UUID * FoodOrder.t)) :=
  exec validate_page skip limit;
  do orders <- query_all food_orders available_order;
  offset_limit skip limit (merge_sort (earlier created_at) orders).

(** The filter of [get_available_parcels]. *)
Definition available_parcel (row : UUID * ParcelDelivery.t) : bool :=
  bool_decide (ParcelDelivery.driver_id (snd row) = None) &&
  bool_decide (ParcelDelivery.status (snd row) = ParcelStatus.PENDING).

Definition get_available_parcels (created_at : UUID -> datetime)
    (skip limit : Z) : Handler (list (UUID * ParcelDelivery.t)) :=
  exec validate_page skip limit;
  do parcels <- query_all parcel_deliveries available_parcel;
  offset_limit skip limit (merge_sort (earlier created_at) parcels).

(** The two filters of [get_current_deliveries]. *)
Definition current_order (current_user : UUID) (row : UUID * FoodOrder.t)
  : bool :=
  bool_decide (FoodOrder.driver_id (snd row) = Some current_user) &&
  bool_decide (FoodOrder.status (snd row)
                 ∈ [OrderStatus.PREPARING; OrderStatus.READY;
                    OrderStatus.PICKED_UP]).

Definition current_parcel (current_user : UUID) (row : UUID * ParcelDelivery.t)
  : bool :=
  bool_decide (ParcelDelivery.driver_id (snd row) = Some current_user) &&
  bool_decide (ParcelDelivery.status (snd row)
                 ∈ [ParcelStatus.ASSIGNED; ParcelStatus.PICKED_UP;
                    ParcelStatus.IN_TRANSIT]).

(** The two lists of the answer, ["food_orders"] and ["parcels"]. *)
Definition get_current_deliveries (current_user : UUID)
  : Handler (list (UUID * FoodOrder.t) * list (UUID * ParcelDelivery.t)) :=
  do food_orders <- query_all food_orders (current_order current_user);
  do parcels <- query_all parcel_deliveries (current_parcel current_user);
  ret (food_orders, parcels).

Definition set_is_available (v : bool) (d : DriverProfile.t) : DriverProfile.t :=
  DriverProfile.mk v (DriverProfile.rating_average d)
    (DriverProfile.total_deliveries d).

Definition update_availability (is_available : bool) (current_user : UUID)
  : Handler (string * bool) :=
  do driver_profile <- query_first driver_profiles current_user;
  match driver_profile with
  | None =>
      raise (HTTPException HTTP_404_NOT_FOUND
               (Literal "Driver profile not found"))
  | Some driver_profile =>
      exec save_driver_profile current_user
             (set_is_available is_available driver_profile);
      exec db_commit;
      ret ("Availability updated successfully"%string, is_available)
  end.

Definition list_user_orders (created_at : UUID -> datetime) (skip limit : Z)
    (current_user : UUID) : Handler (list (UUID * FoodOrder.t)) :=
  exec validate_page skip limit;
  do orders <-
    query_all food_orders
      (fun row => bool_decide (FoodOrder.customer_id (snd row) = current_user));
  offset_limit skip limit (merge_sort (later created_at) orders).

Definition get_order_details (order_id : UUID) (current_user : User.t)
  : Handler FoodOrder.t :=
  do order <- query_first food_orders order_id;
  match order with
  | None =>
      raise (HTTPException HTTP_404_NOT_FOUND (Literal "Order not found"))
  | Some order =>
      (* Ensure user owns the order or is a driver/admin *)
      if bool_decide (FoodOrder.customer_id order <> User.id current_user) &&
         negb (bool_decide (User.role current_user
                              ∈ [UserRole.DRIVER; UserRole.ADMIN]))
      then raise (HTTPException HTTP_403_FORBIDDEN
                    (Literal "Not authorized to view this order"))
      else ret order
  end.

Definition list_user_parcels (created_at : UUID -> datetime) (skip limit : Z)
    (current_user : UUID) : Handler (list (UUID * ParcelDelivery.t)) :=
  exec validate_page skip limit;
  do parcels <-
    query_all parcel_deliveries
      (fun row => bool_decide (ParcelDelivery.sender_id (snd row) = current_user));
  offset_limit skip limit (merge_sort (later created_at) parcels).

Definition get_parcel_details (parcel_id : UUID) (current_user : User.t)
  : Handler ParcelDelivery.t :=
  do parcel <- query_first parcel_deliveries parcel_id;
  match parcel with
  | None =>
      raise (HTTPException HTTP_404_NOT_FOUND
               (Literal "Parcel delivery not found"))
  | Some parcel =>
      (* Ensure user owns the parcel or is a driver/admin *)
      if bool_decide (ParcelDelivery.sender_id parcel <> User.id current_user) &&
         negb (bool_decide (User.role current_user
                              ∈ [UserRole.DRIVER; UserRole.ADMIN]))
      then raise (HTTPException HTTP_403_FORBIDDEN
                    (Literal "Not authorized to view this parcel"))
      else ret parcel
  end.

(** [delete_review] of [app/routers/admin.py]: [db.delete(review)] removes
    the row of that primary key. *)
Definition delete_review (review_id : UUID) : Handler string :=
  do review <- query_reviews (fun r => bool_decide (Review.id r = review_id));
  match review with
  | [] =>
      raise (HTTPException HTTP_404_NOT_FOUND (Literal "Review not found"))
  | _ :: _ =>
      exec write (fun db =>
             set_reviews
               (List.filter
                  (fun r => negb (bool_decide (Review.id r = review_id)))
                  (reviews db)) db);
      exec db_commit;
      ret "Review deleted successfully"%string
  end.

(** [get_restaurant] of [app/routers/restaurants.py]. *)
Definition get_restaurant (restaurant_id : UUID) : Handler Restaurant.t :=
  do restaurant <- query_first restaurants restaurant_id;
  match restaurant with
  | None =>
      raise (HTTPException HTTP_404_NOT_FOUND (Literal "Restaurant not found"))
  | Some restaurant => ret restaurant
  end.

(** [get_restaurant_reviews] of [app/routers/restaurants.py]. The query
    has no [order_by]; the rows come in the order of the table. *)
Definition get_restaurant_reviews (restaurant_id : UUID) (skip limit : Z)
  : Handler (list Review.t) :=
  exec validate_page skip limit;
  do restaurant <- query_first restaurants restaurant_id;
  match restaurant with
  | None =>
      raise (HTTPException HTTP_404_NOT_FOUND (Literal "Restaurant not found"))
  | Some _ =>
      do reviews <-
        query_reviews (review_targets TargetType.RESTAURANT restaurant_id);
      offset_limit skip limit reviews
  end.

(** ** The operations of the core as requests *)

Inductive Request :=
| CreateFoodOrder (order_data : FoodOrderCreate.t) (current_user new_uuid : UUID)
| CancelFoodOrder (order_id current_user : UUID)
| ClaimFoodOrder (order_id current_user : UUID)
| UpdateFoodOrderStatus (order_id : UUID) (new_status : OrderStatus.t)
    (current_user : UUID) (utcnow : datetime)
| ReviewFoodOrder (order_id : UUID) (review_data : ReviewCreate.t)
    (current_user new_uuid : UUID)
| CreateParcel (parcel_data : ParcelDeliveryCreate.t) (current_user new_uuid : UUID)
| CancelParcel (parcel_id current_user : UUID)
| ClaimParcel (parcel_id current_user : UUID)
| UpdateParcelStatus (parcel_id : UUID) (new_status : ParcelStatus.t)
    (current_user : UUID) (utcnow : datetime)
| ReviewParcel (parcel_id : UUID) (review_data : ReviewCreate.t)
    (current_user new_uuid : UUID).

(** The database after a request has been served. *)
Definition serve `{PythonRuntime} (r : Request) (db : DB) : DB :=
  match r with
  | CreateFoodOrder d u k => snd (create_food_order d u k db)
  | CancelFoodOrder k u => snd (cancel_order k u db)
  | ClaimFoodOrder k u => snd (accept_food_order k u db)
  | UpdateFoodOrderStatus k s u t => snd (update_order_status k s u t db)
  | ReviewFoodOrder k d u n => snd (review_restaurant k d u n db)
  | CreateParcel d u k => snd (create_parcel_delivery d u k db)
  | CancelParcel k u => snd (cancel_parcel k u db)
  | ClaimParcel k u => snd (accept_parcel k u db)
  | UpdateParcelStatus k s u t => snd (update_parcel_status k s u t db)
  | ReviewParcel k d u n => snd (review_driver k d u n db)
  end.

Definition serve_all `{PythonRuntime} (rs : list Request) (db : DB) : DB :=
  fold_left (fun db r => serve r db) rs db.

(** ** Predicates and functions of the statements *)

(** How the driver column of one job may move in one request: not at all,
    or from unset to a driver. *)
Definition driver_step (before after : option UUID) : Prop :=
  after = before \/ (before = None /\ exists d, after = Some d).

(** Every job of [db] is still in [db'], its driver moved by
    [driver_step]. *)
Definition drivers_kept (db db' : DB) : Prop :=
  (forall k o, food_orders db !! k = Some o ->
     exists o', food_orders db' !! k = Some o' /\
       driver_step (FoodOrder.driver_id o) (FoodOrder.driver_id o')) /\
  (forall k p, parcel_deliveries db !! k = Some p ->
     exists p', parcel_deliveries db' !! k = Some p' /\
       driver_step (ParcelDelivery.driver_id p) (ParcelDelivery.driver_id p')).

(** The job tables of [db'] are those of [db]. *)
Definition same_jobs (db db' : DB) : Prop :=
  food_orders db' = food_orders db /\
  parcel_deliveries db' = parcel_deliveries db.

Definition keeps_jobs {A} (h : Handler A) : Prop :=
  forall db, same_jobs db (snd (h db)).

(** The sum of [menu_item.price * item.quantity] over the items, in cents. *)
Fixpoint sum_line_totals (db : DB) (items : list OrderItemCreate.t) : Z :=
  match items with
  | [] => 0
  | item :: rest =>
      match menu_items db !! OrderItemCreate.menu_item_id item with
      | Some menu_item => MenuItem.price menu_item * OrderItemCreate.quantity item
      | None => 0
      end + sum_line_totals db rest
  end.

(** At most one review per (job, reviewer, target type). *)
Definition at_most_one_review (db : DB) : Prop :=
  forall k u tt,
    (length (List.filter (review_of k u tt) (reviews db)) <= 1)%nat.

(** The claim's [round(mean(r1..rK), 1)]: the mean rounded to one decimal
    place as Python's [round] does, ties to even, as a [float]. *)
Definition spec_round_mean_1 (ratings : list Z) : float :=
  let tenths :=
    round_half_even (10 * fold_right Z.add 0 ratings)
      (Z.of_nat (length ratings)) in
  py_truediv tenths 10.




(** A coordinate that is [None] or compares equal to [0.0]. *)
Definition absent_or_zero (c : option float) : Prop :=
  c = None \/ exists f, c = Some f /\ PrimFloat.eqb f 0%float = true.

(** An item the loop of [create_food_order] rejects: the menu item does not
    exist or is not available. *)
Definition unavailable (db : DB) (item : OrderItemCreate.t) : Prop :=
  match menu_items db !! OrderItemCreate.menu_item_id item with
  | Some menu_item => MenuItem.is_available menu_item = false
  | None => True
  end.

(** ** The writes of the ten operations *)

(** A row as [create_food_order] inserts it. *)
Definition new_order (o : FoodOrder.t) : Prop :=
  FoodOrder.driver_id o = None /\
  FoodOrder.status o = OrderStatus.PENDING /\
  FoodOrder.confirmed_at o = None /\
  FoodOrder.delivered_at o = None.

(** A row as [create_parcel_delivery] inserts it. *)
Definition new_parcel (p : ParcelDelivery.t) : Prop :=
  ParcelDelivery.driver_id p = None /\
  ParcelDelivery.status p = ParcelStatus.PENDING /\
  ParcelDelivery.picked_up_at p = None /\
  ParcelDelivery.delivered_at p = None.

(** What [cancel_order], [accept_food_order] and [update_order_status] to
    a status other than delivered do to the row of an order. *)
Inductive order_move (o : FoodOrder.t) : FoodOrder.t -> Prop :=
| order_cancelled :
    FoodOrder.status o = OrderStatus.PENDING \/
    FoodOrder.status o = OrderStatus.CONFIRMED ->
    order_move o (FoodOrder.set_status OrderStatus.CANCELLED o)
| order_claimed u :
    FoodOrder.driver_id o = None ->
    order_move o (claimed_order u o)
| order_updated u s :
    FoodOrder.driver_id o = Some u -> s <> OrderStatus.DELIVERED ->
    order_move o (FoodOrder.set_status s o).

(** What [cancel_parcel], [accept_parcel] and [update_parcel_status] to a
    status other than delivered do to the row of a parcel. *)
Inductive parcel_move (p : ParcelDelivery.t) : ParcelDelivery.t -> Prop :=
| parcel_cancelled :
    ParcelDelivery.status p = ParcelStatus.PENDING \/
    ParcelDelivery.status p = ParcelStatus.ASSIGNED ->
    parcel_move p (ParcelDelivery.set_status ParcelStatus.CANCELLED p)
| parcel_claimed u :
    ParcelDelivery.driver_id p = None ->
    parcel_move p
      (ParcelDelivery.set_status ParcelStatus.ASSIGNED
         (ParcelDelivery.set_driver_id (Some u) p))
| parcel_picked_up u now :
    ParcelDelivery.driver_id p = Some u ->
    parcel_move p
      (ParcelDelivery.set_picked_up_at (Some now)
         (ParcelDelivery.set_status ParcelStatus.PICKED_UP p))
| parcel_updated u s :
    ParcelDelivery.driver_id p = Some u ->
    s <> ParcelStatus.PICKED_UP -> s <> ParcelStatus.DELIVERED ->
    parcel_move p (ParcelDelivery.set_status s p).

(** One more delivery on the profile of driver [u], if there is one. *)
Definition count_delivery (u : UUID) (db : DB) : DB :=
  match driver_profiles db !! u with
  | Some dp =>
      set_driver_profiles
        (<[u := DriverProfile.set_total_deliveries
                  (DriverProfile.total_deliveries dp + 1) dp]>
           (driver_profiles db)) db
  | None => db
  end.

(** The counter of driver [u] has no room for one more delivery in its
    [Integer] column. *)
Definition counter_full (u : UUID) (db : DB) : bool :=
  match driver_profiles db !! u with
  | Some dp =>
      negb ((- 2 ^ 31 <=? DriverProfile.total_deliveries dp + 1) &&
            (DriverProfile.total_deliveries dp + 1 <? 2 ^ 31))
  | None => false
  end.

(** The average of the restaurant reviews of [k], stored on restaurant
    [k] if there is one. *)
Definition store_restaurant_rating (k : UUID) (db : DB) : DB :=
  match restaurants db !! k with
  | Some r =>
      set_restaurants
        (<[k := Restaurant.set_rating_average
                  (avg_rating
                     (List.filter (review_targets TargetType.RESTAURANT k)
                        (reviews db))) r]>
           (restaurants db)) db
  | None => db
  end.

(** The average of the driver reviews of [u], stored on the profile of
    [u] if there is one. *)
Definition store_driver_rating (u : UUID) (db : DB) : DB :=
  match driver_profiles db !! u with
  | Some dp =>
      set_driver_profiles
        (<[u := DriverProfile.set_rating_average
                  (avg_rating
                     (List.filter (review_targets TargetType.DRIVER u)
                        (reviews db))) dp]>
           (driver_profiles db)) db
  | None => db
  end.

(** A review as the two review handlers insert it: a rating from 1 to 5,
    for a job the reviewer has not reviewed, under an id that is free. *)
Definition new_review (db : DB) (k : UUID) (r : Review.t) : Prop :=
  1 <= Review.rating r <= 5 /\
  Review.order_id r = Some k /\
  List.filter (review_of k (Review.reviewer_id r) (Review.target_type r))
    (reviews db) = [] /\
  List.filter (fun r' => bool_decide (Review.id r' = Review.id r))
    (reviews db) = [].

(** The database before and after one of the ten operations. *)
Inductive step (db : DB) : DB -> Prop :=
| step_none : step db db
| step_create_order k o rows :
    food_orders db !! k = None -> new_order o ->
    step db
      (set_order_items (order_items db ++ rows)
         (set_food_orders (<[k := o]> (food_orders db)) db))
| step_order k o o' :
    food_orders db !! k = Some o -> order_move o o' ->
    step db (set_food_orders (<[k := o']> (food_orders db)) db)
| step_order_delivered k o u now :
    food_orders db !! k = Some o -> FoodOrder.driver_id o = Some u ->
    step db
      (count_delivery u
         (set_food_orders
            (<[k := FoodOrder.set_delivered_at (Some now)
                      (FoodOrder.set_status OrderStatus.DELIVERED o)]>
               (food_orders db)) db))
| step_create_parcel k p :
    parcel_deliveries db !! k = None -> new_parcel p ->
    step db (set_parcel_deliveries (<[k := p]> (parcel_deliveries db)) db)
| step_parcel k p p' :
    parcel_deliveries db !! k = Some p -> parcel_move p p' ->
    step db (set_parcel_deliveries (<[k := p']> (parcel_deliveries db)) db)
| step_parcel_delivered k p u now :
    parcel_deliveries db !! k = Some p ->
    ParcelDelivery.driver_id p = Some u ->
    step db
      (count_delivery u
         (set_parcel_deliveries
            (<[k := ParcelDelivery.set_delivered_at (Some now)
                      (ParcelDelivery.set_status ParcelStatus.DELIVERED p)]>
               (parcel_deliveries db)) db))
| step_review_restaurant k o r :
    food_orders db !! k = Some o ->
    FoodOrder.status o = OrderStatus.DELIVERED ->
    Review.reviewer_id r = FoodOrder.customer_id o ->
    Review.target_type r = TargetType.RESTAURANT ->
    Review.target_id r = FoodOrder.restaurant_id o ->
    new_review db k r ->
    step db
      (store_restaurant_rating (FoodOrder.restaurant_id o)
         (set_reviews (reviews db ++ [r]) db))
| step_review_driver k p u r :
    parcel_deliveries db !! k = Some p ->
    ParcelDelivery.status p = ParcelStatus.DELIVERED ->
    ParcelDelivery.driver_id p = Some u ->
    Review.reviewer_id r = ParcelDelivery.sender_id p ->
    Review.target_type r = TargetType.DRIVER ->
    Review.target_id r = u ->
    new_review db k r ->
    step db
      (store_driver_rating u (set_reviews (reviews db ++ [r]) db)).

(** ** Invariants of the tables *)

(** Every order, and every parcel, of the database has the property. *)
Definition all_orders (P : FoodOrder.t -> Prop) (db : DB) : Prop :=
  forall k o, food_orders db !! k = Some o -> P o.

Definition all_parcels (P : ParcelDelivery.t -> Prop) (db : DB) : Prop :=
  forall k p, parcel_deliveries db !! k = Some p -> P p.

(** An order without a driver is pending or cancelled. *)
Definition unclaimed_is_pending (o : FoodOrder.t) : Prop :=
  FoodOrder.driver_id o = None ->
  FoodOrder.status o = OrderStatus.PENDING \/
  FoodOrder.status o = OrderStatus.CANCELLED.

(** A delivered order carries its delivery time. *)
Definition order_stamped (o : FoodOrder.t) : Prop :=
  FoodOrder.status o = OrderStatus.DELIVERED ->
  FoodOrder.delivered_at o <> None.

(** A picked-up parcel carries its pickup time, a delivered parcel its
    delivery time. *)
Definition parcel_stamped (p : ParcelDelivery.t) : Prop :=
  (ParcelDelivery.status p = ParcelStatus.PICKED_UP ->
   ParcelDelivery.picked_up_at p <> None) /\
  (ParcelDelivery.status p = ParcelStatus.DELIVERED ->
   ParcelDelivery.delivered_at p <> None).

#[global] Instance order_stamped_dec o : Decision (order_stamped o).
Proof. unfold order_stamped. apply _. Defined.

#[global] Instance parcel_stamped_dec p : Decision (parcel_stamped p).
Proof. unfold parcel_stamped. apply _. Defined.

(** ** What the operations leave of a row *)

(** [o'] is [o] but for the driver, the status and the delivery time. *)
Definition order_progress (o o' : FoodOrder.t) : Prop :=
  FoodOrder.set_delivered_at (FoodOrder.delivered_at o)
    (FoodOrder.set_status (FoodOrder.status o)
       (FoodOrder.set_driver_id (FoodOrder.driver_id o) o')) = o.

(** [p'] is [p] but for the driver, the status, the pickup time and the
    delivery time. *)
Definition parcel_progress (p p' : ParcelDelivery.t) : Prop :=
  ParcelDelivery.set_delivered_at (ParcelDelivery.delivered_at p)
    (ParcelDelivery.set_picked_up_at (ParcelDelivery.picked_up_at p)
       (ParcelDelivery.set_status (ParcelDelivery.status p)
          (ParcelDelivery.set_driver_id (ParcelDelivery.driver_id p) p'))) = p.

(** [d'] has the availability of [d] and at least its deliveries. *)
Definition profile_grows (d d' : DriverProfile.t) : Prop :=
  DriverProfile.is_available d' = DriverProfile.is_available d /\
  DriverProfile.total_deliveries d <= DriverProfile.total_deliveries d'.

(** [r'] is [r] but for the average rating. *)
Definition restaurant_kept (r r' : Restaurant.t) : Prop :=
  Restaurant.set_rating_average (Restaurant.rating_average r) r' = r.

(** ** What the operations leave of the other tables *)

(** The menu is untouched, no restaurant and no driver profile is added or
    removed, a restaurant changes in its average rating only, a profile
    keeps its availability and does not lose deliveries. *)
Definition catalogue_kept (db db' : DB) : Prop :=
  menu_items db' = menu_items db /\
  (forall k, restaurants db !! k = None -> restaurants db' !! k = None) /\
  (forall k r, restaurants db !! k = Some r ->
     exists r', restaurants db' !! k = Some r' /\ restaurant_kept r r') /\
  (forall u, driver_profiles db !! u = None -> driver_profiles db' !! u = None) /\
  (forall u d, driver_profiles db !! u = Some d ->
     exists d', driver_profiles db' !! u = Some d' /\ profile_grows d d').

(** The reviews of [db'] are those of [db], in their order, followed by
    reviews of a job with a rating from 1 to 5. *)
Definition reviews_grow (db db' : DB) : Prop :=
  exists added,
    reviews db' = reviews db ++ added /\
    Forall (fun r => 1 <= Review.rating r <= 5 /\ Review.order_id r <> None)
      added.

(** The stored average of every restaurant and of every driver that has
    reviews is the average of these reviews. *)
Definition ratings_synced (db : DB) : Prop :=
  (forall k r,
     restaurants db !! k = Some r ->
     List.filter (review_targets TargetType.RESTAURANT k) (reviews db) <> [] ->
     Restaurant.rating_average r =
     avg_rating (List.filter (review_targets TargetType.RESTAURANT k)
                   (reviews db))) /\
  (forall u d,
     driver_profiles db !! u = Some d ->
     List.filter (review_targets TargetType.DRIVER u) (reviews db) <> [] ->
     DriverProfile.rating_average d =
     avg_rating (List.filter (review_targets TargetType.DRIVER u)
                   (reviews db))).

(** ** The rows of [order_items] of an order *)

(** The row that [create_food_order] stores for an item of the request:
    the unit price is the price of the menu item, the total price is the
    unit price times the quantity. *)
Definition item_row (db : DB) (k : UUID) (item : OrderItemCreate.t)
    (row : OrderItem.t) : Prop :=
  exists m,
    menu_items db !! OrderItemCreate.menu_item_id item = Some m /\
    MenuItem.is_available m = true /\
    row = OrderItem.mk k (OrderItemCreate.menu_item_id item)
            (OrderItemCreate.quantity item) (MenuItem.price m)
            (MenuItem.price m * OrderItemCreate.quantity item)
            (OrderItemCreate.special_instructions item).


(** ** Sample data *)

Definition empty_db : DB := mkDB ∅ ∅ ∅ [] ∅ [] ∅.

Definition sample_order (status : OrderStatus.t) (driver : option UUID)
  : FoodOrder.t :=
  FoodOrder.mk 10 1 driver status "1 Main Street"%string None None
    2550 399 204 3153 None None None.

Definition sample_parcel (status : ParcelStatus.t) (driver : option UUID)
  : ParcelDelivery.t :=
  ParcelDelivery.mk 10 driver "Ada"%string "555-0100"%string
    "1 Main Street"%string None None "2 High Street"%string None None None
    ParcelSize.SMALL None status 1500 (Some 5%float) None None.

Definition sample_profile (total_deliveries : Z) : DriverProfile.t :=
  DriverProfile.mk true 0%float total_deliveries.

(** Order 1 and parcel 2, both picked up by driver 20, who has delivered
    nothing so far. *)
Definition picked_up_db : DB :=
  mkDB ∅ ∅ {[1%N := sample_order OrderStatus.PICKED_UP (Some 20%N)]} []
       {[2%N := sample_parcel ParcelStatus.PICKED_UP (Some 20%N)]} []
       {[20%N := sample_profile 0]}.

(** Restaurant 1 with two five-star reviews from orders 1 and 2, and order 3
    of customer 10, delivered and not reviewed yet. *)
Definition reviewed_db : DB :=
  mkDB {[1%N := Restaurant.mk true 5%float 399]} ∅
       {[3%N := sample_order OrderStatus.DELIVERED (Some 20%N)]} [] ∅
       [Review.mk 101 11 TargetType.RESTAURANT 1 (Some 1%N) 5 None;
        Review.mk 102 12 TargetType.RESTAURANT 1 (Some 2%N) 5 None]
       ∅.

(** A runtime for evaluating the handlers on requests that do not reach the
    haversine branch: [Decimal_of_str] is tabulated on the floats of the
    examples below ([str(5.0)] is ["5.0"], and
    [str(0x1.bcc79ad9adfecp-43)] is ["1.9752186845167105e-13"]), and the
    functions of [math] are placeholders. *)
Definition table_runtime : PythonRuntime :=
  {| math_radians := fun x => x;
     libm_sin := fun x => x;
     libm_cos := fun x => x;
     math_atan2 := fun x _ => x;
     float_pow := fun x _ => x;
     Decimal_of_str := fun x =>
       if PrimFloat.eqb x 5%float then mkDecimal 50 1
       else if PrimFloat.eqb x 10%float then mkDecimal 100 1
       else if PrimFloat.eqb x (-1)%float then mkDecimal (-10) 1
       else if PrimFloat.eqb x 0x1.bcc79ad9adfecp-43%float
       then mkDecimal 19752186845167105 29
       else mkDecimal 0 1 |}.

(** A parcel picked up on the equator: the pickup latitude is 0.0. *)
Definition equator_parcel : ParcelDeliveryCreate.t :=
  ParcelDeliveryCreate.mk "Ada"%string "555-0100"%string "1 Main Street"%string
    (Some 0%float) (Some 10%float) "2 High Street"%string
    (Some 10%float) (Some 10%float) None ParcelSize.MEDIUM None.

(** Restaurants 1 and 2; items 7, 8 and 6 are on the menu of restaurant 1,
    item 6 not available; item 9 is on the menu of restaurant 2. *)
Definition menu_db : DB :=
  mkDB {[1%N := Restaurant.mk true 0%float 399;
         2%N := Restaurant.mk true 0%float 0]}
       {[7%N := MenuItem.mk 1 1000 true;
         8%N := MenuItem.mk 1 550 true;
         6%N := MenuItem.mk 1 700 false;
         9%N := MenuItem.mk 2 1000 true]}
       ∅ [] ∅ [] ∅.

(** An order of customer 10 at restaurant 1 for the given items. *)
Definition order_at_1 (items : list OrderItemCreate.t) : FoodOrderCreate.t :=
  FoodOrderCreate.mk 1 "1 Main Street"%string None None None items.

Definition priced_order (subtotal tax total_amount : Z) : FoodOrder.t :=
  FoodOrder.mk 10 1 None OrderStatus.PENDING "1 Main Street"%string None None
    subtotal 399 tax total_amount None None None.

(** ** Sample data of the listings *)

(** Orders 1 to 4 and parcels 5 and 6: orders 1 (confirmed) and 2 (ready)
    wait for a driver, order 3 is pending, order 4 and parcel 6 are with
    driver 20, parcel 5 waits for a driver. *)
Definition listing_db : DB :=
  mkDB ∅ ∅
       {[1%N := sample_order OrderStatus.CONFIRMED None;
         2%N := sample_order OrderStatus.READY None;
         3%N := sample_order OrderStatus.PENDING None;
         4%N := sample_order OrderStatus.PREPARING (Some 20%N)]} []
       {[5%N := sample_parcel ParcelStatus.PENDING None;
         6%N := sample_parcel ParcelStatus.ASSIGNED (Some 20%N)]} []
       {[20%N := sample_profile 0]}.

(** The keys in the order of creation. *)
Definition by_key (k : UUID) : datetime := Z.of_N k.

(** The parcel that [create_parcel_delivery] stores for [equator_parcel]
    sent by user 10: the default distance of 5.0 km, medium size. *)
Definition equator_parcel_row : ParcelDelivery.t :=
  ParcelDelivery.mk 10 None "Ada"%string "555-0100"%string
    "1 Main Street"%string (Some 0%float) (Some 10%float)
    "2 High Street"%string (Some 10%float) (Some 10%float) None
    ParcelSize.MEDIUM None ParcelStatus.PENDING 2250 (Some 5%float) None None.

(** Restaurant 1 and order 3 of [reviewed_db], delivered and reviewed
    once, with four stars, by its customer 10. *)
Definition once_reviewed_db : DB :=
  snd (review_restaurant 3 (ReviewCreate.mk 4 None) 10 103
         (set_reviews [] reviewed_db)).

(** A parcel with all four coordinates, pickup and delivery at the same
    point. *)
Definition located_parcel : ParcelDeliveryCreate.t :=
  ParcelDeliveryCreate.mk "Ada"%string "555-0100"%string "1 Main Street"%string
    (Some 10%float) (Some 10%float) "2 High Street"%string
    (Some 10%float) (Some 10%float) None ParcelSize.MEDIUM None.

(** The row that [create_parcel_delivery] stores for [located_parcel] sent
    by user 10 under [table_runtime]: distance 0.0 km, fee 7.50. *)
Definition located_parcel_row : ParcelDelivery.t :=
  ParcelDelivery.mk 10 None "Ada"%string "555-0100"%string
    "1 Main Street"%string (Some 10%float) (Some 10%float)
    "2 High Street"%string (Some 10%float) (Some 10%float) None
    ParcelSize.MEDIUM None ParcelStatus.PENDING 750 (Some 0%float) None None.

(** * Properties *)

(** ** Running the monad *)

Ltac run_handler :=
  unfold save_food_order, save_parcel, save_driver_profile, save_restaurant,
    db_commit, bind, query_first, query_reviews, write, ret, raise in *;
  cbn beta iota zeta in *.

Lemma read_only_ret {A} (a : A) : read_only (ret a).
Proof. intros db. reflexivity. Qed.

Lemma read_only_raise {A} e : read_only (@raise A e).
Proof. intros db. reflexivity. Qed.

Lemma read_only_bind {A B} (m : Handler A) (k : A -> Handler B) :
  read_only m -> (forall a, read_only (k a)) -> read_only (bind m k).
Proof.
  intros Hm Hk db. unfold bind. specialize (Hm db).
  destruct (m db) as [[a|e] db']; cbn in *; subst db'.
  - apply Hk.
  - reflexivity.
Qed.

Lemma read_only_query_first {A} (table : DB -> gmap UUID A) k :
  read_only (query_first table k).
Proof. intros db. reflexivity. Qed.

Lemma read_only_numeric_10_2 d : read_only (numeric_10_2 d).
Proof.
  intros db. unfold numeric_10_2.
  destruct (Z.abs _ <? _); reflexivity.
Qed.

Lemma read_only_integer_column n : read_only (integer_column n).
Proof.
  intros db. unfold integer_column.
  destruct (_ && _); reflexivity.
Qed.

Lemma read_only_order_item_row k d : read_only (order_item_row k d).
Proof.
  unfold order_item_row.
  apply read_only_bind; [apply read_only_integer_column|intros ?].
  repeat (apply read_only_bind; [apply read_only_numeric_10_2|intros ?]).
  apply read_only_ret.
Qed.

Lemma read_only_price_items items :
  forall subtotal acc, read_only (price_items items subtotal acc).
Proof.
  induction items as [|item rest IH]; intros subtotal acc; cbn [price_items].
  - apply read_only_ret.
  - apply read_only_bind; [apply read_only_query_first|].
    intros [menu_item|]; [|apply read_only_raise].
    destruct (negb (MenuItem.is_available menu_item));
      [apply read_only_raise | apply IH].
Qed.

Lemma read_only_order_item_rows k ds : read_only (order_item_rows k ds).
Proof.
  induction ds as [|d ds IH]; cbn [order_item_rows].
  - apply read_only_ret.
  - apply read_only_bind.
    + apply read_only_order_item_row.
    + intros row. apply read_only_bind; [exact IH|].
      intros rows. apply read_only_ret.
Qed.

Lemma read_only_validate r : read_only (ReviewCreate.validate r).
Proof.
  intros db. unfold ReviewCreate.validate.
  destruct (ReviewCreate.valid r); reflexivity.
Qed.

Lemma read_only_math_sqrt x : read_only (math_sqrt x).
Proof. intros db. unfold math_sqrt. destruct (PrimFloat.ltb _ _); reflexivity. Qed.

Lemma read_only_math_sin `{PythonRuntime} x : read_only (math_sin x).
Proof. intros db. unfold math_sin. destruct (PrimFloat.is_infinity _); reflexivity. Qed.

Lemma read_only_math_cos `{PythonRuntime} x : read_only (math_cos x).
Proof. intros db. unfold math_cos. destruct (PrimFloat.is_infinity _); reflexivity. Qed.

Lemma read_only_calculate_distance `{PythonRuntime} a b c d :
  read_only (calculate_distance a b c d).
Proof.
  unfold calculate_distance.
  repeat (apply read_only_bind;
          [first [apply read_only_math_sqrt | apply read_only_math_sin
                 | apply read_only_math_cos]
          |intros ?]).
  apply read_only_ret.
Qed.

Lemma read_only_numeric_column d : read_only (numeric_column d).
Proof.
  destruct d; cbn [numeric_column]; [|apply read_only_ret..].
  apply read_only_bind; [apply read_only_numeric_10_2|intros ?].
  apply read_only_ret.
Qed.

(** What a handler that only reads returns, with the database put back. *)
Lemma read_only_run {A} (h : Handler A) db :
  read_only h -> h db = (fst (h db), db).
Proof. intros Hh. rewrite <- (Hh db) at 3. apply surjective_pairing. Qed.

(** ** The claim handlers, case by case *)

Lemma accept_food_order_run order_id u db :
  accept_food_order order_id u db =
  match food_orders db !! order_id with
  | None =>
      (Raise (HTTPException 404 (Literal "Order not found")), db)
  | Some o =>
      match FoodOrder.driver_id o with
      | Some _ =>
          (Raise (HTTPException 400
                    (Literal "Order already assigned to a driver")), db)
      | None =>
          (Ok "Order accepted successfully"%string,
           set_food_orders (<[order_id := claimed_order u o]> (food_orders db)) db)
      end
  end.
Proof.
  unfold accept_food_order. run_handler.
  destruct (food_orders db !! order_id) as [o|]; [|reflexivity].
  destruct (FoodOrder.driver_id o); reflexivity.
Qed.

Lemma accept_parcel_run parcel_id u db :
  accept_parcel parcel_id u db =
  match parcel_deliveries db !! parcel_id with
  | None =>
      (Raise (HTTPException 404 (Literal "Parcel not found")), db)
  | Some p =>
      match ParcelDelivery.driver_id p with
      | Some _ =>
          (Raise (HTTPException 400
                    (Literal "Parcel already assigned to a driver")), db)
      | None =>
          (Ok "Parcel accepted successfully"%string,
           set_parcel_deliveries
             (<[parcel_id :=
                  ParcelDelivery.set_status ParcelStatus.ASSIGNED
                    (ParcelDelivery.set_driver_id (Some u) p)]>
                (parcel_deliveries db)) db)
      end
  end.
Proof.
  unfold accept_parcel. run_handler.
  destruct (parcel_deliveries db !! parcel_id) as [p|]; [|reflexivity].
  destruct (ParcelDelivery.driver_id p); reflexivity.
Qed.

(** ** The status handlers of [drivers.py], case by case *)

Lemma bump_total_deliveries_run u db :
  bump_total_deliveries u db =
  if counter_full u db then (Raise DataError, db)
  else (Ok tt, count_delivery u db).
Proof.
  unfold bump_total_deliveries, counter_full, count_delivery, integer_column.
  run_handler.
  destruct (driver_profiles db !! u); [|reflexivity].
  destruct (_ && _); reflexivity.
Qed.

Lemma update_order_status_run order_id new_status u now db :
  update_order_status order_id new_status u now db =
  match food_orders db !! order_id with
  | None => (Raise (HTTPException 404 (Literal "Order not found")), db)
  | Some o =>
      if decide (FoodOrder.driver_id o <> Some u)
      then (Raise (HTTPException 403
                     (Literal "Not authorized to update this order")), db)
      else if decide (new_status = OrderStatus.DELIVERED)
      then
        if counter_full u db then (Raise DataError, db)
        else
          (Ok "Order status updated successfully"%string,
           count_delivery u
             (set_food_orders
                (<[order_id :=
                     FoodOrder.set_delivered_at (Some now)
                       (FoodOrder.set_status new_status o)]>
                   (food_orders db)) db))
      else
        (Ok "Order status updated successfully"%string,
         set_food_orders
           (<[order_id := FoodOrder.set_status new_status o]>
              (food_orders db)) db)
  end.
Proof.
  unfold update_order_status, transaction. run_handler.
  destruct (food_orders db !! order_id) as [o|]; [|reflexivity].
  destruct (decide (FoodOrder.driver_id o <> Some u)); [reflexivity|].
  destruct (decide (new_status = OrderStatus.DELIVERED)); [|reflexivity].
  rewrite !bump_total_deliveries_run.
  assert (Hc : forall m d, counter_full u (set_food_orders m d) = counter_full u d)
    by reflexivity.
  rewrite !Hc. destruct (counter_full u db); [reflexivity|].
  cbn [food_orders set_food_orders]. rewrite insert_insert_eq. reflexivity.
Qed.

Lemma update_parcel_status_run parcel_id new_status u now db :
  update_parcel_status parcel_id new_status u now db =
  match parcel_deliveries db !! parcel_id with
  | None => (Raise (HTTPException 404 (Literal "Parcel not found")), db)
  | Some p =>
      if decide (ParcelDelivery.driver_id p <> Some u)
      then (Raise (HTTPException 403
                     (Literal "Not authorized to update this parcel")), db)
      else if decide (new_status = ParcelStatus.PICKED_UP)
      then
        (Ok "Parcel status updated successfully"%string,
         set_parcel_deliveries
           (<[parcel_id :=
                ParcelDelivery.set_picked_up_at (Some now)
                  (ParcelDelivery.set_status new_status p)]>
              (parcel_deliveries db)) db)
      else if decide (new_status = ParcelStatus.DELIVERED)
      then
        if counter_full u db then (Raise DataError, db)
        else
          (Ok "Parcel status updated successfully"%string,
           count_delivery u
             (set_parcel_deliveries
                (<[parcel_id :=
                     ParcelDelivery.set_delivered_at (Some now)
                       (ParcelDelivery.set_status new_status p)]>
                   (parcel_deliveries db)) db))
      else
        (Ok "Parcel status updated successfully"%string,
         set_parcel_deliveries
           (<[parcel_id := ParcelDelivery.set_status new_status p]>
              (parcel_deliveries db)) db)
  end.
Proof.
  unfold update_parcel_status, transaction. run_handler.
  destruct (parcel_deliveries db !! parcel_id) as [p|]; [|reflexivity].
  destruct (decide (ParcelDelivery.driver_id p <> Some u)); [reflexivity|].
  destruct (decide (new_status = ParcelStatus.PICKED_UP)).
  { cbn [parcel_deliveries set_parcel_deliveries]. rewrite insert_insert_eq.
    reflexivity. }
  destruct (decide (new_status = ParcelStatus.DELIVERED)); [|reflexivity].
  rewrite !bump_total_deliveries_run.
  assert (Hc : forall m d,
            counter_full u (set_parcel_deliveries m d) = counter_full u d)
    by reflexivity.
  rewrite !Hc. destruct (counter_full u db); [reflexivity|].
  cbn [parcel_deliveries set_parcel_deliveries]. rewrite insert_insert_eq.
  reflexivity.
Qed.

(** A counter with room for one more delivery. *)
Lemma counter_full_false u db dp :
  driver_profiles db !! u = Some dp ->
  - 2 ^ 31 <= DriverProfile.total_deliveries dp + 1 < 2 ^ 31 ->
  counter_full u db = false.
Proof.
  intros Hu Hroom. unfold counter_full. rewrite Hu.
  apply negb_false_iff, andb_true_iff. lia.
Qed.

Lemma same_jobs_count_delivery u db : same_jobs db (count_delivery u db).
Proof.
  unfold count_delivery. destruct (driver_profiles db !! u); split; reflexivity.
Qed.

(** ** The cancel handlers, case by case *)

Lemma cancel_order_run order_id u db :
  cancel_order order_id u db =
  match food_orders db !! order_id with
  | None => (Raise (HTTPException 404 (Literal "Order not found")), db)
  | Some o =>
      if decide (FoodOrder.customer_id o <> u)
      then (Raise (HTTPException 403
                     (Literal "Not authorized to cancel this order")), db)
      else if decide (FoodOrder.status o = OrderStatus.PENDING \/
                      FoodOrder.status o = OrderStatus.CONFIRMED)
      then (Ok "Order cancelled successfully"%string,
            set_food_orders
              (<[order_id := FoodOrder.set_status OrderStatus.CANCELLED o]>
                 (food_orders db)) db)
      else (Raise (HTTPException 400 (CannotCancelOrder (FoodOrder.status o))),
            db)
  end.
Proof.
  unfold cancel_order. run_handler.
  destruct (food_orders db !! order_id) as [o|]; [|reflexivity].
  destruct (decide (FoodOrder.customer_id o <> u)); [reflexivity|].
  destruct (FoodOrder.status o); reflexivity.
Qed.

Lemma cancel_parcel_run parcel_id u db :
  cancel_parcel parcel_id u db =
  match parcel_deliveries db !! parcel_id with
  | None => (Raise (HTTPException 404 (Literal "Parcel delivery not found")), db)
  | Some p =>
      if decide (ParcelDelivery.sender_id p <> u)
      then (Raise (HTTPException 403
                     (Literal "Not authorized to cancel this parcel")), db)
      else if decide (ParcelDelivery.status p = ParcelStatus.PENDING \/
                      ParcelDelivery.status p = ParcelStatus.ASSIGNED)
      then (Ok "Parcel delivery cancelled successfully"%string,
            set_parcel_deliveries
              (<[parcel_id := ParcelDelivery.set_status ParcelStatus.CANCELLED p]>
                 (parcel_deliveries db)) db)
      else (Raise (HTTPException 400
                     (CannotCancelParcel (ParcelDelivery.status p))), db)
  end.
Proof.
  unfold cancel_parcel. run_handler.
  destruct (parcel_deliveries db !! parcel_id) as [p|]; [|reflexivity].
  destruct (decide (ParcelDelivery.sender_id p <> u)); [reflexivity|].
  destruct (ParcelDelivery.status p); reflexivity.
Qed.

(** ** Claiming a job (drivers.py, accept_food_order and accept_parcel) *)

(** A claim succeeds exactly on a job whose driver is unset; the status of
    the job is not consulted. *)
Lemma accept_food_order_ok_iff order_id u db :
  (exists msg db', accept_food_order order_id u db = (Ok msg, db')) <->
  (exists o, food_orders db !! order_id = Some o /\ FoodOrder.driver_id o = None).
Proof.
  rewrite accept_food_order_run. split.
  - intros (msg & db' & Hrun).
    destruct (food_orders db !! order_id) as [o|]; [|discriminate].
    exists o. destruct (FoodOrder.driver_id o); [discriminate|auto].
  - intros (o & -> & ->). eauto.
Qed.

Lemma accept_parcel_ok_iff parcel_id u db :
  (exists msg db', accept_parcel parcel_id u db = (Ok msg, db')) <->
  (exists p, parcel_deliveries db !! parcel_id = Some p /\
             ParcelDelivery.driver_id p = None).
Proof.
  rewrite accept_parcel_run. split.
  - intros (msg & db' & Hrun).
    destruct (parcel_deliveries db !! parcel_id) as [p|]; [|discriminate].
    exists p. destruct (ParcelDelivery.driver_id p); [discriminate|auto].
  - intros (p & -> & ->). eauto.
Qed.

(** On a claimable order the status moves as the lifecycle says. *)
Lemma claimed_order_status u o :
  FoodOrder.driver_id (claimed_order u o) = Some u /\
  (FoodOrder.status o = OrderStatus.CONFIRMED ->
   FoodOrder.status (claimed_order u o) = OrderStatus.PREPARING) /\
  (FoodOrder.status o <> OrderStatus.CONFIRMED ->
   FoodOrder.status (claimed_order u o) = FoodOrder.status o).
Proof.
  unfold claimed_order. cbn.
  destruct (decide (FoodOrder.status o = OrderStatus.CONFIRMED)) as [E|E];
    cbn; repeat split; intros; congruence.
Qed.

(** The scenario of the specification: driver 20 claims the pending parcel
    1, which becomes assigned to 20; the claim of driver 30 that follows is
    refused and changes nothing. *)
Example claim_parcel_scenario :
  let db := set_parcel_deliveries
              {[1%N := sample_parcel ParcelStatus.PENDING None]} empty_db in
  let db' := set_parcel_deliveries
               {[1%N := sample_parcel ParcelStatus.ASSIGNED (Some 20%N)]}
               empty_db in
  accept_parcel 1 20 db = (Ok "Parcel accepted successfully"%string, db') /\
  accept_parcel 1 30 db' =
    (Raise (HTTPException 400 (Literal "Parcel already assigned to a driver")),
     db').
Proof. cbv zeta. split; vm_compute; reflexivity. Qed.

(** A confirmed order moves to preparing when claimed, a ready one stays
    ready. *)
Example claim_order_scenario :
  accept_food_order 1 20
    (set_food_orders {[1%N := sample_order OrderStatus.CONFIRMED None]} empty_db)
  = (Ok "Order accepted successfully"%string,
     set_food_orders {[1%N := sample_order OrderStatus.PREPARING (Some 20%N)]}
       empty_db) /\
  accept_food_order 1 20
    (set_food_orders {[1%N := sample_order OrderStatus.READY None]} empty_db)
  = (Ok "Order accepted successfully"%string,
     set_food_orders {[1%N := sample_order OrderStatus.READY (Some 20%N)]}
       empty_db).
Proof. split; vm_compute; reflexivity. Qed.

(** C1 (the code departs from the claim): a claim is accepted on a job in
    any status as long as no driver is set. A driver claims a pending order
    and a cancelled order, whose status stays as it was, and claims a
    cancelled parcel, which becomes assigned again. The listing handlers
    get_available_food_orders and get_available_parcels do filter on the
    claimable statuses. *)
Theorem accept_ignores_status :
  accept_food_order 1 20
    (set_food_orders {[1%N := sample_order OrderStatus.PENDING None]} empty_db)
  = (Ok "Order accepted successfully"%string,
     set_food_orders {[1%N := sample_order OrderStatus.PENDING (Some 20%N)]}
       empty_db)
  /\
  accept_food_order 1 20
    (set_food_orders {[1%N := sample_order OrderStatus.CANCELLED None]} empty_db)
  = (Ok "Order accepted successfully"%string,
     set_food_orders {[1%N := sample_order OrderStatus.CANCELLED (Some 20%N)]}
       empty_db)
  /\
  accept_parcel 1 20
    (set_parcel_deliveries {[1%N := sample_parcel ParcelStatus.CANCELLED None]}
       empty_db)
  = (Ok "Parcel accepted successfully"%string,
     set_parcel_deliveries
       {[1%N := sample_parcel ParcelStatus.ASSIGNED (Some 20%N)]} empty_db).
Proof.
  split; [|split].
  - rewrite accept_food_order_run. vm_compute. reflexivity.
  - rewrite accept_food_order_run. vm_compute. reflexivity.
  - rewrite accept_parcel_run. vm_compute. reflexivity.
Qed.

(** ** Cancellation (food_orders.py cancel_order, parcels.py cancel_parcel) *)

(** C7: cancel_order succeeds exactly when the caller is the customer of
    the order and the status is pending or confirmed, and then only the
    status of that order changes, to cancelled; called by the customer in
    any other status it raises 400 "Cannot cancel order with status: ..."
    (the InvalidTransition failure); whenever it raises, the database is
    unchanged. cancel_parcel behaves the same for the sender and the
    statuses pending and assigned. *)
Theorem cancel_only_requester_cancellable (k u : UUID) (db : DB) :
  (forall msg db',
     cancel_order k u db = (Ok msg, db') <->
     exists o,
       food_orders db !! k = Some o /\ FoodOrder.customer_id o = u /\
       (FoodOrder.status o = OrderStatus.PENDING \/
        FoodOrder.status o = OrderStatus.CONFIRMED) /\
       msg = "Order cancelled successfully"%string /\
       db' = set_food_orders
               (<[k := FoodOrder.set_status OrderStatus.CANCELLED o]>
                  (food_orders db)) db) /\
  (forall o,
     food_orders db !! k = Some o -> FoodOrder.customer_id o = u ->
     FoodOrder.status o <> OrderStatus.PENDING ->
     FoodOrder.status o <> OrderStatus.CONFIRMED ->
     cancel_order k u db =
     (Raise (HTTPException 400 (CannotCancelOrder (FoodOrder.status o))), db)) /\
  (forall e db', cancel_order k u db = (Raise e, db') -> db' = db) /\
  (forall msg db',
     cancel_parcel k u db = (Ok msg, db') <->
     exists p,
       parcel_deliveries db !! k = Some p /\ ParcelDelivery.sender_id p = u /\
       (ParcelDelivery.status p = ParcelStatus.PENDING \/
        ParcelDelivery.status p = ParcelStatus.ASSIGNED) /\
       msg = "Parcel delivery cancelled successfully"%string /\
       db' = set_parcel_deliveries
               (<[k := ParcelDelivery.set_status ParcelStatus.CANCELLED p]>
                  (parcel_deliveries db)) db) /\
  (forall p,
     parcel_deliveries db !! k = Some p -> ParcelDelivery.sender_id p = u ->
     ParcelDelivery.status p <> ParcelStatus.PENDING ->
     ParcelDelivery.status p <> ParcelStatus.ASSIGNED ->
     cancel_parcel k u db =
     (Raise (HTTPException 400 (CannotCancelParcel (ParcelDelivery.status p))),
      db)) /\
  (forall e db', cancel_parcel k u db = (Raise e, db') -> db' = db).
Proof.
  rewrite cancel_order_run, cancel_parcel_run.
  repeat match goal with |- _ /\ _ => split end.
  - intros msg db'. split.
    + destruct (food_orders db !! k) as [o|]; [|discriminate].
      destruct (decide (FoodOrder.customer_id o <> u)) as [Hu|Hu];
        [discriminate|].
      destruct (decide _) as [Hs|Hs]; [|discriminate].
      intros [= <- <-]. exists o. apply dec_stable in Hu. auto.
    + intros (o & -> & Hu & Hs & -> & ->).
      destruct (decide (FoodOrder.customer_id o <> u)); [contradiction|].
      destruct (decide _); [reflexivity|contradiction].
  - intros o -> Hu Hp Hc.
    destruct (decide (FoodOrder.customer_id o <> u)); [contradiction|].
    destruct (decide _) as [[?|?]|?]; [contradiction..|reflexivity].
  - intros e db'.
    destruct (food_orders db !! k) as [o|]; [|congruence].
    destruct (decide (FoodOrder.customer_id o <> u)); [congruence|].
    destruct (decide _); [discriminate|congruence].
  - intros msg db'. split.
    + destruct (parcel_deliveries db !! k) as [p|]; [|discriminate].
      destruct (decide (ParcelDelivery.sender_id p <> u)) as [Hu|Hu];
        [discriminate|].
      destruct (decide _) as [Hs|Hs]; [|discriminate].
      intros [= <- <-]. exists p. apply dec_stable in Hu. auto.
    + intros (p & -> & Hu & Hs & -> & ->).
      destruct (decide (ParcelDelivery.sender_id p <> u)); [contradiction|].
      destruct (decide _); [reflexivity|contradiction].
  - intros p -> Hu Hp Hc.
    destruct (decide (ParcelDelivery.sender_id p <> u)); [contradiction|].
    destruct (decide _) as [[?|?]|?]; [contradiction..|reflexivity].
  - intros e db'.
    destruct (parcel_deliveries db !! k) as [p|]; [|congruence].
    destruct (decide (ParcelDelivery.sender_id p <> u)); [congruence|].
    destruct (decide _); [discriminate|congruence].
Qed.

Lemma cancel_only_requester_cancellable_witness :
  cancel_order 1 10
    (set_food_orders {[1%N := sample_order OrderStatus.READY (Some 20%N)]}
       empty_db)
  = (Raise (HTTPException 400 (CannotCancelOrder OrderStatus.READY)),
     set_food_orders {[1%N := sample_order OrderStatus.READY (Some 20%N)]}
       empty_db).
Proof.
  apply (proj1 (proj2 (cancel_only_requester_cancellable 1 10 _))
           (sample_order OrderStatus.READY (Some 20%N)));
    [vm_compute; reflexivity | reflexivity | discriminate | discriminate].
Defined.

(** ** The delivered counter (drivers.py, the two status handlers) *)

(** Each successful status update to delivered adds one to the counter of
    the driver's profile, whatever the status was before; it succeeds when
    the counter has room for one more. *)
Lemma update_order_status_delivered_counts k u now db o dp :
  food_orders db !! k = Some o ->
  FoodOrder.driver_id o = Some u ->
  driver_profiles db !! u = Some dp ->
  - 2 ^ 31 <= DriverProfile.total_deliveries dp + 1 < 2 ^ 31 ->
  exists db',
    update_order_status k OrderStatus.DELIVERED u now db =
      (Ok "Order status updated successfully"%string, db') /\
    DriverProfile.total_deliveries <$> (driver_profiles db' !! u) =
      Some (DriverProfile.total_deliveries dp + 1).
Proof.
  intros Ho Hd Hp Hroom. rewrite update_order_status_run, Ho.
  destruct (decide (FoodOrder.driver_id o <> Some u)); [contradiction|].
  destruct (decide _); [|contradiction].
  rewrite (counter_full_false u db dp Hp Hroom).
  eexists. split; [reflexivity|].
  unfold count_delivery. cbn. rewrite Hp. cbn.
  rewrite lookup_insert_eq. reflexivity.
Qed.

Lemma update_parcel_status_delivered_counts k u now db p dp :
  parcel_deliveries db !! k = Some p ->
  ParcelDelivery.driver_id p = Some u ->
  driver_profiles db !! u = Some dp ->
  - 2 ^ 31 <= DriverProfile.total_deliveries dp + 1 < 2 ^ 31 ->
  exists db',
    update_parcel_status k ParcelStatus.DELIVERED u now db =
      (Ok "Parcel status updated successfully"%string, db') /\
    DriverProfile.total_deliveries <$> (driver_profiles db' !! u) =
      Some (DriverProfile.total_deliveries dp + 1).
Proof.
  intros Ho Hd Hp Hroom. rewrite update_parcel_status_run, Ho.
  destruct (decide (ParcelDelivery.driver_id p <> Some u)); [contradiction|].
  destruct (decide _); [discriminate|].
  destruct (decide _); [|contradiction].
  rewrite (counter_full_false u db dp Hp Hroom).
  eexists. split; [reflexivity|].
  unfold count_delivery. cbn. rewrite Hp. cbn.
  rewrite lookup_insert_eq. reflexivity.
Qed.

(** C4 (the code departs from the claim): the first update of order 1 to
    delivered takes the driver's total_deliveries from 0 to 1, and the same
    call repeated on the delivered order takes it to 2; likewise for parcel
    2. The handlers do not look at the status the job had. *)
Theorem repeated_delivered_counts_again :
  (let db1 := snd (update_order_status 1 OrderStatus.DELIVERED 20 100 picked_up_db) in
   let db2 := snd (update_order_status 1 OrderStatus.DELIVERED 20 200 db1) in
   FoodOrder.status <$> (food_orders db1 !! 1%N) = Some OrderStatus.DELIVERED /\
   DriverProfile.total_deliveries <$> (driver_profiles db1 !! 20%N) = Some 1 /\
   fst (update_order_status 1 OrderStatus.DELIVERED 20 200 db1) =
     Ok "Order status updated successfully"%string /\
   DriverProfile.total_deliveries <$> (driver_profiles db2 !! 20%N) = Some 2) /\
  (let db1 := snd (update_parcel_status 2 ParcelStatus.DELIVERED 20 100 picked_up_db) in
   let db2 := snd (update_parcel_status 2 ParcelStatus.DELIVERED 20 200 db1) in
   ParcelDelivery.status <$> (parcel_deliveries db1 !! 2%N) =
     Some ParcelStatus.DELIVERED /\
   DriverProfile.total_deliveries <$> (driver_profiles db1 !! 20%N) = Some 1 /\
   fst (update_parcel_status 2 ParcelStatus.DELIVERED 20 200 db1) =
     Ok "Parcel status updated successfully"%string /\
   DriverProfile.total_deliveries <$> (driver_profiles db2 !! 20%N) = Some 2).
Proof.
  split; cbv zeta; repeat split; vm_compute; reflexivity.
Qed.

(** ** The assigned driver is set at most once *)

Lemma driver_step_refl d : driver_step d d.
Proof. left. reflexivity. Qed.

Lemma drivers_kept_same_jobs db db' : same_jobs db db' -> drivers_kept db db'.
Proof.
  intros [Ho Hp]. split; intros k x Hx; exists x; rewrite ?Ho, ?Hp;
    auto using driver_step_refl.
Qed.

Lemma drivers_kept_refl db : drivers_kept db db.
Proof. apply drivers_kept_same_jobs. split; reflexivity. Qed.

(** Once a driver is set, a further step keeps it. *)
Lemma driver_step_assigned d after : driver_step (Some d) after -> after = Some d.
Proof. intros [->|[? _]]; [reflexivity|discriminate]. Qed.

(** Writing back an order whose driver moved by [driver_step]. *)
Lemma drivers_kept_save_order db k o o' :
  food_orders db !! k = Some o ->
  driver_step (FoodOrder.driver_id o) (FoodOrder.driver_id o') ->
  drivers_kept db (set_food_orders (<[k := o']> (food_orders db)) db).
Proof.
  intros Hk Hstep. split; cbn.
  - intros k' x Hx. destruct (decide (k = k')) as [<-|Hne].
    + rewrite lookup_insert_eq. exists o'. split; [reflexivity|]. congruence.
    + rewrite lookup_insert_ne by exact Hne. eauto using driver_step_refl.
  - eauto using driver_step_refl.
Qed.

Lemma drivers_kept_save_parcel db k p p' :
  parcel_deliveries db !! k = Some p ->
  driver_step (ParcelDelivery.driver_id p) (ParcelDelivery.driver_id p') ->
  drivers_kept db (set_parcel_deliveries (<[k := p']> (parcel_deliveries db)) db).
Proof.
  intros Hk Hstep. split; cbn.
  - eauto using driver_step_refl.
  - intros k' x Hx. destruct (decide (k = k')) as [<-|Hne].
    + rewrite lookup_insert_eq. exists p'. split; [reflexivity|]. congruence.
    + rewrite lookup_insert_ne by exact Hne. eauto using driver_step_refl.
Qed.

(** Inserting a job under a key that was free. *)
Lemma drivers_kept_new_order db k o' :
  food_orders db !! k = None ->
  drivers_kept db (set_food_orders (<[k := o']> (food_orders db)) db).
Proof.
  intros Hk. split; cbn; [|eauto using driver_step_refl].
  intros k' x Hx. rewrite lookup_insert_ne by congruence.
  eauto using driver_step_refl.
Qed.

Lemma drivers_kept_new_parcel db k p' :
  parcel_deliveries db !! k = None ->
  drivers_kept db (set_parcel_deliveries (<[k := p']> (parcel_deliveries db)) db).
Proof.
  intros Hk. split; cbn; [eauto using driver_step_refl|].
  intros k' x Hx. rewrite lookup_insert_ne by congruence.
  eauto using driver_step_refl.
Qed.

Lemma drivers_kept_trans db1 db2 db3 :
  drivers_kept db1 db2 -> drivers_kept db2 db3 -> drivers_kept db1 db3.
Proof.
  intros [Ho1 Hp1] [Ho2 Hp2]. split.
  - intros k o Hk. destruct (Ho1 k o Hk) as (o' & Hk' & S1).
    destruct (Ho2 k o' Hk') as (o'' & Hk'' & S2).
    exists o''. split; [exact Hk''|].
    destruct S1 as [E1|[E1 [d1 E1']]].
    + rewrite <- E1. exact S2.
    + rewrite E1' in S2. apply driver_step_assigned in S2.
      right. eauto.
  - intros k p Hk. destruct (Hp1 k p Hk) as (p' & Hk' & S1).
    destruct (Hp2 k p' Hk') as (p'' & Hk'' & S2).
    exists p''. split; [exact Hk''|].
    destruct S1 as [E1|[E1 [d1 E1']]].
    + rewrite <- E1. exact S2.
    + rewrite E1' in S2. apply driver_step_assigned in S2.
      right. eauto.
Qed.

(** Handlers that leave the job tables alone. *)
Lemma keeps_jobs_read_only {A} (h : Handler A) : read_only h -> keeps_jobs h.
Proof. intros Hh db. rewrite Hh. split; reflexivity. Qed.

Lemma keeps_jobs_bind {A B} (m : Handler A) (k : A -> Handler B) :
  keeps_jobs m -> (forall a, keeps_jobs (k a)) -> keeps_jobs (bind m k).
Proof.
  intros Hm Hk db. unfold bind. specialize (Hm db).
  destruct (m db) as [[a|e] db']; cbn in *; [|exact Hm].
  destruct Hm as [Ho Hp], (Hk a db') as [Ho' Hp'].
  split; congruence.
Qed.

Lemma keeps_jobs_ret {A} (a : A) : keeps_jobs (ret a).
Proof. apply keeps_jobs_read_only, read_only_ret. Qed.

Lemma keeps_jobs_raise {A} e : keeps_jobs (@raise A e).
Proof. apply keeps_jobs_read_only, read_only_raise. Qed.

Lemma keeps_jobs_query_reviews P : keeps_jobs (query_reviews P).
Proof. intros db. split; reflexivity. Qed.

Lemma keeps_jobs_query_first {A} (table : DB -> gmap UUID A) k :
  keeps_jobs (query_first table k).
Proof. intros db. split; reflexivity. Qed.

Lemma keeps_jobs_add_review r : keeps_jobs (add_review r).
Proof.
  unfold add_review. apply keeps_jobs_bind; [apply keeps_jobs_query_reviews|].
  intros [|? ?]; [|apply keeps_jobs_raise].
  intros db. split; reflexivity.
Qed.

Lemma keeps_jobs_save_restaurant k r : keeps_jobs (save_restaurant k r).
Proof. intros db. split; reflexivity. Qed.

Lemma keeps_jobs_save_driver_profile k d : keeps_jobs (save_driver_profile k d).
Proof. intros db. split; reflexivity. Qed.

Lemma keeps_jobs_db_commit : keeps_jobs db_commit.
Proof. apply keeps_jobs_ret. Qed.

Lemma keeps_jobs_validate r : keeps_jobs (ReviewCreate.validate r).
Proof. apply keeps_jobs_read_only, read_only_validate. Qed.

Create HintDb jobs.
#[local] Hint Resolve keeps_jobs_ret keeps_jobs_raise keeps_jobs_query_reviews
  keeps_jobs_query_first keeps_jobs_add_review keeps_jobs_save_restaurant
  keeps_jobs_save_driver_profile keeps_jobs_db_commit keeps_jobs_validate : jobs.

(** Walks a handler built from [bind], [match] and [if]. *)
Ltac keeps_jobs_walk :=
  repeat first
    [ solve [auto with jobs]
    | apply keeps_jobs_bind; [|intros ?]
    | match goal with
      | |- keeps_jobs (match ?x with _ => _ end) => destruct x
      end ].

Lemma keeps_jobs_review_restaurant k d u n : keeps_jobs (review_restaurant k d u n).
Proof. unfold review_restaurant. keeps_jobs_walk. Qed.

Lemma keeps_jobs_review_driver k d u n : keeps_jobs (review_driver k d u n).
Proof. unfold review_driver. keeps_jobs_walk. Qed.

Lemma keeps_jobs_bump_total_deliveries u : keeps_jobs (bump_total_deliveries u).
Proof.
  intros db. rewrite bump_total_deliveries_run.
  destruct (counter_full u db); [split; reflexivity|].
  apply same_jobs_count_delivery.
Qed.

(** ** Creating a food order, case by case *)

Lemma bind_read_only {A B} (m : Handler A) (k : A -> Handler B) db :
  read_only m ->
  bind m k db =
  match fst (m db) with
  | Ok a => k a db
  | Raise e => (Raise e, db)
  end.
Proof.
  intros Hm. unfold bind. rewrite (read_only_run m db Hm). cbn.
  destruct (fst (m db)); reflexivity.
Qed.

Lemma numeric_10_2_run d db :
  numeric_10_2 d db =
  (if Z.abs (quantize_cents round_half_away d) <? 10 ^ 10
   then Ok (quantize_cents round_half_away d) else Raise DataError, db).
Proof. unfold numeric_10_2. destruct (_ <? _); reflexivity. Qed.

Lemma numeric_10_2_ok d db c :
  fst (numeric_10_2 d db) = Ok c ->
  c = quantize_cents round_half_away d /\ Z.abs c < 10 ^ 10.
Proof.
  rewrite numeric_10_2_run. cbn [fst].
  destruct (Z.ltb_spec (Z.abs (quantize_cents round_half_away d)) (10 ^ 10));
    [|discriminate].
  intros [= <-]. auto.
Qed.

(** What a successful [create_food_order] has read, computed and written. *)
Lemma create_food_order_ok order_data u k db o db' :
  create_food_order order_data u k db = (Ok o, db') ->
  exists restaurant subtotal order_items_to_create rows,
    restaurants db !! FoodOrderCreate.restaurant_id order_data = Some restaurant /\
    Restaurant.is_active restaurant = true /\
    fst (price_items (FoodOrderCreate.items order_data) (mkDecimal 0 1) [] db)
      = Ok (subtotal, order_items_to_create) /\
    fst (numeric_10_2 subtotal db) = Ok (FoodOrder.subtotal o) /\
    fst (numeric_10_2 (as_decimal (Restaurant.delivery_fee restaurant)) db)
      = Ok (FoodOrder.delivery_fee o) /\
    fst (numeric_10_2 (dec_mul subtotal (mkDecimal 8 2)) db)
      = Ok (FoodOrder.tax o) /\
    fst (numeric_10_2
           (dec_add (dec_add subtotal
                       (as_decimal (Restaurant.delivery_fee restaurant)))
              (dec_mul subtotal (mkDecimal 8 2))) db)
      = Ok (FoodOrder.total_amount o) /\
    FoodOrder.customer_id o = u /\
    FoodOrder.restaurant_id o = FoodOrderCreate.restaurant_id order_data /\
    FoodOrder.driver_id o = None /\
    FoodOrder.status o = OrderStatus.PENDING /\
    food_orders db !! k = None /\
    fst (order_item_rows k order_items_to_create db) = Ok rows /\
    db' = set_order_items (order_items db ++ rows)
            (set_food_orders (<[k := o]> (food_orders db)) db).
Proof.
  unfold create_food_order.
  rewrite bind_read_only by apply read_only_query_first.
  unfold query_first at 1. cbn [fst].
  destruct (restaurants db !! _) as [restaurant|] eqn:Hr; [|discriminate].
  destruct (Restaurant.is_active restaurant) eqn:Ha; [|discriminate].
  cbn [negb].
  rewrite bind_read_only by apply read_only_price_items.
  destruct (fst (price_items _ _ _ db)) as [[subtotal its]|] eqn:Hp;
    [|discriminate].
  cbn [fst snd].
  do 4 (rewrite bind_read_only by apply read_only_numeric_10_2;
        match goal with
        | |- context [fst (numeric_10_2 ?d db)] =>
            destruct (fst (numeric_10_2 d db)) eqn:?; [|discriminate]
        end).
  rewrite bind_read_only by apply read_only_query_first.
  unfold query_first at 1. cbn [fst].
  destruct (food_orders db !! k) eqn:Hk; [discriminate|].
  rewrite bind_read_only by apply read_only_order_item_rows.
  destruct (fst (order_item_rows _ _ db)) as [rows|] eqn:Hrows; [|discriminate].
  run_handler. intros [= <- <-].
  exists restaurant, subtotal, its, rows. cbn. auto 20.
Qed.

(** Whatever [create_food_order] raises, it has written nothing. *)
Lemma create_food_order_raise order_data u k db e db' :
  create_food_order order_data u k db = (Raise e, db') -> db' = db.
Proof.
  unfold create_food_order.
  rewrite bind_read_only by apply read_only_query_first.
  unfold query_first at 1. cbn [fst].
  destruct (restaurants db !! _) as [restaurant|]; [|intros [= _ <-]; reflexivity].
  destruct (Restaurant.is_active restaurant); cbn [negb];
    [|intros [= _ <-]; reflexivity].
  rewrite bind_read_only by apply read_only_price_items.
  destruct (fst (price_items _ _ _ db)) as [[subtotal its]|];
    [|intros [= _ <-]; reflexivity].
  cbn [fst snd].
  do 4 (rewrite bind_read_only by apply read_only_numeric_10_2;
        match goal with
        | |- context [fst (numeric_10_2 ?d db)] =>
            destruct (fst (numeric_10_2 d db));
              [|intros [= _ <-]; reflexivity]
        end).
  rewrite bind_read_only by apply read_only_query_first.
  unfold query_first at 1. cbn [fst].
  destruct (food_orders db !! k); [intros [= _ <-]; reflexivity|].
  rewrite bind_read_only by apply read_only_order_item_rows.
  destruct (fst (order_item_rows _ _ db)) as [rows|];
    [|intros [= _ <-]; reflexivity].
  run_handler. discriminate.
Qed.

(** ** Creating a parcel, case by case *)

Section Requests.
Context `{PythonRuntime}.

(** The distance [create_parcel_delivery] prices. *)
Lemma read_only_distance_choice (parcel_data : ParcelDeliveryCreate.t) :
  read_only
    (if forallb truthy
          [ParcelDeliveryCreate.pickup_latitude parcel_data;
           ParcelDeliveryCreate.pickup_longitude parcel_data;
           ParcelDeliveryCreate.delivery_latitude parcel_data;
           ParcelDeliveryCreate.delivery_longitude parcel_data]
     then
       match ParcelDeliveryCreate.pickup_latitude parcel_data,
             ParcelDeliveryCreate.pickup_longitude parcel_data,
             ParcelDeliveryCreate.delivery_latitude parcel_data,
             ParcelDeliveryCreate.delivery_longitude parcel_data with
       | Some lat1, Some lon1, Some lat2, Some lon2 =>
           calculate_distance lat1 lon1 lat2 lon2
       | _, _, _, _ => raise TypeError
       end
     else ret 5%float).
Proof.
  destruct (forallb _ _); [|apply read_only_ret].
  destruct (ParcelDeliveryCreate.pickup_latitude parcel_data);
    [|apply read_only_raise].
  destruct (ParcelDeliveryCreate.pickup_longitude parcel_data);
    [|apply read_only_raise].
  destruct (ParcelDeliveryCreate.delivery_latitude parcel_data);
    [|apply read_only_raise].
  destruct (ParcelDeliveryCreate.delivery_longitude parcel_data);
    [|apply read_only_raise].
  apply read_only_calculate_distance.
Qed.

Lemma create_parcel_delivery_cases parcel_data u k db :
  (exists e, create_parcel_delivery parcel_data u k db = (Raise e, db)) \/
  (exists p,
     create_parcel_delivery parcel_data u k db =
       (Ok p, set_parcel_deliveries (<[k := p]> (parcel_deliveries db)) db) /\
     parcel_deliveries db !! k = None /\
     ParcelDelivery.driver_id p = None /\
     ParcelDelivery.status p = ParcelStatus.PENDING).
Proof.
  unfold create_parcel_delivery.
  rewrite bind_read_only by apply read_only_distance_choice.
  match goal with
  | |- context [fst (?h db)] => destruct (fst (h db)) as [distance_km|]
  end; [|eauto].
  rewrite bind_read_only by apply read_only_numeric_column.
  destruct (fst (numeric_column _ db)) as [fee|]; [|eauto].
  rewrite bind_read_only by apply read_only_query_first.
  unfold query_first. cbn [fst].
  destruct (parcel_deliveries db !! k) eqn:Hk; [eauto|].
  right. run_handler. eexists. split; [reflexivity|]. cbn. auto.
Qed.

(** ** Every request keeps the assigned drivers *)

Lemma serve_drivers_kept r db : drivers_kept db (serve r db).
Proof.
  destruct r; cbn [serve].
  - destruct (create_food_order order_data current_user new_uuid db)
      as [[o|e] db'] eqn:Hrun; cbn [snd].
    + apply create_food_order_ok in Hrun.
      destruct Hrun as (? & ? & ? & rows & Hrun).
      destruct Hrun as (_&_&_&_&_&_&_&_&_&_&_& Hk & _ & ->).
      apply (drivers_kept_trans _ _ _ (drivers_kept_new_order db new_uuid o Hk)).
      apply drivers_kept_same_jobs. split; reflexivity.
    + apply create_food_order_raise in Hrun. subst db'.
      apply drivers_kept_refl.
  - rewrite cancel_order_run.
    destruct (food_orders db !! order_id) as [o|] eqn:Hk;
      [|apply drivers_kept_refl].
    destruct (decide _); [apply drivers_kept_refl|].
    destruct (decide _); [|apply drivers_kept_refl].
    cbn [snd]. eapply drivers_kept_save_order; [exact Hk|].
    apply driver_step_refl.
  - rewrite accept_food_order_run.
    destruct (food_orders db !! order_id) as [o|] eqn:Hk;
      [|apply drivers_kept_refl].
    destruct (FoodOrder.driver_id o) eqn:Hd; [apply drivers_kept_refl|].
    cbn [snd]. eapply drivers_kept_save_order; [exact Hk|].
    right. rewrite Hd. split; [reflexivity|].
    exists current_user. apply claimed_order_status.
  - rewrite update_order_status_run.
    destruct (food_orders db !! order_id) as [o|] eqn:Hk;
      [|apply drivers_kept_refl].
    destruct (decide _); [apply drivers_kept_refl|].
    destruct (decide _).
    + destruct (counter_full _ _); [apply drivers_kept_refl|]. cbn [snd].
      eapply drivers_kept_trans;
        [|apply drivers_kept_same_jobs, same_jobs_count_delivery].
      eapply drivers_kept_save_order; [exact Hk|]. apply driver_step_refl.
    + cbn [snd].
      eapply drivers_kept_save_order; [exact Hk|]. apply driver_step_refl.
  - apply drivers_kept_same_jobs, keeps_jobs_review_restaurant.
  - destruct (create_parcel_delivery_cases parcel_data current_user new_uuid db)
      as [[e ->]|(p & -> & Hk & _)]; cbn [snd].
    + apply drivers_kept_refl.
    + apply drivers_kept_new_parcel, Hk.
  - rewrite cancel_parcel_run.
    destruct (parcel_deliveries db !! parcel_id) as [p|] eqn:Hk;
      [|apply drivers_kept_refl].
    destruct (decide _); [apply drivers_kept_refl|].
    destruct (decide _); [|apply drivers_kept_refl].
    cbn [snd]. eapply drivers_kept_save_parcel; [exact Hk|].
    apply driver_step_refl.
  - rewrite accept_parcel_run.
    destruct (parcel_deliveries db !! parcel_id) as [p|] eqn:Hk;
      [|apply drivers_kept_refl].
    destruct (ParcelDelivery.driver_id p) eqn:Hd; [apply drivers_kept_refl|].
    cbn [snd]. eapply drivers_kept_save_parcel; [exact Hk|].
    right. rewrite Hd. split; [reflexivity|].
    exists current_user. reflexivity.
  - rewrite update_parcel_status_run.
    destruct (parcel_deliveries db !! parcel_id) as [p|] eqn:Hk;
      [|apply drivers_kept_refl].
    destruct (decide _); [apply drivers_kept_refl|].
    destruct (decide _).
    + cbn [snd].
      eapply drivers_kept_save_parcel; [exact Hk|]. apply driver_step_refl.
    + destruct (decide _).
      * destruct (counter_full _ _); [apply drivers_kept_refl|]. cbn [snd].
        eapply drivers_kept_trans;
          [|apply drivers_kept_same_jobs, same_jobs_count_delivery].
        eapply drivers_kept_save_parcel; [exact Hk|]. apply driver_step_refl.
      * cbn [snd].
        eapply drivers_kept_save_parcel; [exact Hk|]. apply driver_step_refl.
  - apply drivers_kept_same_jobs, keeps_jobs_review_driver.
Qed.

Lemma serve_all_drivers_kept rs : forall db, drivers_kept db (serve_all rs db).
Proof.
  unfold serve_all.
  induction rs as [|r rs IH]; intros db; cbn [fold_left].
  - apply drivers_kept_refl.
  - eapply drivers_kept_trans; [apply serve_drivers_kept|apply IH].
Qed.

(** C2: a request leaves the driver of every food order and parcel as it
    was or sets it from unset to a driver; a claim on a job whose driver is
    set raises 400 "... already assigned to a driver" (AlreadyAssigned) and
    writes nothing; and after any sequence of requests, cancellations
    included, a job that had driver [d] still has driver [d]. *)
Theorem driver_set_at_most_once :
  (forall r db, drivers_kept db (serve r db)) /\
  (forall k u db o d,
     food_orders db !! k = Some o -> FoodOrder.driver_id o = Some d ->
     accept_food_order k u db =
     (Raise (HTTPException 400 (Literal "Order already assigned to a driver")),
      db)) /\
  (forall k u db p d,
     parcel_deliveries db !! k = Some p -> ParcelDelivery.driver_id p = Some d ->
     accept_parcel k u db =
     (Raise (HTTPException 400 (Literal "Parcel already assigned to a driver")),
      db)) /\
  (forall rs db k o d,
     food_orders db !! k = Some o -> FoodOrder.driver_id o = Some d ->
     exists o', food_orders (serve_all rs db) !! k = Some o' /\
                FoodOrder.driver_id o' = Some d) /\
  (forall rs db k p d,
     parcel_deliveries db !! k = Some p -> ParcelDelivery.driver_id p = Some d ->
     exists p', parcel_deliveries (serve_all rs db) !! k = Some p' /\
                ParcelDelivery.driver_id p' = Some d).
Proof.
  split; [exact serve_drivers_kept|].
  split; [|split; [|split]].
  - intros k u db o d Hk Hd. rewrite accept_food_order_run, Hk, Hd. reflexivity.
  - intros k u db p d Hk Hd. rewrite accept_parcel_run, Hk, Hd. reflexivity.
  - intros rs db k o d Hk Hd.
    destruct (proj1 (serve_all_drivers_kept rs db) k o Hk) as (o' & Hk' & Hs).
    rewrite Hd in Hs. apply driver_step_assigned in Hs. eauto.
  - intros rs db k p d Hk Hd.
    destruct (proj2 (serve_all_drivers_kept rs db) k p Hk) as (p' & Hk' & Hs).
    rewrite Hd in Hs. apply driver_step_assigned in Hs. eauto.
Qed.

End Requests.

(** ** Pricing a food order *)

Lemma dec_add_cents (s t : Decimal) :
  (places s <= 2)%nat -> places t = 2%nat ->
  places (dec_add s t) = 2%nat /\
  coefficient (dec_add s t) = rescale s 2 + coefficient t.
Proof.
  intros Hs Ht. unfold dec_add, rescale. cbn [places coefficient].
  rewrite Ht. replace (Nat.max (places s) 2) with 2%nat by lia.
  split; [reflexivity|]. replace (2 - 2)%nat with 0%nat by lia.
  cbn. lia.
Qed.

Lemma rescale_cents (d : Decimal) : places d = 2%nat -> rescale d 2 = coefficient d.
Proof. intros Hd. unfold rescale. rewrite Hd. cbn. lia. Qed.

(** The subtotal the loop returns is the one it started from plus the line
    totals, and has two fractional digits as soon as there is an item. *)
Lemma price_items_subtotal items :
  forall s acc db subtotal its,
    fst (price_items items s acc db) = Ok (subtotal, its) ->
    (places s <= 2)%nat ->
    rescale subtotal 2 = rescale s 2 + sum_line_totals db items /\
    places subtotal = match items with [] => places s | _ => 2%nat end.
Proof.
  induction items as [|item rest IH]; intros s acc db subtotal its Hrun Hs.
  - cbn in Hrun. injection Hrun as <- <-. cbn. split; [lia|reflexivity].
  - cbn [price_items] in Hrun.
    rewrite bind_read_only in Hrun by apply read_only_query_first.
    unfold query_first in Hrun. cbn [fst] in Hrun. cbn [sum_line_totals].
    destruct (menu_items db !! _) as [menu_item|]; [|discriminate].
    destruct (negb (MenuItem.is_available menu_item)); [discriminate|].
    apply IH in Hrun.
    + destruct Hrun as [Hsum Hplaces]. split.
      * rewrite Hsum.
        destruct (dec_add_cents s
                    (dec_mul_int (as_decimal (MenuItem.price menu_item))
                       (OrderItemCreate.quantity item)) Hs eq_refl)
          as [Hp Hc].
        rewrite (rescale_cents _ Hp), Hc. cbn. lia.
      * destruct rest; [|exact Hplaces].
        rewrite Hplaces. apply dec_add_cents; [exact Hs|reflexivity].
    + pose proof (dec_add_cents s
                    (dec_mul_int (as_decimal (MenuItem.price menu_item))
                       (OrderItemCreate.quantity item)) Hs eq_refl) as [Hp _].
      rewrite Hp. lia.
Qed.

(** Evaluates the closed powers of ten that rescaling leaves. *)
Ltac powers_of_ten :=
  repeat match goal with
         | |- context [10 ^ Z.of_nat ?n] =>
             let v := eval vm_compute in (10 ^ Z.of_nat n) in
             change (10 ^ Z.of_nat n) with v
         end.

(** Eight hundredths of a number of cents is never halfway between two
    cents, so the two roundings agree on it. *)
Lemma tax_never_tie (s : Z) : (8 * s) mod 100 <> 50.
Proof. intros Hm. Z.div_mod_to_equations. lia. Qed.

(** Any rounding of [8 * s / 100] to a nearest integer is Python's. *)
Lemma tax_rounding_unique (rnd : Z -> Z) (s : Z) :
  (forall n, Z.abs (100 * rnd n - n) <= 50) ->
  rnd (8 * s) = round_half_even (8 * s) 100.
Proof.
  intros Hnear. specialize (Hnear (8 * s)).
  pose proof (tax_never_tie s) as Htie.
  unfold round_half_even. cbv zeta.
  destruct (Z.ltb_spec (2 * ((8 * s) mod 100)) 100);
    [|destruct (Z.ltb_spec 100 (2 * ((8 * s) mod 100)));
      [|exfalso]];
    Z.div_mod_to_equations; lia.
Qed.

Lemma round_half_away_even (n : Z) :
  n mod 100 <> 50 -> round_half_away n 100 = round_half_even n 100.
Proof.
  intros Hn. unfold round_half_away, round_half_even. cbv zeta.
  destruct (Z.leb_spec 0 n);
    destruct (Z.ltb_spec (2 * (n mod 100)) 100);
    destruct (Z.ltb_spec 100 (2 * (n mod 100)));
    try destruct (Z.even (n / 100));
    Z.div_mod_to_equations; lia.
Qed.

Lemma round_half_away_shift (m n : Z) :
  n mod 100 <> 50 ->
  round_half_away (m * 100 + n) 100 = m + round_half_away n 100.
Proof.
  intros Hn. unfold round_half_away.
  destruct (Z.leb_spec 0 n); destruct (Z.leb_spec 0 (m * 100 + n));
    Z.div_mod_to_equations; lia.
Qed.

(** C3: in the order that create_food_order stores and returns, the
    subtotal is the sum of the line totals, the delivery fee is the fee of
    the restaurant of the order, the tax is round(subtotal * 0.08, 2), and
    the total is subtotal + the fee of the restaurant + tax, all in cents.
    The handler computes subtotal * Decimal("0.08") and
    the sum exactly, in Decimal; the Numeric(10, 2) columns bring them to
    two fractional digits, and since 0.08 * subtotal is never halfway
    between two cents the column's rounding is Python's round. *)
Theorem food_order_tax_and_total order_data u k db o db' :
  create_food_order order_data u k db = (Ok o, db') ->
  exists restaurant,
    restaurants db !! FoodOrderCreate.restaurant_id order_data
      = Some restaurant /\
    FoodOrder.delivery_fee o = Restaurant.delivery_fee restaurant /\
    FoodOrder.subtotal o
      = sum_line_totals db (FoodOrderCreate.items order_data) /\
    FoodOrder.tax o =
      py_round_2 (dec_mul (as_decimal (FoodOrder.subtotal o)) (mkDecimal 8 2)) /\
    FoodOrder.total_amount o =
      FoodOrder.subtotal o + Restaurant.delivery_fee restaurant +
      FoodOrder.tax o /\
    FoodOrder.total_amount o =
      FoodOrder.subtotal o + FoodOrder.delivery_fee o + FoodOrder.tax o.
Proof.
  intros Hrun. apply create_food_order_ok in Hrun.
  destruct Hrun as (r & subtotal & its & rows & Hr & _ & Hp & Hs & Hf & Ht & Htot & _).
  exists r. split; [exact Hr|].
  cut (FoodOrder.delivery_fee o = Restaurant.delivery_fee r /\
       FoodOrder.subtotal o
         = sum_line_totals db (FoodOrderCreate.items order_data) /\
       FoodOrder.tax o =
         py_round_2 (dec_mul (as_decimal (FoodOrder.subtotal o))
                       (mkDecimal 8 2)) /\
       FoodOrder.total_amount o =
         FoodOrder.subtotal o + FoodOrder.delivery_fee o + FoodOrder.tax o).
  { intros (Hfee & Hsub & Htax & Htotal).
    repeat (split; [assumption|]). split; [|exact Htotal].
    rewrite <- Hfee. exact Htotal. }
  apply numeric_10_2_ok in Hs, Hf, Ht, Htot.
  destruct Hs as [Hs _], Hf as [Hf _], Ht as [Ht _], Htot as [Htot _].
  apply price_items_subtotal in Hp; [|cbn; lia].
  destruct Hp as [Hsum Hplaces].
  destruct subtotal as [c p]. cbn [places] in Hplaces.
  unfold rescale in Hsum. cbn [places coefficient] in Hsum.
  assert (Hfee : FoodOrder.delivery_fee o = Restaurant.delivery_fee r).
  { rewrite Hf. unfold quantize_cents, as_decimal. cbn. lia. }
  split; [exact Hfee|].
  unfold py_round_2, as_decimal, dec_mul, quantize_cents.
  cbn [places coefficient Nat.add Nat.leb].
  destruct (FoodOrderCreate.items order_data) as [|item rest]; subst p.
  - (* no item: the subtotal is Decimal("0.0") *)
    cbn in Hsum. assert (c = 0) by lia. subst c.
    assert (Hs0 : FoodOrder.subtotal o = 0) by (rewrite Hs; reflexivity).
    assert (Ht0 : FoodOrder.tax o = 0) by (rewrite Ht; reflexivity).
    rewrite Hs0, Ht0. repeat split.
    rewrite Htot, Hfee.
    unfold quantize_cents, dec_add, dec_mul, rescale, as_decimal.
    cbn [places coefficient Nat.max Nat.add Nat.sub Nat.leb].
    powers_of_ten. unfold round_half_away.
    destruct (Z.leb_spec 0 ((0 * 10 + Restaurant.delivery_fee r * 1) * 10 + 0 * 8 * 1));
      Z.div_mod_to_equations; lia.
  - (* at least one item: the subtotal has two fractional digits *)
    assert (HS : FoodOrder.subtotal o = c).
    { rewrite Hs. unfold quantize_cents. cbn. lia. }
    assert (Hc : c = sum_line_totals db (item :: rest)).
    { revert Hsum. cbn [Nat.sub]. powers_of_ten. lia. }
    assert (HT : FoodOrder.tax o = round_half_away (c * 8) 100).
    { rewrite Ht. reflexivity. }
    rewrite HS. split; [exact Hc|]. split.
    + rewrite HT. cbn [Nat.sub]. powers_of_ten.
      apply round_half_away_even. rewrite Z.mul_comm. apply tax_never_tie.
    + rewrite Htot, Hfee, HT.
      unfold quantize_cents, dec_add, dec_mul, rescale, as_decimal.
      cbn [places coefficient Nat.max Nat.add Nat.sub Nat.leb].
      powers_of_ten.
      replace ((c * 1 + Restaurant.delivery_fee r * 1) * 100 + c * 8 * 1)
        with ((c + Restaurant.delivery_fee r) * 100 + c * 8) by lia.
      apply round_half_away_shift. rewrite Z.mul_comm. apply tax_never_tie.
Qed.

(** ** The review handlers, case by case *)

Lemma add_review_run review db :
  add_review review db =
  match List.filter (fun r => bool_decide (Review.id r = Review.id review))
          (reviews db) with
  | [] => (Ok tt, set_reviews (reviews db ++ [review]) db)
  | _ :: _ => (Raise IntegrityError, db)
  end.
Proof.
  unfold add_review. run_handler.
  destruct (List.filter _ (reviews db)); reflexivity.
Qed.

Lemma review_restaurant_run order_id review_data u new_uuid db :
  review_restaurant order_id review_data u new_uuid db =
  if ReviewCreate.valid review_data then
    match food_orders db !! order_id with
    | None => (Raise (HTTPException 404 (Literal "Order not found")), db)
    | Some o =>
        if decide (FoodOrder.customer_id o <> u)
        then (Raise (HTTPException 403
                       (Literal "Not authorized to review this order")), db)
        else if decide (FoodOrder.status o <> OrderStatus.DELIVERED)
        then (Raise (HTTPException 400
                       (Literal "Can only review delivered orders")), db)
        else
          match List.filter (review_of order_id u TargetType.RESTAURANT)
                  (reviews db) with
          | _ :: _ =>
              (Raise (HTTPException 400 (Literal "Order already reviewed")), db)
          | [] =>
              let review :=
                Review.mk new_uuid u TargetType.RESTAURANT
                  (FoodOrder.restaurant_id o) (Some order_id)
                  (ReviewCreate.rating review_data)
                  (ReviewCreate.comment review_data) in
              match List.filter
                      (fun r => bool_decide (Review.id r = new_uuid))
                      (reviews db) with
              | _ :: _ => (Raise IntegrityError, db)
              | [] =>
                  let db1 := set_reviews (reviews db ++ [review]) db in
                  match List.filter
                          (review_targets TargetType.RESTAURANT
                             (FoodOrder.restaurant_id o)) (reviews db1) with
                  | [] => (Ok review, db1)
                  | r :: rs =>
                      match restaurants db !! FoodOrder.restaurant_id o with
                      | None => (Raise AttributeError, db1)
                      | Some restaurant =>
                          (Ok review,
                           set_restaurants
                             (<[FoodOrder.restaurant_id o :=
                                  Restaurant.set_rating_average
                                    (avg_rating (r :: rs)) restaurant]>
                                (restaurants db)) db1)
                      end
                  end
              end
          end
    end
  else (Raise (HTTPException 422 (Literal "rating must be between 1 and 5")), db).
Proof.
  unfold review_restaurant.
  rewrite bind_read_only by apply read_only_validate.
  unfold ReviewCreate.validate.
  destruct (ReviewCreate.valid review_data); [|reflexivity]. cbn [fst ret].
  rewrite bind_read_only by apply read_only_query_first.
  unfold query_first at 1. cbn [fst].
  destruct (food_orders db !! order_id) as [o|]; [|reflexivity].
  destruct (decide (FoodOrder.customer_id o <> u)); [reflexivity|].
  destruct (decide (FoodOrder.status o <> OrderStatus.DELIVERED)); [reflexivity|].
  unfold bind at 1, query_reviews at 1.
  destruct (List.filter (review_of _ _ _) (reviews db)); [|reflexivity].
  unfold bind at 1. rewrite add_review_run. cbn [Review.id].
  destruct (List.filter (fun r => bool_decide (Review.id r = new_uuid)) _);
    [|reflexivity].
  cbv zeta. run_handler. simpl (reviews _).
  destruct (List.filter (review_targets _ _) _); [reflexivity|].
  simpl (restaurants _).
  destruct (restaurants db !! _); reflexivity.
Qed.

Lemma review_driver_run parcel_id review_data u new_uuid db :
  review_driver parcel_id review_data u new_uuid db =
  if ReviewCreate.valid review_data then
    match parcel_deliveries db !! parcel_id with
    | None =>
        (Raise (HTTPException 404 (Literal "Parcel delivery not found")), db)
    | Some p =>
        if decide (ParcelDelivery.sender_id p <> u)
        then (Raise (HTTPException 403
                       (Literal "Not authorized to review this delivery")), db)
        else if decide (ParcelDelivery.status p <> ParcelStatus.DELIVERED)
        then (Raise (HTTPException 400
                       (Literal "Can only review delivered parcels")), db)
        else
          match ParcelDelivery.driver_id p with
          | None =>
              (Raise (HTTPException 400
                        (Literal "No driver assigned to this delivery")), db)
          | Some driver_id =>
              match List.filter (review_of parcel_id u TargetType.DRIVER)
                      (reviews db) with
              | _ :: _ =>
                  (Raise (HTTPException 400
                            (Literal "Delivery already reviewed")), db)
              | [] =>
                  let review :=
                    Review.mk new_uuid u TargetType.DRIVER driver_id
                      (Some parcel_id) (ReviewCreate.rating review_data)
                      (ReviewCreate.comment review_data) in
                  match List.filter
                          (fun r => bool_decide (Review.id r = new_uuid))
                          (reviews db) with
                  | _ :: _ => (Raise IntegrityError, db)
                  | [] =>
                      let db1 := set_reviews (reviews db ++ [review]) db in
                      match List.filter
                              (review_targets TargetType.DRIVER driver_id)
                              (reviews db1) with
                      | [] => (Ok review, db1)
                      | r :: rs =>
                          match driver_profiles db !! driver_id with
                          | None => (Ok review, db1)
                          | Some driver_profile =>
                              (Ok review,
                               set_driver_profiles
                                 (<[driver_id :=
                                      DriverProfile.set_rating_average
                                        (avg_rating (r :: rs)) driver_profile]>
                                    (driver_profiles db)) db1)
                          end
                      end
                  end
              end
          end
    end
  else (Raise (HTTPException 422 (Literal "rating must be between 1 and 5")), db).
Proof.
  unfold review_driver.
  rewrite bind_read_only by apply read_only_validate.
  unfold ReviewCreate.validate.
  destruct (ReviewCreate.valid review_data); [|reflexivity]. cbn [fst ret].
  rewrite bind_read_only by apply read_only_query_first.
  unfold query_first at 1. cbn [fst].
  destruct (parcel_deliveries db !! parcel_id) as [p|]; [|reflexivity].
  destruct (decide (ParcelDelivery.sender_id p <> u)); [reflexivity|].
  destruct (decide (ParcelDelivery.status p <> ParcelStatus.DELIVERED));
    [reflexivity|].
  destruct (ParcelDelivery.driver_id p) as [driver_id|]; [|reflexivity].
  unfold bind at 1, query_reviews at 1.
  destruct (List.filter (review_of _ _ _) (reviews db)); [|reflexivity].
  unfold bind at 1. rewrite add_review_run. cbn [Review.id].
  destruct (List.filter (fun r => bool_decide (Review.id r = new_uuid)) _);
    [|reflexivity].
  cbv zeta. run_handler. simpl (reviews _).
  destruct (List.filter (review_targets _ _) _); [reflexivity|].
  simpl (driver_profiles _).
  destruct (driver_profiles db !! _); reflexivity.
Qed.

(** ** Reviews: by the requester, after delivery, once *)

Lemma review_of_true k u tt r :
  review_of k u tt r = true <->
  Review.order_id r = Some k /\ Review.reviewer_id r = u /\
  Review.target_type r = tt.
Proof.
  unfold review_of. rewrite !andb_true_iff, !bool_decide_eq_true. tauto.
Qed.

Lemma review_targets_true tt k r :
  review_targets tt k r = true <->
  Review.target_type r = tt /\ Review.target_id r = k.
Proof.
  unfold review_targets. rewrite andb_true_iff, !bool_decide_eq_true. tauto.
Qed.

(** One more row keeps the invariant when no row had its key yet. *)
Lemma at_most_one_review_add db k u tt r :
  at_most_one_review db ->
  List.filter (review_of k u tt) (reviews db) = [] ->
  review_of k u tt r = true ->
  forall k' u' tt',
    (length (List.filter (review_of k' u' tt') (reviews db ++ [r])) <= 1)%nat.
Proof.
  intros Hinv Hnone Hr k' u' tt'. rewrite List.filter_app, length_app.
  cbn [List.filter]. destruct (review_of k' u' tt' r) eqn:Hr'.
  - apply review_of_true in Hr, Hr'.
    destruct Hr as (Hk & Hu & Ht), Hr' as (Hk' & Hu' & Ht').
    assert (k' = k) by congruence. subst k' u' tt'. rewrite Hu, Ht, Hnone.
    cbn. lia.
  - specialize (Hinv k' u' tt'). cbn. lia.
Qed.

Lemma review_restaurant_ok k u db d n r db' :
     review_restaurant k d u n db = (Ok r, db') ->
     exists o,
       food_orders db !! k = Some o /\ FoodOrder.customer_id o = u /\
       FoodOrder.status o = OrderStatus.DELIVERED /\
       List.filter (review_of k u TargetType.RESTAURANT) (reviews db) = [] /\
       reviews db' = reviews db ++ [r] /\
       review_of k u TargetType.RESTAURANT r = true.
Proof.
  rewrite review_restaurant_run.
  destruct (ReviewCreate.valid d); [|discriminate].
  destruct (food_orders db !! k) as [o|]; [|discriminate].
  destruct (decide _) as [|Hu]; [discriminate|].
  destruct (decide _) as [|Hs]; [discriminate|].
  apply dec_stable in Hu, Hs.
  destruct (List.filter (review_of _ _ _) _) eqn:Hnone; [|discriminate].
  destruct (List.filter (fun r => bool_decide _) _); [|discriminate].
  cbv zeta. destruct (List.filter (review_targets _ _) _).
  - intros [= <- <-]. exists o. cbn.
    repeat split; auto. apply review_of_true. auto.
  - destruct (restaurants db !! _); [|discriminate].
    intros [= <- <-]. exists o. cbn.
    repeat split; auto. apply review_of_true. auto.
Qed.

Lemma review_driver_ok k u db d n r db' :
     review_driver k d u n db = (Ok r, db') ->
     exists p driver,
       parcel_deliveries db !! k = Some p /\ ParcelDelivery.sender_id p = u /\
       ParcelDelivery.status p = ParcelStatus.DELIVERED /\
       ParcelDelivery.driver_id p = Some driver /\
       List.filter (review_of k u TargetType.DRIVER) (reviews db) = [] /\
       reviews db' = reviews db ++ [r] /\
       review_of k u TargetType.DRIVER r = true.
Proof.
  rewrite review_driver_run.
  destruct (ReviewCreate.valid d); [|discriminate].
  destruct (parcel_deliveries db !! k) as [p|]; [|discriminate].
  destruct (decide _) as [|Hu]; [discriminate|].
  destruct (decide _) as [|Hs]; [discriminate|].
  apply dec_stable in Hu, Hs.
  destruct (ParcelDelivery.driver_id p) as [driver|] eqn:Hd; [|discriminate].
  destruct (List.filter (review_of _ _ _) _) eqn:Hnone; [|discriminate].
  destruct (List.filter (fun r => bool_decide _) _); [|discriminate].
  cbv zeta. destruct (List.filter (review_targets _ _) _).
  - intros [= <- <-]. exists p, driver. cbn.
    repeat split; auto. apply review_of_true. auto.
  - destruct (driver_profiles db !! _); intros [= <- <-];
      exists p, driver; cbn; repeat split; auto; apply review_of_true; auto.
Qed.

(** A review request on a job the caller has reviewed already. *)
Lemma review_restaurant_again k u db d n o r0 :
  food_orders db !! k = Some o -> FoodOrder.customer_id o = u ->
  FoodOrder.status o = OrderStatus.DELIVERED ->
  ReviewCreate.valid d = true ->
  In r0 (reviews db) -> review_of k u TargetType.RESTAURANT r0 = true ->
  review_restaurant k d u n db =
  (Raise (HTTPException 400 (Literal "Order already reviewed")), db).
Proof.
  intros Hk Hu Hs Hvalid Hin Hr0.
  rewrite review_restaurant_run, Hvalid, Hk.
  destruct (decide _); [contradiction|].
  destruct (decide _); [contradiction|].
  destruct (List.filter _ (reviews db)) eqn:Hnone; [|reflexivity].
  assert (Hmem : In r0 (List.filter (review_of k u TargetType.RESTAURANT)
                          (reviews db))) by (apply List.filter_In; auto).
  rewrite Hnone in Hmem. destruct Hmem.
Qed.

Lemma review_driver_again k u db d n p driver r0 :
  parcel_deliveries db !! k = Some p -> ParcelDelivery.sender_id p = u ->
  ParcelDelivery.status p = ParcelStatus.DELIVERED ->
  ParcelDelivery.driver_id p = Some driver ->
  ReviewCreate.valid d = true ->
  In r0 (reviews db) -> review_of k u TargetType.DRIVER r0 = true ->
  review_driver k d u n db =
  (Raise (HTTPException 400 (Literal "Delivery already reviewed")), db).
Proof.
  intros Hk Hu Hs Hd Hvalid Hin Hr0.
  rewrite review_driver_run, Hvalid, Hk.
  destruct (decide _); [contradiction|].
  destruct (decide _); [contradiction|].
  rewrite Hd.
  destruct (List.filter _ (reviews db)) eqn:Hnone; [|reflexivity].
  assert (Hmem : In r0 (List.filter (review_of k u TargetType.DRIVER)
                          (reviews db))) by (apply List.filter_In; auto).
  rewrite Hnone in Hmem. destruct Hmem.
Qed.

(** Whatever HTTP error a review handler raises, it has written nothing. *)
Lemma review_restaurant_raise k u db d n e db' :
  review_restaurant k d u n db = (Raise e, db') ->
  e <> AttributeError -> db' = db.
Proof.
  rewrite review_restaurant_run.
  destruct (ReviewCreate.valid d); [|congruence].
  destruct (food_orders db !! k) as [o|]; [|congruence].
  destruct (decide _); [congruence|].
  destruct (decide _); [congruence|].
  destruct (List.filter (review_of _ _ _) _); [|congruence].
  destruct (List.filter (fun r => bool_decide _) _); [|congruence].
  cbv zeta. destruct (List.filter (review_targets _ _) _); [discriminate|].
  destruct (restaurants db !! _); [discriminate|congruence].
Qed.

Lemma review_driver_raise k u db d n e db' :
  review_driver k d u n db = (Raise e, db') -> db' = db.
Proof.
  rewrite review_driver_run.
  destruct (ReviewCreate.valid d); [|congruence].
  destruct (parcel_deliveries db !! k) as [p|]; [|congruence].
  destruct (decide _); [congruence|].
  destruct (decide _); [congruence|].
  destruct (ParcelDelivery.driver_id p) as [driver|]; [|congruence].
  destruct (List.filter (review_of _ _ _) _); [|congruence].
  destruct (List.filter (fun r => bool_decide _) _); [|congruence].
  cbv zeta. destruct (List.filter (review_targets _ _) _); [discriminate|].
  destruct (driver_profiles db !! _); discriminate.
Qed.

(** The review handlers keep the reviews table at one review per key. *)
Lemma review_restaurant_keeps_unique k u db d n :
  at_most_one_review db ->
  at_most_one_review (snd (review_restaurant k d u n db)).
Proof.
  intros Hinv. rewrite review_restaurant_run.
  destruct (ReviewCreate.valid d); [|exact Hinv].
  destruct (food_orders db !! k) as [o|]; [|exact Hinv].
  destruct (decide _); [exact Hinv|].
  destruct (decide _); [exact Hinv|].
  destruct (List.filter (review_of _ _ _) _) eqn:Hnone; [|exact Hinv].
  destruct (List.filter (fun r => bool_decide _) _); [|exact Hinv].
  cbv zeta.
  assert (Hadd := fun Hr => at_most_one_review_add db k u TargetType.RESTAURANT
                    (Review.mk n u TargetType.RESTAURANT
                       (FoodOrder.restaurant_id o) (Some k)
                       (ReviewCreate.rating d) (ReviewCreate.comment d))
                    Hinv Hnone Hr).
  specialize (Hadd ltac:(apply review_of_true; auto)).
  destruct (List.filter (review_targets _ _) _); [exact Hadd|].
  destruct (restaurants db !! _); exact Hadd.
Qed.

Lemma review_driver_keeps_unique k u db d n :
  at_most_one_review db ->
  at_most_one_review (snd (review_driver k d u n db)).
Proof.
  intros Hinv. rewrite review_driver_run.
  destruct (ReviewCreate.valid d); [|exact Hinv].
  destruct (parcel_deliveries db !! k) as [p|]; [|exact Hinv].
  destruct (decide _); [exact Hinv|].
  destruct (decide _); [exact Hinv|].
  destruct (ParcelDelivery.driver_id p) as [driver|]; [|exact Hinv].
  destruct (List.filter (review_of _ _ _) _) eqn:Hnone; [|exact Hinv].
  destruct (List.filter (fun r => bool_decide _) _); [|exact Hinv].
  cbv zeta.
  assert (Hadd := fun Hr => at_most_one_review_add db k u TargetType.DRIVER
                    (Review.mk n u TargetType.DRIVER driver (Some k)
                       (ReviewCreate.rating d) (ReviewCreate.comment d))
                    Hinv Hnone Hr).
  specialize (Hadd ltac:(apply review_of_true; auto)).
  destruct (List.filter (review_targets _ _) _); [exact Hadd|].
  destruct (driver_profiles db !! _); exact Hadd.
Qed.

(** A review just created is found by the filter of the next request. *)
Lemma review_restaurant_twice k u db d n r db' d2 n2 :
  review_restaurant k d u n db = (Ok r, db') ->
  ReviewCreate.valid d2 = true ->
  review_restaurant k d2 u n2 db' =
  (Raise (HTTPException 400 (Literal "Order already reviewed")), db').
Proof.
  intros Hrun Hvalid.
  pose proof (keeps_jobs_review_restaurant k d u n db) as [Ho _].
  rewrite Hrun in Ho. cbn [snd] in Ho.
  destruct (review_restaurant_ok k u db d n r db' Hrun)
    as (o & Hk & Hu & Hs & _ & Hrev & Hr).
  apply (review_restaurant_again k u db' d2 n2 o r); auto.
  - rewrite Ho. exact Hk.
  - rewrite Hrev. apply in_or_app. right. left. reflexivity.
Qed.

Lemma review_driver_twice k u db d n r db' d2 n2 :
  review_driver k d u n db = (Ok r, db') ->
  ReviewCreate.valid d2 = true ->
  review_driver k d2 u n2 db' =
  (Raise (HTTPException 400 (Literal "Delivery already reviewed")), db').
Proof.
  intros Hrun Hvalid.
  pose proof (keeps_jobs_review_driver k d u n db) as [_ Hp].
  rewrite Hrun in Hp. cbn [snd] in Hp.
  destruct (review_driver_ok k u db d n r db' Hrun)
    as (p & driver & Hk & Hu & Hs & Hd & _ & Hrev & Hr).
  apply (review_driver_again k u db' d2 n2 p driver r); auto.
  - rewrite Hp. exact Hk.
  - rewrite Hrev. apply in_or_app. right. left. reflexivity.
Qed.

Section ReviewInvariant.
Context `{PythonRuntime}.

(** The other requests leave the reviews table alone. *)
Lemma serve_keeps_unique r db :
  at_most_one_review db -> at_most_one_review (serve r db).
Proof.
  intros Hinv. destruct r; cbn [serve].
  - destruct (create_food_order order_data current_user new_uuid db)
      as [[o|e] db'] eqn:Hrun; cbn [snd].
    + apply create_food_order_ok in Hrun.
      destruct Hrun as (? & ? & ? & rows & Hrun).
      destruct Hrun as (_&_&_&_&_&_&_&_&_&_&_&_&_& ->). exact Hinv.
    + apply create_food_order_raise in Hrun. subst db'. exact Hinv.
  - rewrite cancel_order_run.
    destruct (food_orders db !! order_id); [|exact Hinv].
    destruct (decide _); [exact Hinv|].
    destruct (decide _); exact Hinv.
  - rewrite accept_food_order_run.
    destruct (food_orders db !! order_id) as [o|]; [|exact Hinv].
    destruct (FoodOrder.driver_id o); exact Hinv.
  - rewrite update_order_status_run.
    destruct (food_orders db !! order_id) as [o|]; [|exact Hinv].
    destruct (decide _); [exact Hinv|].
    destruct (decide _); [|exact Hinv].
    destruct (counter_full _ _); [exact Hinv|].
    cbn [snd]. unfold count_delivery. cbn [driver_profiles set_food_orders].
    destruct (driver_profiles _ !! _); exact Hinv.
  - apply review_restaurant_keeps_unique, Hinv.
  - destruct (create_parcel_delivery_cases parcel_data current_user new_uuid db)
      as [[e ->]|(p & -> & _)]; exact Hinv.
  - rewrite cancel_parcel_run.
    destruct (parcel_deliveries db !! parcel_id); [|exact Hinv].
    destruct (decide _); [exact Hinv|].
    destruct (decide _); exact Hinv.
  - rewrite accept_parcel_run.
    destruct (parcel_deliveries db !! parcel_id) as [p|]; [|exact Hinv].
    destruct (ParcelDelivery.driver_id p); exact Hinv.
  - rewrite update_parcel_status_run.
    destruct (parcel_deliveries db !! parcel_id) as [p|]; [|exact Hinv].
    destruct (decide _); [exact Hinv|].
    destruct (decide _); [exact Hinv|].
    destruct (decide _); [|exact Hinv].
    destruct (counter_full _ _); [exact Hinv|].
    cbn [snd]. unfold count_delivery. cbn [driver_profiles set_parcel_deliveries].
    destruct (driver_profiles _ !! _); exact Hinv.
  - apply review_driver_keeps_unique, Hinv.
Qed.

Lemma serve_all_keeps_unique rs :
  forall db, at_most_one_review db -> at_most_one_review (serve_all rs db).
Proof.
  unfold serve_all.
  induction rs as [|r rs IH]; intros db Hinv; cbn [fold_left].
  - exact Hinv.
  - apply IH, serve_keeps_unique, Hinv.
Qed.

(** C9: review_restaurant creates a review only for the customer of the
    order, only on a delivered order, and only when the customer has no
    restaurant review for that order yet; whatever HTTP error it raises, it
    writes nothing; a well-formed review request of the customer for a
    delivered order the customer has reviewed raises 400 "Order already
    reviewed" (AlreadyReviewed) and writes nothing, in particular right
    after the review was created. review_driver does the same for the
    sender of a delivered parcel with "Delivery already reviewed", and
    creates a review only when the parcel has a driver. Any sequence of
    requests keeps the reviews table at one review at most per (job,
    reviewer, target type). *)
Theorem review_once_by_requester_when_delivered (k u : UUID) (db : DB) :
  (forall d n r db',
     review_restaurant k d u n db = (Ok r, db') ->
     exists o,
       food_orders db !! k = Some o /\ FoodOrder.customer_id o = u /\
       FoodOrder.status o = OrderStatus.DELIVERED /\
       List.filter (review_of k u TargetType.RESTAURANT) (reviews db) = [] /\
       reviews db' = reviews db ++ [r] /\
       review_of k u TargetType.RESTAURANT r = true) /\
  (forall d n e db',
     review_restaurant k d u n db = (Raise e, db') ->
     e <> AttributeError -> db' = db) /\
  (forall d n o r0,
     food_orders db !! k = Some o -> FoodOrder.customer_id o = u ->
     FoodOrder.status o = OrderStatus.DELIVERED ->
     ReviewCreate.valid d = true ->
     In r0 (reviews db) -> review_of k u TargetType.RESTAURANT r0 = true ->
     review_restaurant k d u n db =
     (Raise (HTTPException 400 (Literal "Order already reviewed")), db)) /\
  (forall d n r db',
     review_restaurant k d u n db = (Ok r, db') ->
     forall d2 n2, ReviewCreate.valid d2 = true ->
       review_restaurant k d2 u n2 db' =
       (Raise (HTTPException 400 (Literal "Order already reviewed")), db')) /\
  (forall d n r db',
     review_driver k d u n db = (Ok r, db') ->
     exists p driver,
       parcel_deliveries db !! k = Some p /\ ParcelDelivery.sender_id p = u /\
       ParcelDelivery.status p = ParcelStatus.DELIVERED /\
       ParcelDelivery.driver_id p = Some driver /\
       List.filter (review_of k u TargetType.DRIVER) (reviews db) = [] /\
       reviews db' = reviews db ++ [r] /\
       review_of k u TargetType.DRIVER r = true) /\
  (forall d n e db', review_driver k d u n db = (Raise e, db') -> db' = db) /\
  (forall d n p driver r0,
     parcel_deliveries db !! k = Some p -> ParcelDelivery.sender_id p = u ->
     ParcelDelivery.status p = ParcelStatus.DELIVERED ->
     ParcelDelivery.driver_id p = Some driver ->
     ReviewCreate.valid d = true ->
     In r0 (reviews db) -> review_of k u TargetType.DRIVER r0 = true ->
     review_driver k d u n db =
     (Raise (HTTPException 400 (Literal "Delivery already reviewed")), db)) /\
  (forall d n r db',
     review_driver k d u n db = (Ok r, db') ->
     forall d2 n2, ReviewCreate.valid d2 = true ->
       review_driver k d2 u n2 db' =
       (Raise (HTTPException 400 (Literal "Delivery already reviewed")), db')) /\
  (forall rs, at_most_one_review db -> at_most_one_review (serve_all rs db)).
Proof.
  repeat match goal with |- _ /\ _ => split end.
  - exact (review_restaurant_ok k u db).
  - exact (review_restaurant_raise k u db).
  - intros d n o r0. exact (review_restaurant_again k u db d n o r0).
  - intros d n r db' Hrun d2 n2.
    exact (review_restaurant_twice k u db d n r db' d2 n2 Hrun).
  - exact (review_driver_ok k u db).
  - exact (review_driver_raise k u db).
  - intros d n p driver r0. exact (review_driver_again k u db d n p driver r0).
  - intros d n r db' Hrun d2 n2.
    exact (review_driver_twice k u db d n r db' d2 n2 Hrun).
  - intros rs. exact (serve_all_keeps_unique rs db).
Qed.

End ReviewInvariant.

(** ** Rating aggregation *)

Lemma sum_ratings_perm rs rs' :
  Permutation rs rs' -> sum_ratings rs' = sum_ratings rs.
Proof.
  unfold sum_ratings.
  induction 1 as [|r l l' _ IH|r r' l|l l' l'' _ IH1 _ IH2]; cbn in *; lia.
Qed.

Lemma avg_rating_perm rs rs' : Permutation rs rs' -> avg_rating rs' = avg_rating rs.
Proof.
  intros Hp. unfold avg_rating.
  rewrite (sum_ratings_perm rs rs' Hp), (Permutation_length Hp). reflexivity.
Qed.

(** C6, as the code has it: after review_restaurant has created a review,
    the rating_average of the reviewed restaurant is sum(rating) / count
    over all its restaurant reviews, the new one included, as the binary64
    quotient and not rounded to one decimal place; after review_driver the
    same holds for the rating_average of the driver's profile when the
    driver has one; and the quotient does not depend on the order of the
    reviews. *)
Theorem rating_average_is_full_mean :
  (forall k d u n db r db',
     review_restaurant k d u n db = (Ok r, db') ->
     let rs :=
       List.filter (review_targets TargetType.RESTAURANT (Review.target_id r))
         (reviews db') in
     exists restaurant,
       restaurants db' !! Review.target_id r = Some restaurant /\
       Restaurant.rating_average restaurant =
         py_truediv (sum_ratings rs) (Z.of_nat (length rs))) /\
  (forall k d u n db r db' profile,
     review_driver k d u n db = (Ok r, db') ->
     driver_profiles db' !! Review.target_id r = Some profile ->
     let rs :=
       List.filter (review_targets TargetType.DRIVER (Review.target_id r))
         (reviews db') in
     DriverProfile.rating_average profile =
       py_truediv (sum_ratings rs) (Z.of_nat (length rs))) /\
  (forall rs rs', Permutation rs rs' -> avg_rating rs' = avg_rating rs).
Proof.
  split; [|split; [|exact avg_rating_perm]].
  - intros k d u n db r db'. rewrite review_restaurant_run.
    destruct (ReviewCreate.valid d); [|discriminate].
    destruct (food_orders db !! k) as [o|]; [|discriminate].
    destruct (decide _); [discriminate|].
    destruct (decide _); [discriminate|].
    destruct (List.filter (review_of _ _ _) _); [|discriminate].
    destruct (List.filter (fun r => bool_decide _) _); [|discriminate].
    cbv zeta. simpl (reviews _).
    destruct (List.filter (review_targets _ _) _) as [|r0 rs] eqn:Hrs.
    + rewrite List.filter_app in Hrs. cbn [List.filter] in Hrs.
      rewrite (proj2 (review_targets_true _ _ _)) in Hrs by (cbn; auto).
      destruct (List.filter _ (reviews db)); discriminate.
    + destruct (restaurants db !! _) as [restaurant|]; [|discriminate].
      intros [= <- <-]. cbn [Review.target_id]. simpl (reviews _).
      simpl (restaurants _). rewrite Hrs, lookup_insert_eq.
      eexists. split; reflexivity.
  - intros k d u n db r db' profile. rewrite review_driver_run.
    destruct (ReviewCreate.valid d); [|discriminate].
    destruct (parcel_deliveries db !! k) as [p|]; [|discriminate].
    destruct (decide _); [discriminate|].
    destruct (decide _); [discriminate|].
    destruct (ParcelDelivery.driver_id p) as [driver|]; [|discriminate].
    destruct (List.filter (review_of _ _ _) _); [|discriminate].
    destruct (List.filter (fun r => bool_decide _) _); [|discriminate].
    cbv zeta. simpl (reviews _).
    destruct (List.filter (review_targets _ _) _) as [|r0 rs] eqn:Hrs.
    + rewrite List.filter_app in Hrs. cbn [List.filter] in Hrs.
      rewrite (proj2 (review_targets_true _ _ _)) in Hrs by (cbn; auto).
      destruct (List.filter _ (reviews db)); discriminate.
    + destruct (driver_profiles db !! driver) as [dp|] eqn:Hdp;
        intros [= <- <-]; cbn [Review.target_id]; simpl (reviews _);
        simpl (driver_profiles _); rewrite Hrs.
      * rewrite lookup_insert_eq. intros [= <-]. reflexivity.
      * rewrite Hdp. discriminate.
Qed.

Lemma rating_average_is_full_mean_witness :
  exists restaurant,
    restaurants
      (snd (review_restaurant 3 (ReviewCreate.mk 4 None) 10 103 reviewed_db))
      !! 1%N = Some restaurant /\
    Restaurant.rating_average restaurant = py_truediv 14 3.
Proof.
  apply (proj1 rating_average_is_full_mean 3%N (ReviewCreate.mk 4 None) 10%N
           103%N reviewed_db
           (Review.mk 103 10 TargetType.RESTAURANT 1 (Some 3%N) 4 None)).
  vm_compute. reflexivity.
Defined.

(** C6 as stated fails: with ratings 5, 5 and 4 the stored average is the
    float 14 / 3 = 4.666666666666667, and round(mean, 1) is 4.7. *)
Lemma rating_average_not_rounded :
  Restaurant.rating_average <$>
    (restaurants
       (snd (review_restaurant 3 (ReviewCreate.mk 4 None) 10 103 reviewed_db))
       !! 1%N) = Some (py_truediv 14 3) /\
  spec_round_mean_1 [5; 5; 4] = py_truediv 47 10 /\
  PrimFloat.eqb (py_truediv 14 3) (spec_round_mean_1 [5; 5; 4]) = false.
Proof. repeat split; vm_compute; reflexivity. Qed.

(** ** The parcel fee *)



(** *** The order of decimals under the rounding of the context *)















Section ParcelFee.
Context `{PythonRuntime}.

Lemma Decimal_of_float_finite x :
  PrimFloat.is_nan x = false -> PrimFloat.is_infinity x = false ->
  Decimal_of_float x = PyDecimal.Finite (Decimal_of_str x).
Proof. intros Hnan Hinf. unfold Decimal_of_float. rewrite Hnan, Hinf. reflexivity. Qed.

(** The fee of a finite distance is a finite decimal: the three operations,
    each rounded to 28 digits. *)
Lemma calculate_delivery_fee_finite distance_km parcel_size :
  PrimFloat.is_nan distance_km = false ->
  PrimFloat.is_infinity distance_km = false ->
  calculate_delivery_fee distance_km parcel_size =
    PyDecimal.Finite
      (round_context
         (dec_mul
            (round_context
               (dec_add (mkDecimal 50 1)
                  (round_context
                     (dec_mul (Decimal_of_str distance_km) (mkDecimal 20 1)))))
            (size_multiplier parcel_size))).
Proof.
  intros Hnan Hinf. unfold calculate_delivery_fee.
  rewrite Decimal_of_float_finite by assumption. reflexivity.
Qed.

(** The fee of a NaN is a NaN, the fee of an infinite distance an infinity
    of the same sign. *)
Lemma calculate_delivery_fee_nan distance_km parcel_size :
  PrimFloat.is_nan distance_km = true ->
  calculate_delivery_fee distance_km parcel_size = PyDecimal.NaN.
Proof.
  intros Hnan. unfold calculate_delivery_fee, Decimal_of_float.
  rewrite Hnan. reflexivity.
Qed.





End ParcelFee.



(** ** The default distance of a parcel *)

Lemma absent_or_zero_falsy c : absent_or_zero c <-> truthy c = false.
Proof.
  unfold absent_or_zero, truthy. split.
  - intros [->|(f & -> & Hf)]; [reflexivity|]. rewrite Hf. reflexivity.
  - destruct c as [f|]; [|auto]. intros Hf. right. exists f.
    split; [reflexivity|]. destruct (PrimFloat.eqb f 0); [reflexivity|discriminate].
Qed.

Section DefaultDistance.
Context `{PythonRuntime}.

(** C10: when one of the four coordinates of the request is None or equal
    to 0.0 (a point on the equator or on the prime meridian included), and
    the generated id is free, create_parcel_delivery stores the parcel with
    estimated_distance_km = 5.0 and with the fee of 5.0 km: with
    str(5.0) = "5.0" that is 15.00, 22.50 or 30.00 by size. The haversine
    distance is not computed. *)
Theorem zero_coordinate_is_absent parcel_data u k db :
  absent_or_zero (ParcelDeliveryCreate.pickup_latitude parcel_data) \/
  absent_or_zero (ParcelDeliveryCreate.pickup_longitude parcel_data) \/
  absent_or_zero (ParcelDeliveryCreate.delivery_latitude parcel_data) \/
  absent_or_zero (ParcelDeliveryCreate.delivery_longitude parcel_data) ->
  parcel_deliveries db !! k = None ->
  Decimal_of_str 5%float = mkDecimal 50 1 ->
  exists p,
    create_parcel_delivery parcel_data u k db =
      (Ok p, set_parcel_deliveries (<[k := p]> (parcel_deliveries db)) db) /\
    ParcelDelivery.estimated_distance_km p = Some 5%float /\
    fst (numeric_column
           (calculate_delivery_fee 5%float
              (ParcelDeliveryCreate.parcel_size parcel_data)) db)
      = Ok (ParcelDelivery.delivery_fee p) /\
    ParcelDelivery.delivery_fee p =
      Numeric.Cents
        match ParcelDeliveryCreate.parcel_size parcel_data with
        | ParcelSize.SMALL => 1500
        | ParcelSize.MEDIUM => 2250
        | ParcelSize.LARGE => 3000
        end.
Proof.
  intros Hzero Hk Hstr.
  assert (Hall :
    forallb truthy
      [ParcelDeliveryCreate.pickup_latitude parcel_data;
       ParcelDeliveryCreate.pickup_longitude parcel_data;
       ParcelDeliveryCreate.delivery_latitude parcel_data;
       ParcelDeliveryCreate.delivery_longitude parcel_data] = false).
  { cbn [forallb]. rewrite !absent_or_zero_falsy in Hzero.
    destruct Hzero as [-> |[-> |[-> | ->]]];
      rewrite ?andb_false_r; reflexivity. }
  unfold create_parcel_delivery. rewrite Hall.
  unfold bind at 1, ret at 1.
  rewrite calculate_delivery_fee_finite by reflexivity. rewrite Hstr.
  rewrite bind_read_only by apply read_only_numeric_column.
  assert (Hfee :
    fst (numeric_column
           (PyDecimal.Finite
              (round_context
                 (dec_mul
                    (round_context
                       (dec_add (mkDecimal 50 1)
                          (round_context
                             (dec_mul (mkDecimal 50 1) (mkDecimal 20 1)))))
                    (size_multiplier
                       (ParcelDeliveryCreate.parcel_size parcel_data)))))
           db)
    = Ok (Numeric.Cents
            match ParcelDeliveryCreate.parcel_size parcel_data with
            | ParcelSize.SMALL => 1500
            | ParcelSize.MEDIUM => 2250
            | ParcelSize.LARGE => 3000
            end)).
  { destruct (ParcelDeliveryCreate.parcel_size parcel_data); reflexivity. }
  rewrite Hfee.
  rewrite bind_read_only by apply read_only_query_first.
  unfold query_first. cbn [fst]. rewrite Hk. run_handler.
  eexists. split; [reflexivity|]. cbn. auto.
Qed.

End DefaultDistance.

Lemma zero_coordinate_is_absent_witness :
  exists p,
    @create_parcel_delivery table_runtime equator_parcel 10 1 empty_db =
      (Ok p, set_parcel_deliveries {[1%N := p]} empty_db) /\
    ParcelDelivery.estimated_distance_km p = Some 5%float /\
    ParcelDelivery.delivery_fee p = 2250.
Proof.
  destruct (@zero_coordinate_is_absent table_runtime equator_parcel 10%N 1%N
              empty_db) as (p & Hrun & Hd & _ & Hfee).
  - left. right. exists 0%float. split; reflexivity.
  - reflexivity.
  - reflexivity.
  - exists p. rewrite Hrun. split; [|auto].
    change (parcel_deliveries empty_db) with (∅ : gmap N ParcelDelivery.t).
    rewrite insert_empty. reflexivity.
Defined.

(** ** Validation of the items of a food order *)

Lemma price_items_rejects items :
  forall subtotal acc db,
    Exists (unavailable db) items ->
    exists item,
      item ∈ items /\ unavailable db item /\
      fst (price_items items subtotal acc db) =
        Raise (HTTPException 400
                 (MenuItemNotAvailable (OrderItemCreate.menu_item_id item))).
Proof.
  induction items as [|item rest IH]; intros subtotal acc db Hex.
  - inversion Hex.
  - cbn [price_items].
    rewrite bind_read_only by apply read_only_query_first.
    unfold query_first. cbn [fst].
    destruct (menu_items db !! OrderItemCreate.menu_item_id item)
      as [menu_item|] eqn:Hm.
    + destruct (MenuItem.is_available menu_item) eqn:Ha; cbn [negb].
      * apply Exists_cons in Hex. destruct Hex as [Hbad|Hex].
        { unfold unavailable in Hbad. rewrite Hm in Hbad. congruence. }
        destruct (IH (dec_add subtotal
                        (dec_mul_int (as_decimal (MenuItem.price menu_item))
                           (OrderItemCreate.quantity item)))
                    (acc ++
                     [mk_item_data (OrderItemCreate.menu_item_id item)
                        (OrderItemCreate.quantity item)
                        (as_decimal (MenuItem.price menu_item))
                        (dec_mul_int (as_decimal (MenuItem.price menu_item))
                           (OrderItemCreate.quantity item))
                        (OrderItemCreate.special_instructions item)])
                    db Hex) as (bad & Hin & Hbad & Hrun).
        exists bad. split; [right; exact Hin|]. split; [exact Hbad|exact Hrun].
      * exists item. split; [left|]. split; [|reflexivity].
        unfold unavailable. rewrite Hm. exact Ha.
    + exists item. split; [left|]. split; [|reflexivity].
      unfold unavailable. rewrite Hm. exact I.
Qed.

(** The part of C5 the code has: an order with an item that does not exist
    or is not available is refused with 400 "Menu item ... not available",
    and nothing is written. *)
Lemma create_food_order_rejects_unavailable order_data u k db restaurant :
  restaurants db !! FoodOrderCreate.restaurant_id order_data = Some restaurant ->
  Restaurant.is_active restaurant = true ->
  Exists (unavailable db) (FoodOrderCreate.items order_data) ->
  exists item,
    item ∈ FoodOrderCreate.items order_data /\ unavailable db item /\
    create_food_order order_data u k db =
      (Raise (HTTPException 400
                (MenuItemNotAvailable (OrderItemCreate.menu_item_id item))), db).
Proof.
  intros Hr Ha Hex.
  destruct (price_items_rejects _ (mkDecimal 0 1) [] db Hex)
    as (item & Hin & Hbad & Hrun).
  exists item. split; [exact Hin|]. split; [exact Hbad|].
  unfold create_food_order.
  rewrite bind_read_only by apply read_only_query_first.
  unfold query_first at 1. cbn [fst]. rewrite Hr, Ha. cbn [negb].
  rewrite bind_read_only by apply read_only_price_items.
  rewrite Hrun. reflexivity.
Qed.

(** C5 (the code departs from the claim): create_food_order checks that
    each menu item exists and is available, and nothing else. An order at
    restaurant 1 for item 9 of restaurant 2 with quantity -1 is created,
    with subtotal -10.00 and total -6.81; an order with quantity 0 is
    created, with subtotal 0.00; an order for the unavailable item 6 is
    refused. OrderItemCreate.quantity carries no bound, where
    ReviewCreate.rating has Field(ge=1, le=5). *)
Theorem foreign_item_and_bad_quantity_accepted :
  fst (create_food_order
         (order_at_1 [OrderItemCreate.mk 9 (-1) None]) 10 1 menu_db)
    = Ok (priced_order (-1000) (-80) (-681)) /\
  fst (create_food_order
         (order_at_1 [OrderItemCreate.mk 7 0 None]) 10 1 menu_db)
    = Ok (priced_order 0 0 399) /\
  create_food_order (order_at_1 [OrderItemCreate.mk 6 1 None]) 10 1 menu_db
    = (Raise (HTTPException 400 (MenuItemNotAvailable 6)), menu_db).
Proof. split; [|split]; vm_compute; reflexivity. Qed.

(** ** The statements on the sample data *)

(** The order of the specification's scenario: 10.00 x 2 and 5.50 x 1 with
    a delivery fee of 3.99. *)
Lemma food_order_tax_and_total_witness :
  exists restaurant,
    restaurants menu_db !! 1%N = Some restaurant /\
    FoodOrder.delivery_fee (priced_order 2550 204 3153)
      = Restaurant.delivery_fee restaurant /\
    FoodOrder.subtotal (priced_order 2550 204 3153) = 2550 /\
    FoodOrder.tax (priced_order 2550 204 3153) =
      py_round_2 (dec_mul (as_decimal 2550) (mkDecimal 8 2)) /\
    FoodOrder.total_amount (priced_order 2550 204 3153) =
      2550 + Restaurant.delivery_fee restaurant + 204 /\
    FoodOrder.total_amount (priced_order 2550 204 3153) = 2550 + 399 + 204.
Proof.
  apply (food_order_tax_and_total
           (order_at_1 [OrderItemCreate.mk 7 2 None; OrderItemCreate.mk 8 1 None])
           10%N 1%N menu_db (priced_order 2550 204 3153)
           (snd (create_food_order
                   (order_at_1 [OrderItemCreate.mk 7 2 None;
                                OrderItemCreate.mk 8 1 None])
                   10 1 menu_db))).
  vm_compute. reflexivity.
Defined.

(** Driver 20 keeps order 1 through a second claim, a cancellation attempt
    and the delivery. *)
Lemma driver_set_at_most_once_witness :
  exists o',
    food_orders
      (@serve_all table_runtime
         [ClaimFoodOrder 1 30; CancelFoodOrder 1 10;
          UpdateFoodOrderStatus 1 OrderStatus.DELIVERED 20 100;
          ClaimFoodOrder 1 30]
         picked_up_db) !! 1%N = Some o' /\
    FoodOrder.driver_id o' = Some 20%N.
Proof.
  apply (proj1 (proj2 (proj2 (proj2 (@driver_set_at_most_once table_runtime))))
           _ picked_up_db 1%N
           (sample_order OrderStatus.PICKED_UP (Some 20%N)) 20%N);
    reflexivity.
Defined.

(** Customer 10 reviews the delivered order 3 and tries again. *)
Lemma review_once_by_requester_when_delivered_witness :
  let db' :=
    snd (review_restaurant 3 (ReviewCreate.mk 4 None) 10 103 reviewed_db) in
  review_restaurant 3 (ReviewCreate.mk 5 None) 10 104 db' =
  (Raise (HTTPException 400 (Literal "Order already reviewed")), db').
Proof.
  cbv zeta.
  apply (proj1 (proj2 (proj2 (proj2
                  (@review_once_by_requester_when_delivered table_runtime
                     3%N 10%N reviewed_db))))
           (ReviewCreate.mk 4 None) 103%N
           (Review.mk 103 10 TargetType.RESTAURANT 1 (Some 3%N) 4 None)).
  - vm_compute. reflexivity.
  - reflexivity.
Defined.

(** * The ten operations as a transition system *)

(** ** The rows the two creating handlers insert *)

Lemma create_food_order_row order_data u k db o db' :
  create_food_order order_data u k db = (Ok o, db') ->
  o = FoodOrder.mk u (FoodOrderCreate.restaurant_id order_data) None
        OrderStatus.PENDING (FoodOrderCreate.delivery_address order_data)
        (FoodOrderCreate.delivery_latitude order_data)
        (FoodOrderCreate.delivery_longitude order_data)
        (FoodOrder.subtotal o) (FoodOrder.delivery_fee o) (FoodOrder.tax o)
        (FoodOrder.total_amount o)
        (FoodOrderCreate.special_instructions order_data) None None.
Proof.
  unfold create_food_order.
  rewrite bind_read_only by apply read_only_query_first.
  unfold query_first at 1. cbn [fst].
  destruct (restaurants db !! _) as [restaurant|]; [|discriminate].
  destruct (Restaurant.is_active restaurant); [|discriminate].
  cbn [negb].
  rewrite bind_read_only by apply read_only_price_items.
  destruct (fst (price_items _ _ _ db)) as [[subtotal its]|]; [|discriminate].
  cbn [fst snd].
  do 4 (rewrite bind_read_only by apply read_only_numeric_10_2;
        match goal with
        | |- context [fst (numeric_10_2 ?d db)] =>
            destruct (fst (numeric_10_2 d db)); [|discriminate]
        end).
  rewrite bind_read_only by apply read_only_query_first.
  unfold query_first at 1. cbn [fst].
  destruct (food_orders db !! k); [discriminate|].
  rewrite bind_read_only by apply read_only_order_item_rows.
  destruct (fst (order_item_rows _ _ db)); [|discriminate].
  run_handler. intros [= <- _]. reflexivity.
Qed.

Lemma create_food_order_new_order order_data u k db o db' :
  create_food_order order_data u k db = (Ok o, db') -> new_order o.
Proof.
  intros Hrun. rewrite (create_food_order_row _ _ _ _ _ _ Hrun).
  repeat split.
Qed.

Section TransitionSystem.
Context `{PythonRuntime}.

Lemma create_parcel_delivery_row parcel_data u k db p db' :
  create_parcel_delivery parcel_data u k db = (Ok p, db') ->
  parcel_deliveries db !! k = None /\
  db' = set_parcel_deliveries (<[k := p]> (parcel_deliveries db)) db /\
  p = ParcelDelivery.mk u None
        (ParcelDeliveryCreate.recipient_name parcel_data)
        (ParcelDeliveryCreate.recipient_phone parcel_data)
        (ParcelDeliveryCreate.pickup_address parcel_data)
        (ParcelDeliveryCreate.pickup_latitude parcel_data)
        (ParcelDeliveryCreate.pickup_longitude parcel_data)
        (ParcelDeliveryCreate.delivery_address parcel_data)
        (ParcelDeliveryCreate.delivery_latitude parcel_data)
        (ParcelDeliveryCreate.delivery_longitude parcel_data)
        (ParcelDeliveryCreate.parcel_description parcel_data)
        (ParcelDeliveryCreate.parcel_size parcel_data)
        (ParcelDeliveryCreate.weight_kg parcel_data)
        ParcelStatus.PENDING (ParcelDelivery.delivery_fee p)
        (ParcelDelivery.estimated_distance_km p) None None.
Proof.
  unfold create_parcel_delivery.
  rewrite bind_read_only by apply read_only_distance_choice.
  match goal with
  | |- context [fst (?h db)] => destruct (fst (h db)) as [distance_km|]
  end; [|discriminate].
  rewrite bind_read_only by apply read_only_numeric_column.
  destruct (fst (numeric_column _ db)) as [fee|]; [|discriminate].
  rewrite bind_read_only by apply read_only_query_first.
  unfold query_first. cbn [fst].
  destruct (parcel_deliveries db !! k) eqn:Hk; [discriminate|].
  run_handler. intros [= <- <-]. auto.
Qed.

Lemma create_parcel_delivery_raise parcel_data u k db e db' :
  create_parcel_delivery parcel_data u k db = (Raise e, db') -> db' = db.
Proof.
  destruct (create_parcel_delivery_cases parcel_data u k db)
    as [[e' ->]|(p & -> & _)]; [|discriminate].
  intros [= _ <-]. reflexivity.
Qed.

Lemma count_delivery_run u db :
  counter_full u db = false ->
  snd (bump_total_deliveries u db) = count_delivery u db.
Proof. intros Hroom. rewrite bump_total_deliveries_run, Hroom. reflexivity. Qed.

Lemma valid_rating_range d :
  ReviewCreate.valid d = true -> 1 <= ReviewCreate.rating d <= 5.
Proof. unfold ReviewCreate.valid. intros Hv. lia. Qed.

(** Every request is one step. *)
Lemma serve_step r db : step db (serve r db).
Proof.
  destruct r; cbn [serve].
  - destruct (create_food_order order_data current_user new_uuid db)
      as [[o|e] db'] eqn:Hrun; cbn [snd].
    + pose proof (create_food_order_new_order _ _ _ _ _ _ Hrun) as Hnew.
      apply create_food_order_ok in Hrun.
      destruct Hrun as (? & ? & ? & rows & Hrun).
      destruct Hrun as (_&_&_&_&_&_&_&_&_&_&_& Hk & _ & ->).
      apply step_create_order; assumption.
    + apply create_food_order_raise in Hrun. subst db'. constructor.
  - rewrite cancel_order_run.
    destruct (food_orders db !! order_id) as [o|] eqn:Hk; [|constructor].
    destruct (decide _); [constructor|].
    destruct (decide _) as [Hs|]; [|constructor].
    cbn [snd]. eapply step_order; [exact Hk|]. constructor. exact Hs.
  - rewrite accept_food_order_run.
    destruct (food_orders db !! order_id) as [o|] eqn:Hk; [|constructor].
    destruct (FoodOrder.driver_id o) eqn:Hd; [constructor|].
    cbn [snd]. eapply step_order; [exact Hk|]. constructor. exact Hd.
  - rewrite update_order_status_run.
    destruct (food_orders db !! order_id) as [o|] eqn:Hk; [|constructor].
    destruct (decide _) as [|Hd]; [constructor|]. apply dec_stable in Hd.
    destruct (decide _) as [->|Hs].
    + destruct (counter_full _ _); [constructor|]. cbn [snd].
      eapply step_order_delivered; eassumption.
    + cbn [snd]. eapply step_order; [exact Hk|]. econstructor; eassumption.
  - rewrite review_restaurant_run.
    destruct (ReviewCreate.valid review_data) eqn:Hv; [|constructor].
    destruct (food_orders db !! order_id) as [o|] eqn:Hk; [|constructor].
    destruct (decide _) as [|Hu]; [constructor|].
    destruct (decide _) as [|Hs]; [constructor|].
    apply dec_stable in Hu, Hs.
    destruct (List.filter (review_of _ _ _) _) eqn:Hnone; [|constructor].
    destruct (List.filter (fun r => bool_decide _) _) eqn:Hfresh; [|constructor].
    cbv zeta.
    match goal with
    | |- context [set_reviews (reviews db ++ [?r]) db] =>
        assert (Hstep : step db
                  (store_restaurant_rating (FoodOrder.restaurant_id o)
                     (set_reviews (reviews db ++ [r]) db)))
    end.
    { eapply step_review_restaurant; try eassumption; try reflexivity.
      - cbn. congruence.
      - repeat split; cbn; try assumption; apply valid_rating_range, Hv. }
    unfold store_restaurant_rating in Hstep. simpl (reviews _) in *.
    simpl (restaurants _) in Hstep.
    destruct (List.filter (review_targets _ _) _) eqn:Hrs.
    + exfalso. rewrite List.filter_app in Hrs. cbn [List.filter] in Hrs.
      rewrite (proj2 (review_targets_true _ _ _)) in Hrs by (cbn; auto).
      destruct (List.filter (review_targets _ _) (reviews db)); discriminate.
    + destruct (restaurants db !! _); exact Hstep.
  - destruct (create_parcel_delivery parcel_data current_user new_uuid db)
      as [[p|e] db'] eqn:Hrun; cbn [snd].
    + apply create_parcel_delivery_row in Hrun.
      destruct Hrun as (Hk & -> & Hp).
      apply step_create_parcel; [exact Hk|]. rewrite Hp. repeat split.
    + apply create_parcel_delivery_raise in Hrun. subst db'. constructor.
  - rewrite cancel_parcel_run.
    destruct (parcel_deliveries db !! parcel_id) as [p|] eqn:Hk; [|constructor].
    destruct (decide _); [constructor|].
    destruct (decide _) as [Hs|]; [|constructor].
    cbn [snd]. eapply step_parcel; [exact Hk|]. constructor. exact Hs.
  - rewrite accept_parcel_run.
    destruct (parcel_deliveries db !! parcel_id) as [p|] eqn:Hk; [|constructor].
    destruct (ParcelDelivery.driver_id p) eqn:Hd; [constructor|].
    cbn [snd]. eapply step_parcel; [exact Hk|]. constructor. exact Hd.
  - rewrite update_parcel_status_run.
    destruct (parcel_deliveries db !! parcel_id) as [p|] eqn:Hk; [|constructor].
    destruct (decide _) as [|Hd]; [constructor|]. apply dec_stable in Hd.
    destruct (decide _) as [->|Hs1].
    + cbn [snd]. eapply step_parcel; [exact Hk|]. econstructor; eassumption.
    + destruct (decide _) as [->|Hs2].
      * destruct (counter_full _ _); [constructor|]. cbn [snd].
        eapply step_parcel_delivered; eassumption.
      * cbn [snd]. eapply step_parcel; [exact Hk|]. econstructor; eassumption.
  - rewrite review_driver_run.
    destruct (ReviewCreate.valid review_data) eqn:Hv; [|constructor].
    destruct (parcel_deliveries db !! parcel_id) as [p|] eqn:Hk; [|constructor].
    destruct (decide _) as [|Hu]; [constructor|].
    destruct (decide _) as [|Hs]; [constructor|].
    apply dec_stable in Hu, Hs.
    destruct (ParcelDelivery.driver_id p) as [driver|] eqn:Hd; [|constructor].
    destruct (List.filter (review_of _ _ _) _) eqn:Hnone; [|constructor].
    destruct (List.filter (fun r => bool_decide _) _) eqn:Hfresh; [|constructor].
    cbv zeta.
    match goal with
    | |- context [set_reviews (reviews db ++ [?r]) db] =>
        assert (Hstep : step db
                  (store_driver_rating driver
                     (set_reviews (reviews db ++ [r]) db)))
    end.
    { eapply step_review_driver; try eassumption; try reflexivity.
      - cbn. congruence.
      - repeat split; cbn; try assumption; apply valid_rating_range, Hv. }
    unfold store_driver_rating in Hstep. simpl (reviews _) in *.
    simpl (driver_profiles _) in Hstep.
    destruct (List.filter (review_targets _ _) _) eqn:Hrs.
    + exfalso. rewrite List.filter_app in Hrs. cbn [List.filter] in Hrs.
      rewrite (proj2 (review_targets_true _ _ _)) in Hrs by (cbn; auto).
      destruct (List.filter (review_targets _ _) (reviews db)); discriminate.
    + destruct (driver_profiles db !! _); exact Hstep.
Qed.

Lemma serve_all_steps rs : forall db, rtc step db (serve_all rs db).
Proof.
  unfold serve_all.
  induction rs as [|r rs IH]; intros db; cbn [fold_left].
  - constructor.
  - eapply rtc_l; [apply serve_step|apply IH].
Qed.

(** A property every step keeps holds after any sequence of requests. *)
Lemma serve_all_invariant (P : DB -> Prop) :
  (forall db db', step db db' -> P db -> P db') ->
  forall rs db, P db -> P (serve_all rs db).
Proof.
  intros Hstep rs db. induction (serve_all_steps rs db); eauto.
Qed.

End TransitionSystem.

(** ** Invariants of the rows of the job tables *)

Lemma food_orders_count_delivery u db :
  food_orders (count_delivery u db) = food_orders db.
Proof. unfold count_delivery. destruct (driver_profiles db !! u); reflexivity. Qed.

Lemma parcel_deliveries_count_delivery u db :
  parcel_deliveries (count_delivery u db) = parcel_deliveries db.
Proof. unfold count_delivery. destruct (driver_profiles db !! u); reflexivity. Qed.

Lemma food_orders_store_restaurant_rating k db :
  food_orders (store_restaurant_rating k db) = food_orders db.
Proof.
  unfold store_restaurant_rating. destruct (restaurants db !! k); reflexivity.
Qed.

Lemma parcel_deliveries_store_restaurant_rating k db :
  parcel_deliveries (store_restaurant_rating k db) = parcel_deliveries db.
Proof.
  unfold store_restaurant_rating. destruct (restaurants db !! k); reflexivity.
Qed.

Lemma food_orders_store_driver_rating u db :
  food_orders (store_driver_rating u db) = food_orders db.
Proof.
  unfold store_driver_rating. destruct (driver_profiles db !! u); reflexivity.
Qed.

Lemma parcel_deliveries_store_driver_rating u db :
  parcel_deliveries (store_driver_rating u db) = parcel_deliveries db.
Proof.
  unfold store_driver_rating. destruct (driver_profiles db !! u); reflexivity.
Qed.

(** Brings the job tables of the database after a step to those before. *)
Ltac job_tables :=
  rewrite ?food_orders_count_delivery, ?parcel_deliveries_count_delivery,
    ?food_orders_store_restaurant_rating,
    ?parcel_deliveries_store_restaurant_rating,
    ?food_orders_store_driver_rating, ?parcel_deliveries_store_driver_rating;
  cbn [food_orders parcel_deliveries set_food_orders set_parcel_deliveries
       set_order_items set_reviews].

(** A property of orders that new rows have and the writes of the handlers
    keep holds of every order after a step. *)
Lemma step_all_orders (P : FoodOrder.t -> Prop) db db' :
  (forall o, new_order o -> P o) ->
  (forall o o', order_move o o' -> P o -> P o') ->
  (forall o u now,
     FoodOrder.driver_id o = Some u -> P o ->
     P (FoodOrder.set_delivered_at (Some now)
          (FoodOrder.set_status OrderStatus.DELIVERED o))) ->
  step db db' -> all_orders P db -> all_orders P db'.
Proof.
  intros Hnew Hmove Hdelivered Hstep Hall k' o'.
  destruct Hstep; job_tables; try apply Hall.
  - destruct (decide (k = k')) as [<-|Hne].
    + rewrite lookup_insert_eq. intros [= <-]. auto.
    + rewrite lookup_insert_ne by exact Hne. apply Hall.
  - destruct (decide (k = k')) as [<-|Hne].
    + rewrite lookup_insert_eq. intros [= <-]. eauto.
    + rewrite lookup_insert_ne by exact Hne. apply Hall.
  - destruct (decide (k = k')) as [<-|Hne].
    + rewrite lookup_insert_eq. intros [= <-]. eauto.
    + rewrite lookup_insert_ne by exact Hne. apply Hall.
Qed.

Lemma step_all_parcels (P : ParcelDelivery.t -> Prop) db db' :
  (forall p, new_parcel p -> P p) ->
  (forall p p', parcel_move p p' -> P p -> P p') ->
  (forall p u now,
     ParcelDelivery.driver_id p = Some u -> P p ->
     P (ParcelDelivery.set_delivered_at (Some now)
          (ParcelDelivery.set_status ParcelStatus.DELIVERED p))) ->
  step db db' -> all_parcels P db -> all_parcels P db'.
Proof.
  intros Hnew Hmove Hdelivered Hstep Hall k' p'.
  destruct Hstep; job_tables; try apply Hall.
  - destruct (decide (k = k')) as [<-|Hne].
    + rewrite lookup_insert_eq. intros [= <-]. auto.
    + rewrite lookup_insert_ne by exact Hne. apply Hall.
  - destruct (decide (k = k')) as [<-|Hne].
    + rewrite lookup_insert_eq. intros [= <-]. eauto.
    + rewrite lookup_insert_ne by exact Hne. apply Hall.
  - destruct (decide (k = k')) as [<-|Hne].
    + rewrite lookup_insert_eq. intros [= <-]. eauto.
    + rewrite lookup_insert_ne by exact Hne. apply Hall.
Qed.

Lemma step_unclaimed_is_pending db db' :
  step db db' ->
  all_orders unclaimed_is_pending db -> all_orders unclaimed_is_pending db'.
Proof.
  apply step_all_orders; unfold unclaimed_is_pending.
  - intros o (_ & Hs & _) _. auto.
  - intros o o' Hmove Ho. destruct Hmove as [Hs|u Hd|u s Hd Hs]; cbn.
    + auto.
    + intros Hnone. destruct (claimed_order_status u o) as [Hu _]. congruence.
    + congruence.
  - intros o u now Hd _. cbn. congruence.
Qed.

Lemma step_order_stamped db db' :
  step db db' -> all_orders order_stamped db -> all_orders order_stamped db'.
Proof.
  apply step_all_orders; unfold order_stamped.
  - intros o (_ & Hs & _). congruence.
  - intros o o' Hmove Ho. destruct Hmove as [Hs|u Hd|u s Hd Hs]; cbn.
    + discriminate.
    + unfold claimed_order. cbn.
      destruct (decide _) as [Hc|Hc]; cbn; [discriminate|exact Ho].
    + congruence.
  - intros o u now _ _ _. cbn. discriminate.
Qed.

Lemma step_parcel_stamped db db' :
  step db db' -> all_parcels parcel_stamped db -> all_parcels parcel_stamped db'.
Proof.
  apply step_all_parcels; unfold parcel_stamped.
  - intros p (_ & Hs & _). split; congruence.
  - intros p p' Hmove [Hp Hdel].
    destruct Hmove as [Hs|u Hd|u now Hd|u s Hd Hs1 Hs2]; cbn;
      split; try discriminate; try congruence.
  - intros p u now _ _. cbn. split; discriminate.
Qed.

(** ** Listings *)

#[global] Instance earlier_trans {A} created_at : Transitive (@earlier A created_at).
Proof. intros x y z. unfold earlier. lia. Qed.
#[global] Instance earlier_total {A} created_at : Total (@earlier A created_at).
Proof. intros x y. unfold earlier. lia. Qed.
#[global] Instance later_trans {A} created_at : Transitive (@later A created_at).
Proof. intros x y z. unfold later. lia. Qed.
#[global] Instance later_total {A} created_at : Total (@later A created_at).
Proof. intros x y. unfold later. lia. Qed.

Lemma filter_sublist {A} (P : A -> bool) (l : list A) :
  List.filter P l `sublist_of` l.
Proof.
  induction l as [|x l IH]; cbn; [constructor|].
  destruct (P x); constructor; exact IH.
Qed.

Lemma elem_of_filter_bool {A} (P : A -> bool) (l : list A) (x : A) :
  x ∈ List.filter P l <-> x ∈ l /\ P x = true.
Proof. rewrite !list_elem_of_In. apply filter_In. Qed.

Lemma StronglySorted_sublist {A} (R : relation A) (l1 l2 : list A) :
  l1 `sublist_of` l2 -> StronglySorted R l2 -> StronglySorted R l1.
Proof.
  induction 1 as [|x l1 l2 Hsub IH|x l1 l2 Hsub IH]; intros Hs.
  - constructor.
  - inversion Hs as [|? ? Hs' Hall]; subst. constructor; [auto|].
    rewrite Forall_forall in *. intros y Hy. apply Hall.
    eapply elem_of_sublist; eauto.
  - inversion Hs; subst. auto.
Qed.

(** The three steps of a listing: validated page parameters, the filtered
    rows of a table in the order of [R], and the page cut out of them. *)
Lemma listing_run {A} (table : DB -> gmap UUID A) (P : UUID * A -> bool)
    (R : relation (UUID * A)) `{!RelDecision R} skip limit db :
  (exec validate_page skip limit;
   do rows <- query_all table P;
   offset_limit skip limit (merge_sort R rows)) db =
  (if (0 <=? skip) && (limit <=? 100) then
     if limit <? 0 then Raise DataError
     else Ok (take (Z.to_nat limit)
                (drop (Z.to_nat skip)
                   (merge_sort R (List.filter P (map_to_list (table db))))))
   else Raise (HTTPException HTTP_422_UNPROCESSABLE_ENTITY
                 (Literal "skip must be at least 0, limit at most 100")),
   db).
Proof.
  unfold bind, validate_page, query_all, offset_limit, ret, raise.
  destruct ((0 <=? skip) && (limit <=? 100)); [|reflexivity].
  destruct (limit <? 0); reflexivity.
Qed.

Lemma listing_ok {A} (table : DB -> gmap UUID A) (P : UUID * A -> bool)
    (R : relation (UUID * A)) `{!RelDecision R, !Transitive R, !Total R}
    skip limit db rows :
  fst ((exec validate_page skip limit;
        do rows <- query_all table P;
        offset_limit skip limit (merge_sort R rows)) db) = Ok rows ->
  (0 <= skip /\ 0 <= limit <= 100) /\
  (length rows <= Z.to_nat limit)%nat /\
  NoDup rows.*1 /\
  StronglySorted R rows /\
  (forall k a, (k, a) ∈ rows -> table db !! k = Some a /\ P (k, a) = true).
Proof.
  rewrite listing_run. cbn [fst].
  destruct ((0 <=? skip) && (limit <=? 100)) eqn:Hpage; [|discriminate].
  destruct (limit <? 0) eqn:Hneg; [discriminate|]. intros [= <-].
  set (sorted := merge_sort R (List.filter P (map_to_list (table db)))).
  assert (Hsub : take (Z.to_nat limit) (drop (Z.to_nat skip) sorted)
                   `sublist_of` sorted).
  { etrans; [apply sublist_take|apply sublist_drop]. }
  split; [lia|]. split; [apply firstn_le_length|]. split; [|split].
  - eapply sublist_NoDup; [|apply fmap_sublist, Hsub].
    unfold sorted. rewrite merge_sort_Permutation.
    eapply sublist_NoDup; [|apply fmap_sublist, filter_sublist].
    apply NoDup_fst_map_to_list.
  - eapply StronglySorted_sublist; [exact Hsub|].
    apply StronglySorted_merge_sort; assumption.
  - intros k a Hin. eapply elem_of_sublist in Hin; [|exact Hsub].
    unfold sorted in Hin. rewrite merge_sort_Permutation in Hin.
    apply elem_of_filter_bool in Hin as [Hin HP].
    apply elem_of_map_to_list in Hin. auto.
Qed.

(** Every row that passes the filter is on some page, whatever the page
    size from 1 to 100. *)
Lemma listing_complete {A} (table : DB -> gmap UUID A) (P : UUID * A -> bool)
    (R : relation (UUID * A)) `{!RelDecision R} limit db k a :
  table db !! k = Some a -> P (k, a) = true -> 0 < limit <= 100 ->
  exists skip rows,
    0 <= skip /\
    fst ((exec validate_page skip limit;
          do rows <- query_all table P;
          offset_limit skip limit (merge_sort R rows)) db) = Ok rows /\
    (k, a) ∈ rows.
Proof.
  intros Hk HP Hlimit.
  assert (Hin : (k, a) ∈ merge_sort R (List.filter P (map_to_list (table db)))).
  { rewrite merge_sort_Permutation. apply elem_of_filter_bool.
    split; [apply elem_of_map_to_list, Hk|exact HP]. }
  apply list_elem_of_lookup in Hin as [i Hi].
  exists (Z.of_nat i). eexists. split; [lia|]. rewrite listing_run. cbn [fst].
  rewrite (proj2 (Z.leb_le 0 (Z.of_nat i))), (proj2 (Z.leb_le limit 100)),
    (proj2 (Z.ltb_ge limit 0)) by lia. cbn [andb].
  split; [reflexivity|]. apply elem_of_take. exists 0%nat.
  rewrite lookup_drop, Nat2Z.id, Nat.add_0_r. split; [exact Hi|lia].
Qed.

Lemma available_order_true k o :
  available_order (k, o) = true <->
  FoodOrder.driver_id o = None /\
  (FoodOrder.status o = OrderStatus.CONFIRMED \/
   FoodOrder.status o = OrderStatus.READY).
Proof.
  unfold available_order. cbn [snd].
  rewrite andb_true_iff, !bool_decide_eq_true, !elem_of_cons, elem_of_nil.
  tauto.
Qed.

Lemma available_parcel_true k p :
  available_parcel (k, p) = true <->
  ParcelDelivery.driver_id p = None /\
  ParcelDelivery.status p = ParcelStatus.PENDING.
Proof.
  unfold available_parcel. cbn [snd].
  rewrite andb_true_iff, !bool_decide_eq_true. tauto.
Qed.

Lemma current_order_true u k o :
  current_order u (k, o) = true <->
  FoodOrder.driver_id o = Some u /\
  (FoodOrder.status o = OrderStatus.PREPARING \/
   FoodOrder.status o = OrderStatus.READY \/
   FoodOrder.status o = OrderStatus.PICKED_UP).
Proof.
  unfold current_order. cbn [snd].
  rewrite andb_true_iff, !bool_decide_eq_true, !elem_of_cons, elem_of_nil.
  tauto.
Qed.

Lemma current_parcel_true u k p :
  current_parcel u (k, p) = true <->
  ParcelDelivery.driver_id p = Some u /\
  (ParcelDelivery.status p = ParcelStatus.ASSIGNED \/
   ParcelDelivery.status p = ParcelStatus.PICKED_UP \/
   ParcelDelivery.status p = ParcelStatus.IN_TRANSIT).
Proof.
  unfold current_parcel. cbn [snd].
  rewrite andb_true_iff, !bool_decide_eq_true, !elem_of_cons, elem_of_nil.
  tauto.
Qed.

Lemma get_current_deliveries_run u db :
  get_current_deliveries u db =
  (Ok (List.filter (current_order u) (map_to_list (food_orders db)),
       List.filter (current_parcel u) (map_to_list (parcel_deliveries db))),
   db).
Proof. reflexivity. Qed.

Lemma query_all_elem_of {A} (table : gmap UUID A) (P : UUID * A -> bool) k a :
  (k, a) ∈ List.filter P (map_to_list table) <->
  table !! k = Some a /\ P (k, a) = true.
Proof. rewrite elem_of_filter_bool, elem_of_map_to_list. reflexivity. Qed.

Lemma filter_none {A} (P : A -> bool) (l : list A) :
  (forall x, x ∈ l -> P x = false) -> List.filter P l = [].
Proof.
  induction l as [|x l IH]; intros Hall; [reflexivity|]. cbn.
  rewrite (Hall x) by apply list_elem_of_here.
  apply IH. intros y Hy. apply Hall, list_elem_of_further, Hy.
Qed.

(** An order that is not in the table after the filter is on no page. *)
Lemma listing_misses {A} (table : DB -> gmap UUID A) (P : UUID * A -> bool)
    (R : relation (UUID * A)) `{!RelDecision R, !Transitive R, !Total R}
    skip limit db rows k a :
  table db !! k = Some a -> P (k, a) = false ->
  fst ((exec validate_page skip limit;
        do rows <- query_all table P;
        offset_limit skip limit (merge_sort R rows)) db) = Ok rows ->
  k ∉ rows.*1.
Proof.
  intros Hk HP Hrun Hin.
  apply listing_ok in Hrun as (_ & _ & _ & _ & Hrows); [|assumption..].
  apply list_elem_of_fmap in Hin as ([k' a'] & -> & Hin).
  apply Hrows in Hin as [Hk' HP']. cbn [fst] in Hk, HP.
  rewrite Hk in Hk'. injection Hk' as <-. congruence.
Qed.

(** The rows of a page of the offer. *)
Lemma offer_of_orders_sound created_at skip limit db rows :
  fst (get_available_food_orders created_at skip limit db) = Ok rows ->
  (length rows <= Z.to_nat limit)%nat /\
  NoDup rows.*1 /\
  StronglySorted (earlier created_at) rows /\
  forall k o, (k, o) ∈ rows ->
    food_orders db !! k = Some o /\
    FoodOrder.driver_id o = None /\
    (FoodOrder.status o = OrderStatus.CONFIRMED \/
     FoodOrder.status o = OrderStatus.READY).
Proof.
  intros Hrun.
  apply listing_ok in Hrun as (_ & Hlen & Hnodup & Hsorted & Hrows);
    [|apply _..].
  repeat (split; [assumption|]). intros k o Hin.
  apply Hrows in Hin as [Hk Hav]. apply available_order_true in Hav.
  tauto.
Qed.

Lemma offer_of_parcels_sound created_at skip limit db rows :
  fst (get_available_parcels created_at skip limit db) = Ok rows ->
  (length rows <= Z.to_nat limit)%nat /\
  NoDup rows.*1 /\
  StronglySorted (earlier created_at) rows /\
  forall k p, (k, p) ∈ rows ->
    parcel_deliveries db !! k = Some p /\
    ParcelDelivery.driver_id p = None /\
    ParcelDelivery.status p = ParcelStatus.PENDING.
Proof.
  intros Hrun.
  apply listing_ok in Hrun as (_ & Hlen & Hnodup & Hsorted & Hrows);
    [|apply _..].
  repeat (split; [assumption|]). intros k p Hin.
  apply Hrows in Hin as [Hk Hav]. apply available_parcel_true in Hav.
  tauto.
Qed.

Lemma get_order_details_run k user db :
  get_order_details k user db =
  match food_orders db !! k with
  | None => (Raise (HTTPException 404 (Literal "Order not found")), db)
  | Some o =>
      if decide (FoodOrder.customer_id o = User.id user \/
                 User.role user = UserRole.DRIVER \/
                 User.role user = UserRole.ADMIN)
      then (Ok o, db)
      else (Raise (HTTPException 403
                     (Literal "Not authorized to view this order")), db)
  end.
Proof.
  unfold get_order_details, bind, query_first, ret, raise.
  destruct (food_orders db !! k) as [o|]; [|reflexivity].
  destruct (decide _) as [Hyes|Hno].
  - replace (bool_decide (FoodOrder.customer_id o <> User.id user) &&
             negb (bool_decide (User.role user
                                  ∈ [UserRole.DRIVER; UserRole.ADMIN])))
      with false; [reflexivity|].
    symmetry. apply andb_false_iff.
    rewrite bool_decide_eq_false, negb_false_iff, bool_decide_eq_true,
      !elem_of_cons, elem_of_nil.
    destruct (decide (FoodOrder.customer_id o = User.id user)); tauto.
  - replace (bool_decide (FoodOrder.customer_id o <> User.id user) &&
             negb (bool_decide (User.role user
                                  ∈ [UserRole.DRIVER; UserRole.ADMIN])))
      with true; [reflexivity|].
    symmetry. apply andb_true_iff.
    rewrite bool_decide_eq_true, negb_true_iff, bool_decide_eq_false,
      !elem_of_cons, elem_of_nil. tauto.
Qed.

Lemma get_parcel_details_run k user db :
  get_parcel_details k user db =
  match parcel_deliveries db !! k with
  | None =>
      (Raise (HTTPException 404 (Literal "Parcel delivery not found")), db)
  | Some p =>
      if decide (ParcelDelivery.sender_id p = User.id user \/
                 User.role user = UserRole.DRIVER \/
                 User.role user = UserRole.ADMIN)
      then (Ok p, db)
      else (Raise (HTTPException 403
                     (Literal "Not authorized to view this parcel")), db)
  end.
Proof.
  unfold get_parcel_details, bind, query_first, ret, raise.
  destruct (parcel_deliveries db !! k) as [p|]; [|reflexivity].
  destruct (decide _) as [Hyes|Hno].
  - replace (bool_decide (ParcelDelivery.sender_id p <> User.id user) &&
             negb (bool_decide (User.role user
                                  ∈ [UserRole.DRIVER; UserRole.ADMIN])))
      with false; [reflexivity|].
    symmetry. apply andb_false_iff.
    rewrite bool_decide_eq_false, negb_false_iff, bool_decide_eq_true,
      !elem_of_cons, elem_of_nil.
    destruct (decide (ParcelDelivery.sender_id p = User.id user)); tauto.
  - replace (bool_decide (ParcelDelivery.sender_id p <> User.id user) &&
             negb (bool_decide (User.role user
                                  ∈ [UserRole.DRIVER; UserRole.ADMIN])))
      with true; [reflexivity|].
    symmetry. apply andb_true_iff.
    rewrite bool_decide_eq_true, negb_true_iff, bool_decide_eq_false,
      !elem_of_cons, elem_of_nil. tauto.
Qed.

(** * Further properties of the routers *)

(** ** The listings of [drivers.py] *)

(** X2 (drivers.py, get_available_food_orders).  A page of the orders on
    offer has at most [limit] rows, shows no order twice, is in the order
    of creation, and shows only orders of the table that have no driver
    and are confirmed or ready.  Conversely, every such order is on some
    page, whatever the page size from 1 to 100. *)
Theorem available_orders_listing created_at db :
  (forall skip limit rows,
     fst (get_available_food_orders created_at skip limit db) = Ok rows ->
     (length rows <= Z.to_nat limit)%nat /\
     NoDup rows.*1 /\
     StronglySorted (earlier created_at) rows /\
     forall k o, (k, o) ∈ rows ->
       food_orders db !! k = Some o /\
       FoodOrder.driver_id o = None /\
       (FoodOrder.status o = OrderStatus.CONFIRMED \/
        FoodOrder.status o = OrderStatus.READY)) /\
  (forall k o limit,
     food_orders db !! k = Some o ->
     FoodOrder.driver_id o = None ->
     FoodOrder.status o = OrderStatus.CONFIRMED \/
     FoodOrder.status o = OrderStatus.READY ->
     0 < limit <= 100 ->
     exists skip rows,
       0 <= skip /\
       fst (get_available_food_orders created_at skip limit db) = Ok rows /\
       (k, o) ∈ rows).
Proof.
  split.
  - intros skip limit rows. apply offer_of_orders_sound.
  - intros k o limit Hk Hd Hs Hlimit.
    apply (listing_complete food_orders available_order (earlier created_at)
             limit db k o Hk); [|exact Hlimit].
    apply available_order_true. auto.
Qed.

Lemma available_orders_listing_witness :
  exists skip rows,
    0 <= skip /\
    fst (get_available_food_orders by_key skip 50 listing_db) = Ok rows /\
    (2%N, sample_order OrderStatus.READY None) ∈ rows.
Proof.
  apply (proj2 (available_orders_listing by_key listing_db) 2%N
           (sample_order OrderStatus.READY None) 50);
    [reflexivity|reflexivity|right; reflexivity|lia].
Defined.

(** X3 (drivers.py, get_available_parcels).  A page of the parcels on
    offer has at most [limit] rows, shows no parcel twice, is in the order
    of creation, and shows only parcels of the table that have no driver
    and are pending; every such parcel is on some page. *)
Theorem available_parcels_listing created_at db :
  (forall skip limit rows,
     fst (get_available_parcels created_at skip limit db) = Ok rows ->
     (length rows <= Z.to_nat limit)%nat /\
     NoDup rows.*1 /\
     StronglySorted (earlier created_at) rows /\
     forall k p, (k, p) ∈ rows ->
       parcel_deliveries db !! k = Some p /\
       ParcelDelivery.driver_id p = None /\
       ParcelDelivery.status p = ParcelStatus.PENDING) /\
  (forall k p limit,
     parcel_deliveries db !! k = Some p ->
     ParcelDelivery.driver_id p = None ->
     ParcelDelivery.status p = ParcelStatus.PENDING ->
     0 < limit <= 100 ->
     exists skip rows,
       0 <= skip /\
       fst (get_available_parcels created_at skip limit db) = Ok rows /\
       (k, p) ∈ rows).
Proof.
  split.
  - intros skip limit rows. apply offer_of_parcels_sound.
  - intros k p limit Hk Hd Hs Hlimit.
    apply (listing_complete parcel_deliveries available_parcel
             (earlier created_at) limit db k p Hk); [|exact Hlimit].
    apply available_parcel_true. auto.
Qed.

Lemma available_parcels_listing_witness :
  exists skip rows,
    0 <= skip /\
    fst (get_available_parcels by_key skip 1 listing_db) = Ok rows /\
    (5%N, sample_parcel ParcelStatus.PENDING None) ∈ rows.
Proof.
  apply (proj2 (available_parcels_listing by_key listing_db) 5%N
           (sample_parcel ParcelStatus.PENDING None) 1);
    [reflexivity|reflexivity|reflexivity|lia].
Defined.

Section NeverOnOffer.
Context `{PythonRuntime}.

(** X1 (drivers.py, get_available_food_orders; the writers of
    [FoodOrder.status]).  In a database where every order without a driver
    is pending or cancelled, as the orders that [create_food_order] inserts
    are, the ten operations keep it so: no operation confirms an order or
    marks it ready before a driver has claimed it.  The list of orders on
    offer to the drivers is therefore empty after any sequence of
    requests, for every page that the validation and the database accept
    (an offset from 0 and below 2 ^ 63, a limit from 0 to 100). *)
Theorem unclaimed_orders_never_on_offer rs db created_at skip limit :
  all_orders unclaimed_is_pending db ->
  0 <= skip < 2 ^ 63 -> 0 <= limit <= 100 ->
  all_orders unclaimed_is_pending (serve_all rs db) /\
  get_available_food_orders created_at skip limit (serve_all rs db) =
  (Ok [], serve_all rs db).
Proof.
  intros Hdb Hskip Hlimit.
  assert (Hinv : all_orders unclaimed_is_pending (serve_all rs db)).
  { revert Hdb. apply serve_all_invariant.
    intros d d' Hstep. apply step_unclaimed_is_pending, Hstep. }
  split; [exact Hinv|].
  unfold get_available_food_orders. rewrite listing_run.
  rewrite (proj2 (Z.leb_le 0 skip)), (proj2 (Z.leb_le limit 100)),
    (proj2 (Z.ltb_ge limit 0)) by lia. cbn [andb].
  rewrite filter_none.
  - cbn. rewrite drop_nil, take_nil. reflexivity.
  - intros [k o] Hin. apply elem_of_map_to_list in Hin.
    apply Hinv in Hin. apply not_true_is_false. intros Hav.
    apply available_order_true in Hav as [Hd Hs].
    destruct (Hin Hd) as [Hp|Hc]; destruct Hs; congruence.
Qed.

End NeverOnOffer.

Lemma unclaimed_orders_never_on_offer_witness :
  let rs := [CreateFoodOrder
               (order_at_1 [OrderItemCreate.mk 7 2 None]) 10 1;
             CreateFoodOrder
               (order_at_1 [OrderItemCreate.mk 8 1 None]) 11 2;
             CancelFoodOrder 2 11] in
  food_orders (@serve_all table_runtime rs menu_db) !! 1%N =
    Some (priced_order 2000 160 2559) /\
  all_orders unclaimed_is_pending (@serve_all table_runtime rs menu_db) /\
  get_available_food_orders by_key 0 50 (@serve_all table_runtime rs menu_db) =
  (Ok [], @serve_all table_runtime rs menu_db).
Proof.
  cbv zeta. split; [vm_compute; reflexivity|].
  apply (@unclaimed_orders_never_on_offer table_runtime); [|lia|lia].
  intros k o Hk. cbn in Hk. rewrite lookup_empty in Hk. discriminate.
Defined.

(** ** From the offer to the current deliveries *)

(** X4 (drivers.py, get_available_food_orders, accept_food_order,
    get_current_deliveries).  An order shown on a page of the offer can be
    claimed by any driver: the claim succeeds, the order is then preparing
    or ready with that driver, it is among the driver's current
    deliveries, it is on no page of the offer any more, and a further
    claim is refused. *)
Theorem listed_order_can_be_claimed created_at skip limit db rows k o u :
  fst (get_available_food_orders created_at skip limit db) = Ok rows ->
  (k, o) ∈ rows ->
  exists db' o',
    accept_food_order k u db = (Ok "Order accepted successfully"%string, db') /\
    food_orders db' !! k = Some o' /\
    FoodOrder.driver_id o' = Some u /\
    (FoodOrder.status o' = OrderStatus.PREPARING \/
     FoodOrder.status o' = OrderStatus.READY) /\
    (exists orders parcels,
       get_current_deliveries u db' = (Ok (orders, parcels), db') /\
       (k, o') ∈ orders) /\
    (forall created_at' skip' limit' rows',
       fst (get_available_food_orders created_at' skip' limit' db') = Ok rows' ->
       k ∉ rows'.*1) /\
    (forall v,
       accept_food_order k v db' =
       (Raise (HTTPException 400
                 (Literal "Order already assigned to a driver")), db')).
Proof.
  intros Hrun Hin.
  apply offer_of_orders_sound in Hrun as (_ & _ & _ & Hrows).
  apply Hrows in Hin as (Hk & Hd & Hs).
  destruct (claimed_order_status u o) as (Hu & Hconfirmed & Hother).
  assert (Hs' : FoodOrder.status (claimed_order u o) = OrderStatus.PREPARING \/
                FoodOrder.status (claimed_order u o) = OrderStatus.READY).
  { destruct Hs as [Hs|Hs]; [left; auto|right].
    rewrite Hother; congruence. }
  eexists. exists (claimed_order u o).
  split; [rewrite accept_food_order_run, Hk, Hd; reflexivity|].
  assert (Hk' : food_orders
                  (set_food_orders (<[k := claimed_order u o]> (food_orders db))
                     db) !! k = Some (claimed_order u o)).
  { cbn. apply lookup_insert_eq. }
  split; [exact Hk'|]. split; [exact Hu|]. split; [exact Hs'|].
  split; [|split].
  - do 2 eexists. split; [apply get_current_deliveries_run|].
    apply query_all_elem_of. split; [exact Hk'|].
    apply current_order_true. tauto.
  - intros created_at' skip' limit' rows'.
    apply (listing_misses food_orders available_order (earlier created_at')
             skip' limit' _ rows' k (claimed_order u o) Hk').
    apply not_true_is_false. intros Hav.
    apply available_order_true in Hav as [Hnone _]. congruence.
  - intros v. rewrite accept_food_order_run, Hk', Hu. reflexivity.
Qed.

Lemma listed_order_can_be_claimed_witness :
  exists db' o',
    accept_food_order 1 30 listing_db =
    (Ok "Order accepted successfully"%string, db') /\
    food_orders db' !! 1%N = Some o' /\
    FoodOrder.driver_id o' = Some 30%N /\
    (FoodOrder.status o' = OrderStatus.PREPARING \/
     FoodOrder.status o' = OrderStatus.READY) /\
    (exists orders parcels,
       get_current_deliveries 30 db' = (Ok (orders, parcels), db') /\
       (1%N, o') ∈ orders) /\
    (forall created_at' skip' limit' rows',
       fst (get_available_food_orders created_at' skip' limit' db') = Ok rows' ->
       1%N ∉ rows'.*1) /\
    (forall v,
       accept_food_order 1 v db' =
       (Raise (HTTPException 400
                 (Literal "Order already assigned to a driver")), db')).
Proof.
  apply (listed_order_can_be_claimed by_key 0 50 listing_db
           [(1%N, sample_order OrderStatus.CONFIRMED None);
            (2%N, sample_order OrderStatus.READY None)]
           1%N (sample_order OrderStatus.CONFIRMED None) 30%N).
  - vm_compute. reflexivity.
  - apply list_elem_of_here.
Defined.

(** X5 (drivers.py, get_available_parcels, accept_parcel,
    get_current_deliveries).  A parcel shown on a page of the offer can be
    claimed by any driver: the claim succeeds, the parcel is then assigned
    to that driver, it is among the driver's current deliveries, it is on
    no page of the offer any more, and a further claim is refused. *)
Theorem listed_parcel_can_be_claimed created_at skip limit db rows k p u :
  fst (get_available_parcels created_at skip limit db) = Ok rows ->
  (k, p) ∈ rows ->
  exists db' p',
    accept_parcel k u db = (Ok "Parcel accepted successfully"%string, db') /\
    parcel_deliveries db' !! k = Some p' /\
    ParcelDelivery.driver_id p' = Some u /\
    ParcelDelivery.status p' = ParcelStatus.ASSIGNED /\
    (exists orders parcels,
       get_current_deliveries u db' = (Ok (orders, parcels), db') /\
       (k, p') ∈ parcels) /\
    (forall created_at' skip' limit' rows',
       fst (get_available_parcels created_at' skip' limit' db') = Ok rows' ->
       k ∉ rows'.*1) /\
    (forall v,
       accept_parcel k v db' =
       (Raise (HTTPException 400
                 (Literal "Parcel already assigned to a driver")), db')).
Proof.
  intros Hrun Hin.
  apply offer_of_parcels_sound in Hrun as (_ & _ & _ & Hrows).
  apply Hrows in Hin as (Hk & Hd & Hs).
  set (p' := ParcelDelivery.set_status ParcelStatus.ASSIGNED
               (ParcelDelivery.set_driver_id (Some u) p)).
  eexists. exists p'.
  split; [rewrite accept_parcel_run, Hk, Hd; reflexivity|].
  assert (Hk' : parcel_deliveries
                  (set_parcel_deliveries (<[k := p']> (parcel_deliveries db))
                     db) !! k = Some p').
  { cbn. apply lookup_insert_eq. }
  split; [exact Hk'|]. split; [reflexivity|]. split; [reflexivity|].
  split; [|split].
  - do 2 eexists. split; [apply get_current_deliveries_run|].
    apply query_all_elem_of. split; [exact Hk'|].
    apply current_parcel_true. auto.
  - intros created_at' skip' limit' rows'.
    apply (listing_misses parcel_deliveries available_parcel
             (earlier created_at') skip' limit' _ rows' k p' Hk').
    reflexivity.
  - intros v. subst p'. rewrite accept_parcel_run, Hk'. reflexivity.
Qed.

Lemma listed_parcel_can_be_claimed_witness :
  exists db' p',
    accept_parcel 5 30 listing_db =
    (Ok "Parcel accepted successfully"%string, db') /\
    parcel_deliveries db' !! 5%N = Some p' /\
    ParcelDelivery.driver_id p' = Some 30%N /\
    ParcelDelivery.status p' = ParcelStatus.ASSIGNED /\
    (exists orders parcels,
       get_current_deliveries 30 db' = (Ok (orders, parcels), db') /\
       (5%N, p') ∈ parcels) /\
    (forall created_at' skip' limit' rows',
       fst (get_available_parcels created_at' skip' limit' db') = Ok rows' ->
       5%N ∉ rows'.*1) /\
    (forall v,
       accept_parcel 5 v db' =
       (Raise (HTTPException 400
                 (Literal "Parcel already assigned to a driver")), db')).
Proof.
  apply (listed_parcel_can_be_claimed by_key 0 50 listing_db
           [(5%N, sample_parcel ParcelStatus.PENDING None)]
           5%N (sample_parcel ParcelStatus.PENDING None) 30%N).
  - vm_compute. reflexivity.
  - apply list_elem_of_here.
Defined.

(** ** Status updates by the driver *)





(** ** The requester's view: listings and details *)

(** X8 (food_orders.py, list_user_orders).  A page of the caller's orders
    has at most [limit] rows, shows no order twice, is ordered from the
    newest to the oldest, and shows only orders of the table whose
    customer is the caller; every order of the caller is on some page. *)
Theorem user_orders_listing created_at u db :
  (forall skip limit rows,
     fst (list_user_orders created_at skip limit u db) = Ok rows ->
     (length rows <= Z.to_nat limit)%nat /\
     NoDup rows.*1 /\
     StronglySorted (later created_at) rows /\
     forall k o, (k, o) ∈ rows ->
       food_orders db !! k = Some o /\ FoodOrder.customer_id o = u) /\
  (forall k o limit,
     food_orders db !! k = Some o -> FoodOrder.customer_id o = u ->
     0 < limit <= 100 ->
     exists skip rows,
       0 <= skip /\
       fst (list_user_orders created_at skip limit u db) = Ok rows /\
       (k, o) ∈ rows).
Proof.
  split.
  - intros skip limit rows Hrun.
    apply listing_ok in Hrun as (_ & Hlen & Hnodup & Hsorted & Hrows);
      [|apply _..].
    repeat (split; [assumption|]). intros k o Hin.
    apply Hrows in Hin as [Hk Hown]. apply bool_decide_eq_true in Hown. auto.
  - intros k o limit Hk Hown Hlimit.
    apply (listing_complete food_orders _ (later created_at) limit db k o Hk);
      [|exact Hlimit].
    apply bool_decide_eq_true. exact Hown.
Qed.

Lemma user_orders_listing_witness :
  exists skip rows,
    0 <= skip /\
    fst (list_user_orders by_key skip 2 10 listing_db) = Ok rows /\
    (3%N, sample_order OrderStatus.PENDING None) ∈ rows.
Proof.
  apply (proj2 (user_orders_listing by_key 10 listing_db) 3%N
           (sample_order OrderStatus.PENDING None) 2);
    [reflexivity|reflexivity|lia].
Defined.

(** X9 (parcels.py, list_user_parcels).  A page of the caller's parcels
    has at most [limit] rows, shows no parcel twice, is ordered from the
    newest to the oldest, and shows only parcels of the table whose sender
    is the caller; every parcel of the caller is on some page. *)
Theorem user_parcels_listing created_at u db :
  (forall skip limit rows,
     fst (list_user_parcels created_at skip limit u db) = Ok rows ->
     (length rows <= Z.to_nat limit)%nat /\
     NoDup rows.*1 /\
     StronglySorted (later created_at) rows /\
     forall k p, (k, p) ∈ rows ->
       parcel_deliveries db !! k = Some p /\ ParcelDelivery.sender_id p = u) /\
  (forall k p limit,
     parcel_deliveries db !! k = Some p -> ParcelDelivery.sender_id p = u ->
     0 < limit <= 100 ->
     exists skip rows,
       0 <= skip /\
       fst (list_user_parcels created_at skip limit u db) = Ok rows /\
       (k, p) ∈ rows).
Proof.
  split.
  - intros skip limit rows Hrun.
    apply listing_ok in Hrun as (_ & Hlen & Hnodup & Hsorted & Hrows);
      [|apply _..].
    repeat (split; [assumption|]). intros k p Hin.
    apply Hrows in Hin as [Hk Hown]. apply bool_decide_eq_true in Hown. auto.
  - intros k p limit Hk Hown Hlimit.
    apply (listing_complete parcel_deliveries _ (later created_at) limit db
             k p Hk); [|exact Hlimit].
    apply bool_decide_eq_true. exact Hown.
Qed.

Lemma user_parcels_listing_witness :
  exists skip rows,
    0 <= skip /\
    fst (list_user_parcels by_key skip 100 10 listing_db) = Ok rows /\
    (6%N, sample_parcel ParcelStatus.ASSIGNED (Some 20%N)) ∈ rows.
Proof.
  apply (proj2 (user_parcels_listing by_key 10 listing_db) 6%N
           (sample_parcel ParcelStatus.ASSIGNED (Some 20%N)) 100);
    [reflexivity|reflexivity|lia].
Defined.

(** X10 (food_orders.py, get_order_details).  The details of an order are
    returned exactly to its customer and to every user whose role is
    driver or admin, assigned to the order or not; a missing order gives
    404, any other caller 403; the database is never written. *)
Theorem order_details_authorization k user db :
  snd (get_order_details k user db) = db /\
  (forall o,
     fst (get_order_details k user db) = Ok o <->
     food_orders db !! k = Some o /\
     (FoodOrder.customer_id o = User.id user \/
      User.role user = UserRole.DRIVER \/ User.role user = UserRole.ADMIN)) /\
  (food_orders db !! k = None ->
   fst (get_order_details k user db) =
   Raise (HTTPException 404 (Literal "Order not found"))) /\
  (forall o,
     food_orders db !! k = Some o ->
     FoodOrder.customer_id o <> User.id user ->
     User.role user = UserRole.CUSTOMER ->
     fst (get_order_details k user db) =
     Raise (HTTPException 403 (Literal "Not authorized to view this order"))).
Proof.
  rewrite get_order_details_run.
  destruct (food_orders db !! k) as [o|] eqn:Hk.
  - destruct (decide _) as [Hyes|Hno]; cbn [fst snd].
    + split; [reflexivity|]. split; [|split; [discriminate|]].
      * intros o'. split; [intros [= <-]; auto|intros [[= <-] _]; reflexivity].
      * intros o' [= <-] Hown Hrole. destruct Hyes as [?|[?|?]]; congruence.
    + split; [reflexivity|]. split; [|split; [discriminate|reflexivity]].
      intros o'. split; [discriminate|intros [[= <-] Hyes]; contradiction].
  - cbn [fst snd]. split; [reflexivity|].
    split; [|split; [reflexivity|discriminate]].
    intros o'. split; [discriminate|intros [? _]; discriminate].
Qed.

(** X11 (parcels.py, get_parcel_details).  The details of a parcel are
    returned exactly to its sender and to every user whose role is driver
    or admin, assigned to the parcel or not; a missing parcel gives 404,
    any other caller 403; the database is never written. *)
Theorem parcel_details_authorization k user db :
  snd (get_parcel_details k user db) = db /\
  (forall p,
     fst (get_parcel_details k user db) = Ok p <->
     parcel_deliveries db !! k = Some p /\
     (ParcelDelivery.sender_id p = User.id user \/
      User.role user = UserRole.DRIVER \/ User.role user = UserRole.ADMIN)) /\
  (parcel_deliveries db !! k = None ->
   fst (get_parcel_details k user db) =
   Raise (HTTPException 404 (Literal "Parcel delivery not found"))) /\
  (forall p,
     parcel_deliveries db !! k = Some p ->
     ParcelDelivery.sender_id p <> User.id user ->
     User.role user = UserRole.CUSTOMER ->
     fst (get_parcel_details k user db) =
     Raise (HTTPException 403 (Literal "Not authorized to view this parcel"))).
Proof.
  rewrite get_parcel_details_run.
  destruct (parcel_deliveries db !! k) as [p|] eqn:Hk.
  - destruct (decide _) as [Hyes|Hno]; cbn [fst snd].
    + split; [reflexivity|]. split; [|split; [discriminate|]].
      * intros p'. split; [intros [= <-]; auto|intros [[= <-] _]; reflexivity].
      * intros p' [= <-] Hown Hrole. destruct Hyes as [?|[?|?]]; congruence.
    + split; [reflexivity|]. split; [|split; [discriminate|reflexivity]].
      intros p'. split; [discriminate|intros [[= <-] Hyes]; contradiction].
  - cbn [fst snd]. split; [reflexivity|].
    split; [|split; [reflexivity|discriminate]].
    intros p'. split; [discriminate|intros [? _]; discriminate].
Qed.

(** ** What the operations leave of the rows *)

#[global] Instance order_progress_preorder : PreOrder order_progress.
Proof.
  split.
  - intros [ ]. reflexivity.
  - intros [ ] [ ] [ ]. unfold order_progress, FoodOrder.set_delivered_at, FoodOrder.set_status,
      FoodOrder.set_driver_id.
    cbn. intros H1 H2. injection H1. injection H2. intros. subst.
    reflexivity.
Qed.

#[global] Instance parcel_progress_preorder : PreOrder parcel_progress.
Proof.
  split.
  - intros [ ]. reflexivity.
  - intros [ ] [ ] [ ]. unfold parcel_progress, ParcelDelivery.set_delivered_at,
      ParcelDelivery.set_picked_up_at, ParcelDelivery.set_status,
      ParcelDelivery.set_driver_id.
    cbn. intros H1 H2. injection H1. injection H2. intros. subst.
    reflexivity.
Qed.

#[global] Instance profile_grows_preorder : PreOrder profile_grows.
Proof.
  split.
  - intros d. split; [reflexivity|lia].
  - intros d1 d2 d3 [Ha1 Ht1] [Ha2 Ht2]. split; [congruence|lia].
Qed.

#[global] Instance restaurant_kept_preorder : PreOrder restaurant_kept.
Proof.
  split.
  - intros [ ]. reflexivity.
  - intros [ ] [ ] [ ]. unfold restaurant_kept, Restaurant.set_rating_average.
    cbn. intros H1 H2. injection H1. injection H2. intros. subst.
    reflexivity.
Qed.

(** A relation on orders that the writes of the handlers respect relates
    every order before a step to the order of that key after it. *)
Lemma step_orders_rel (R : relation FoodOrder.t) `{!Reflexive R} db db' :
  (forall o o', order_move o o' -> R o o') ->
  (forall o u now,
     FoodOrder.driver_id o = Some u ->
     R o (FoodOrder.set_delivered_at (Some now)
            (FoodOrder.set_status OrderStatus.DELIVERED o))) ->
  step db db' ->
  forall k o, food_orders db !! k = Some o ->
    exists o', food_orders db' !! k = Some o' /\ R o o'.
Proof.
  intros Hmove Hdelivered Hstep k' o' Hk'.
  destruct Hstep; job_tables; try (exists o'; split; [exact Hk'|reflexivity]).
  - exists o'. split; [|reflexivity].
    rewrite lookup_insert_ne by congruence. exact Hk'.
  - destruct (decide (k = k')) as [<-|Hne].
    + rewrite lookup_insert_eq. eexists. split; [reflexivity|].
      assert (o = o') as <- by congruence. auto.
    + rewrite lookup_insert_ne by exact Hne. exists o'. split; [exact Hk'|reflexivity].
  - destruct (decide (k = k')) as [<-|Hne].
    + rewrite lookup_insert_eq. eexists. split; [reflexivity|].
      assert (o = o') as <- by congruence. eauto.
    + rewrite lookup_insert_ne by exact Hne. exists o'. split; [exact Hk'|reflexivity].
Qed.

Lemma step_parcels_rel (R : relation ParcelDelivery.t) `{!Reflexive R} db db' :
  (forall p p', parcel_move p p' -> R p p') ->
  (forall p u now,
     ParcelDelivery.driver_id p = Some u ->
     R p (ParcelDelivery.set_delivered_at (Some now)
            (ParcelDelivery.set_status ParcelStatus.DELIVERED p))) ->
  step db db' ->
  forall k p, parcel_deliveries db !! k = Some p ->
    exists p', parcel_deliveries db' !! k = Some p' /\ R p p'.
Proof.
  intros Hmove Hdelivered Hstep k' p' Hk'.
  destruct Hstep; job_tables; try (exists p'; split; [exact Hk'|reflexivity]).
  - exists p'. split; [|reflexivity].
    rewrite lookup_insert_ne by congruence. exact Hk'.
  - destruct (decide (k = k')) as [<-|Hne].
    + rewrite lookup_insert_eq. eexists. split; [reflexivity|].
      assert (p = p') as <- by congruence. auto.
    + rewrite lookup_insert_ne by exact Hne. exists p'. split; [exact Hk'|reflexivity].
  - destruct (decide (k = k')) as [<-|Hne].
    + rewrite lookup_insert_eq. eexists. split; [reflexivity|].
      assert (p = p') as <- by congruence. eauto.
    + rewrite lookup_insert_ne by exact Hne. exists p'. split; [exact Hk'|reflexivity].
Qed.

Lemma step_order_progress db db' :
  step db db' ->
  forall k o, food_orders db !! k = Some o ->
    exists o', food_orders db' !! k = Some o' /\ order_progress o o'.
Proof.
  apply step_orders_rel; [apply _| |].
  - intros o o' Hmove. destruct Hmove; destruct o; try reflexivity.
    unfold order_progress, claimed_order. cbn.
    destruct (decide _); reflexivity.
  - intros [ ] u now _. reflexivity.
Qed.

Lemma step_parcel_progress db db' :
  step db db' ->
  forall k p, parcel_deliveries db !! k = Some p ->
    exists p', parcel_deliveries db' !! k = Some p' /\ parcel_progress p p'.
Proof.
  apply step_parcels_rel; [apply _| |].
  - intros p p' Hmove. destruct Hmove; destruct p; reflexivity.
  - intros [ ] u now _. reflexivity.
Qed.

Section Columns.
Context `{PythonRuntime}.

(** X12 (food_orders.py, create_food_order and cancel_order; drivers.py,
    accept_food_order and update_order_status).  No sequence of the ten
    operations removes an order or changes any of its columns other than
    the driver, the status and the delivery time: the customer, the
    restaurant, the address, the subtotal, the fee, the tax, the total and
    the instructions stay as they were created, and [confirmed_at] is
    never written. *)
Theorem order_columns_fixed rs db k o :
  food_orders db !! k = Some o ->
  exists o',
    food_orders (serve_all rs db) !! k = Some o' /\
    order_progress o o' /\
    FoodOrder.customer_id o' = FoodOrder.customer_id o /\
    FoodOrder.restaurant_id o' = FoodOrder.restaurant_id o /\
    FoodOrder.subtotal o' = FoodOrder.subtotal o /\
    FoodOrder.delivery_fee o' = FoodOrder.delivery_fee o /\
    FoodOrder.tax o' = FoodOrder.tax o /\
    FoodOrder.total_amount o' = FoodOrder.total_amount o /\
    FoodOrder.confirmed_at o' = FoodOrder.confirmed_at o.
Proof.
  intros Hk.
  assert (Hrel : exists o', food_orders (serve_all rs db) !! k = Some o' /\
                            order_progress o o').
  { revert k o Hk. induction (serve_all_steps rs db) as [db0|db0 db1 db2 Hstep _ IH].
    - intros k o Hk. exists o. split; [exact Hk|reflexivity].
    - intros k o Hk.
      destruct (step_order_progress _ _ Hstep k o Hk) as (o1 & Hk1 & H1).
      destruct (IH k o1 Hk1) as (o2 & Hk2 & H2).
      exists o2. split; [exact Hk2|]. etrans; eassumption. }
  destruct Hrel as (o' & Hk' & Hrel). exists o'.
  split; [exact Hk'|]. split; [exact Hrel|].
  unfold order_progress in Hrel. rewrite <- Hrel. cbn. tauto.
Qed.

(** X13 (parcels.py, create_parcel_delivery and cancel_parcel; drivers.py,
    accept_parcel and update_parcel_status).  No sequence of the ten
    operations removes a parcel or changes any of its columns other than
    the driver, the status, the pickup time and the delivery time: the
    sender, the recipient, the addresses, the size, the fee and the
    estimated distance stay as they were created. *)
Theorem parcel_columns_fixed rs db k p :
  parcel_deliveries db !! k = Some p ->
  exists p',
    parcel_deliveries (serve_all rs db) !! k = Some p' /\
    parcel_progress p p' /\
    ParcelDelivery.sender_id p' = ParcelDelivery.sender_id p /\
    ParcelDelivery.parcel_size p' = ParcelDelivery.parcel_size p /\
    ParcelDelivery.delivery_fee p' = ParcelDelivery.delivery_fee p /\
    ParcelDelivery.estimated_distance_km p' =
      ParcelDelivery.estimated_distance_km p.
Proof.
  intros Hk.
  assert (Hrel : exists p', parcel_deliveries (serve_all rs db) !! k = Some p' /\
                            parcel_progress p p').
  { revert k p Hk. induction (serve_all_steps rs db) as [db0|db0 db1 db2 Hstep _ IH].
    - intros k p Hk. exists p. split; [exact Hk|reflexivity].
    - intros k p Hk.
      destruct (step_parcel_progress _ _ Hstep k p Hk) as (p1 & Hk1 & H1).
      destruct (IH k p1 Hk1) as (p2 & Hk2 & H2).
      exists p2. split; [exact Hk2|]. etrans; eassumption. }
  destruct Hrel as (p' & Hk' & Hrel). exists p'.
  split; [exact Hk'|]. split; [exact Hrel|].
  unfold parcel_progress in Hrel. rewrite <- Hrel. cbn. tauto.
Qed.

(** X14 (drivers.py, update_order_status and update_parcel_status; the
    other writers of the status).  If every delivered order has its
    delivery time, every picked-up parcel its pickup time and every
    delivered parcel its delivery time, this is still so after any
    sequence of the ten operations. *)
Theorem delivered_jobs_are_stamped rs db :
  all_orders order_stamped db -> all_parcels parcel_stamped db ->
  all_orders order_stamped (serve_all rs db) /\
  all_parcels parcel_stamped (serve_all rs db).
Proof.
  intros Ho Hp.
  apply (serve_all_invariant
           (fun db => all_orders order_stamped db /\
                      all_parcels parcel_stamped db)); [|auto].
  intros d d' Hstep [Ho' Hp']. split.
  - eapply step_order_stamped; eassumption.
  - eapply step_parcel_stamped; eassumption.
Qed.

End Columns.

(** ** The tables beside the jobs *)

Lemma insert_rel {A} (R : relation A) `{!Reflexive R} (m : gmap UUID A) k a a' :
  m !! k = Some a -> R a a' ->
  (forall j, m !! j = None -> <[k := a']> m !! j = None) /\
  (forall j b, m !! j = Some b ->
     exists b', <[k := a']> m !! j = Some b' /\ R b b').
Proof.
  intros Hk HR. split.
  - intros j Hj. rewrite lookup_insert_ne by congruence. exact Hj.
  - intros j b Hj. destruct (decide (k = j)) as [<-|Hne].
    + rewrite lookup_insert_eq. exists a'. split; [reflexivity|]. congruence.
    + rewrite lookup_insert_ne by exact Hne. exists b. split; [exact Hj|reflexivity].
Qed.

Lemma catalogue_kept_refl db : catalogue_kept db db.
Proof.
  split; [reflexivity|]. split; [auto|]. split; [|split; [auto|]].
  - intros k r Hk. exists r. split; [exact Hk|reflexivity].
  - intros u d Hu. exists d. split; [exact Hu|reflexivity].
Qed.

Lemma catalogue_kept_trans db1 db2 db3 :
  catalogue_kept db1 db2 -> catalogue_kept db2 db3 -> catalogue_kept db1 db3.
Proof.
  intros (Hm1 & Hrn1 & Hrs1 & Hpn1 & Hps1) (Hm2 & Hrn2 & Hrs2 & Hpn2 & Hps2).
  split; [congruence|]. split; [auto|]. split; [|split; [auto|]].
  - intros k r Hk. destruct (Hrs1 k r Hk) as (r1 & Hk1 & H1).
    destruct (Hrs2 k r1 Hk1) as (r2 & Hk2 & H2).
    exists r2. split; [exact Hk2|]. etrans; eassumption.
  - intros u d Hu. destruct (Hps1 u d Hu) as (d1 & Hu1 & H1).
    destruct (Hps2 u d1 Hu1) as (d2 & Hu2 & H2).
    exists d2. split; [exact Hu2|]. etrans; eassumption.
Qed.

Lemma catalogue_kept_count_delivery u db : catalogue_kept db (count_delivery u db).
Proof.
  unfold count_delivery.
  destruct (driver_profiles db !! u) as [d|] eqn:Hu; [|apply catalogue_kept_refl].
  destruct (insert_rel profile_grows (driver_profiles db) u d
              (DriverProfile.set_total_deliveries
                 (DriverProfile.total_deliveries d + 1) d) Hu) as [Hn Hs].
  { split; [reflexivity|]. cbn. lia. }
  split; [reflexivity|]. split; [auto|]. split; [|split; [exact Hn|exact Hs]].
  intros k r Hk. exists r. split; [exact Hk|reflexivity].
Qed.

Lemma catalogue_kept_store_driver_rating u db :
  catalogue_kept db (store_driver_rating u db).
Proof.
  unfold store_driver_rating.
  destruct (driver_profiles db !! u) as [d|] eqn:Hu; [|apply catalogue_kept_refl].
  destruct (insert_rel profile_grows (driver_profiles db) u d
              (DriverProfile.set_rating_average
                 (avg_rating
                    (List.filter (review_targets TargetType.DRIVER u)
                       (reviews db))) d) Hu) as [Hn Hs].
  { split; [reflexivity|]. cbn. lia. }
  split; [reflexivity|]. split; [auto|]. split; [|split; [exact Hn|exact Hs]].
  intros k r Hk. exists r. split; [exact Hk|reflexivity].
Qed.

Lemma catalogue_kept_store_restaurant_rating k db :
  catalogue_kept db (store_restaurant_rating k db).
Proof.
  unfold store_restaurant_rating.
  destruct (restaurants db !! k) as [r|] eqn:Hk; [|apply catalogue_kept_refl].
  destruct (insert_rel restaurant_kept (restaurants db) k r
              (Restaurant.set_rating_average
                 (avg_rating
                    (List.filter (review_targets TargetType.RESTAURANT k)
                       (reviews db))) r) Hk) as [Hn Hs].
  { destruct r. reflexivity. }
  split; [reflexivity|]. split; [exact Hn|]. split; [exact Hs|]. split; [auto|].
  intros u d Hu. exists d. split; [exact Hu|reflexivity].
Qed.

Lemma catalogue_kept_same db db' :
  menu_items db' = menu_items db -> restaurants db' = restaurants db ->
  driver_profiles db' = driver_profiles db -> catalogue_kept db db'.
Proof.
  intros Hm Hr Hp. unfold catalogue_kept. rewrite Hm, Hr, Hp.
  apply catalogue_kept_refl.
Qed.

Lemma step_catalogue_kept db db' : step db db' -> catalogue_kept db db'.
Proof.
  destruct 1;
    try (apply catalogue_kept_same; reflexivity);
    (eapply catalogue_kept_trans;
     [|first [apply catalogue_kept_count_delivery
             |apply catalogue_kept_store_restaurant_rating
             |apply catalogue_kept_store_driver_rating]]);
    apply catalogue_kept_same; reflexivity.
Qed.

Lemma reviews_count_delivery u db : reviews (count_delivery u db) = reviews db.
Proof. unfold count_delivery. destruct (driver_profiles db !! u); reflexivity. Qed.

Lemma reviews_store_restaurant_rating k db :
  reviews (store_restaurant_rating k db) = reviews db.
Proof.
  unfold store_restaurant_rating. destruct (restaurants db !! k); reflexivity.
Qed.

Lemma reviews_store_driver_rating u db :
  reviews (store_driver_rating u db) = reviews db.
Proof.
  unfold store_driver_rating. destruct (driver_profiles db !! u); reflexivity.
Qed.

(** The reviews after a step: those before, with at most one more. *)
Lemma step_reviews db db' :
  step db db' ->
  reviews db' = reviews db \/
  exists k r, new_review db k r /\ reviews db' = reviews db ++ [r].
Proof.
  destruct 1;
    rewrite ?reviews_count_delivery, ?reviews_store_restaurant_rating,
      ?reviews_store_driver_rating; cbn [reviews set_reviews set_food_orders
      set_order_items set_parcel_deliveries]; eauto.
Qed.

Lemma reviews_grow_refl db : reviews_grow db db.
Proof. exists []. split; [symmetry; apply app_nil_r|constructor]. Qed.

Lemma reviews_grow_trans db1 db2 db3 :
  reviews_grow db1 db2 -> reviews_grow db2 db3 -> reviews_grow db1 db3.
Proof.
  intros (a1 & H1 & F1) (a2 & H2 & F2). exists (a1 ++ a2).
  split; [rewrite H2, H1, app_assoc; reflexivity|].
  apply Forall_app. auto.
Qed.

Lemma step_reviews_grow db db' : step db db' -> reviews_grow db db'.
Proof.
  intros Hstep. destruct (step_reviews _ _ Hstep) as [Heq|(k & r & Hnew & Heq)].
  - exists []. split; [rewrite Heq; symmetry; apply app_nil_r|constructor].
  - exists [r]. split; [exact Heq|]. constructor; [|constructor].
    destruct Hnew as (Hr & Hk & _). split; [exact Hr|congruence].
Qed.

Lemma step_review_ids db db' :
  step db db' ->
  NoDup (Review.id <$> reviews db) -> NoDup (Review.id <$> reviews db').
Proof.
  intros Hstep Hids.
  destruct (step_reviews _ _ Hstep) as [Heq|(k & r & Hnew & Heq)];
    rewrite Heq; [exact Hids|].
  rewrite fmap_app. apply NoDup_app. split; [exact Hids|]. split.
  - intros i Hi Hi'. apply list_elem_of_singleton in Hi'. subst i.
    apply list_elem_of_fmap in Hi as (r' & Hid & Hr').
    destruct Hnew as (_ & _ & _ & Hfree).
    assert (Hin : r' ∈ List.filter
                    (fun r' => bool_decide (Review.id r' = Review.id r))
                    (reviews db)).
    { apply elem_of_filter_bool. split; [exact Hr'|].
      apply bool_decide_eq_true. congruence. }
    rewrite Hfree in Hin. apply elem_of_nil in Hin. exact Hin.
  - apply NoDup_singleton.
Qed.

Section Catalogue.
Context `{PythonRuntime}.

(** X15 (the ten operations; drivers.py, bump of [total_deliveries]; the
    two review handlers).  No sequence of the ten operations touches the
    menu, adds or removes a restaurant or a driver profile, or changes
    anything of a restaurant but its average rating; a driver profile
    keeps its availability flag, and its delivery count never goes
    down. *)
Theorem catalogue_and_profiles_kept rs db : catalogue_kept db (serve_all rs db).
Proof.
  induction (serve_all_steps rs db) as [db0|db0 db1 db2 Hstep _ IH].
  - apply catalogue_kept_refl.
  - eapply catalogue_kept_trans; [apply step_catalogue_kept, Hstep|exact IH].
Qed.

(** X16 (food_orders.py, review_restaurant; parcels.py, review_driver).
    The ten operations only append to the reviews: after any sequence of
    requests the reviews are the old ones, unchanged and in their order,
    followed by reviews that belong to a job and carry a rating from 1 to
    5; and if the review ids were distinct they still are. *)
Theorem reviews_append_only rs db :
  reviews_grow db (serve_all rs db) /\
  (NoDup (Review.id <$> reviews db) ->
   NoDup (Review.id <$> reviews (serve_all rs db))).
Proof.
  split.
  - induction (serve_all_steps rs db) as [db0|db0 db1 db2 Hstep _ IH].
    + apply reviews_grow_refl.
    + eapply reviews_grow_trans; [apply step_reviews_grow, Hstep|exact IH].
  - apply (serve_all_invariant (fun db => NoDup (Review.id <$> reviews db))).
    intros d d'. apply step_review_ids.
Qed.

End Catalogue.

(** ** The stored averages follow the reviews *)

Lemma filter_snoc_false {A} (P : A -> bool) (l : list A) (x : A) :
  P x = false -> List.filter P (l ++ [x]) = List.filter P l.
Proof. intros HP. rewrite List.filter_app. cbn. rewrite HP. apply app_nil_r. Qed.

Lemma review_targets_false tt k r :
  Review.target_type r <> tt \/ Review.target_id r <> k ->
  review_targets tt k r = false.
Proof.
  intros Hno. apply not_true_is_false. rewrite review_targets_true. tauto.
Qed.

Lemma ratings_synced_same db db' :
  restaurants db' = restaurants db -> driver_profiles db' = driver_profiles db ->
  reviews db' = reviews db -> ratings_synced db -> ratings_synced db'.
Proof. unfold ratings_synced. intros -> -> ->. auto. Qed.

Lemma ratings_synced_count_delivery u db :
  ratings_synced db -> ratings_synced (count_delivery u db).
Proof.
  intros [Hr Hd]. unfold count_delivery.
  destruct (driver_profiles db !! u) as [d|] eqn:Hu; [|split; assumption].
  split; [exact Hr|]. intros v d'. cbn [driver_profiles set_driver_profiles reviews].
  destruct (decide (u = v)) as [<-|Hne].
  - rewrite lookup_insert_eq. intros [= <-]. cbn. apply Hd, Hu.
  - rewrite lookup_insert_ne by exact Hne. apply Hd.
Qed.

Lemma ratings_synced_review_restaurant k r db :
  Review.target_type r = TargetType.RESTAURANT -> Review.target_id r = k ->
  ratings_synced db ->
  ratings_synced (store_restaurant_rating k (set_reviews (reviews db ++ [r]) db)).
Proof.
  intros Htt Hid [Hr Hd].
  assert (Hother : forall j, j <> k ->
            List.filter (review_targets TargetType.RESTAURANT j)
              (reviews db ++ [r]) =
            List.filter (review_targets TargetType.RESTAURANT j) (reviews db)).
  { intros j Hj. apply filter_snoc_false, review_targets_false.
    right. congruence. }
  assert (Hdrivers : forall u,
            List.filter (review_targets TargetType.DRIVER u)
              (reviews db ++ [r]) =
            List.filter (review_targets TargetType.DRIVER u) (reviews db)).
  { intros u. apply filter_snoc_false, review_targets_false.
    left. congruence. }
  unfold store_restaurant_rating. cbn [restaurants set_reviews reviews].
  destruct (restaurants db !! k) as [r0|] eqn:Hk.
  - split.
    + intros j r1. cbn [restaurants set_restaurants reviews set_reviews].
      destruct (decide (k = j)) as [<-|Hne].
      * rewrite lookup_insert_eq. intros [= <-] _. reflexivity.
      * rewrite lookup_insert_ne by exact Hne. rewrite Hother by congruence.
        apply Hr.
    + intros u d. cbn [driver_profiles set_restaurants reviews set_reviews].
      rewrite Hdrivers. apply Hd.
  - split.
    + intros j r1 Hj. cbn [restaurants set_reviews] in Hj.
      cbn [reviews set_reviews]. rewrite Hother by congruence.
      apply Hr, Hj.
    + intros u d. cbn [driver_profiles reviews set_reviews].
      rewrite Hdrivers. apply Hd.
Qed.

Lemma ratings_synced_review_driver u r db :
  Review.target_type r = TargetType.DRIVER -> Review.target_id r = u ->
  ratings_synced db ->
  ratings_synced (store_driver_rating u (set_reviews (reviews db ++ [r]) db)).
Proof.
  intros Htt Hid [Hr Hd].
  assert (Hother : forall v, v <> u ->
            List.filter (review_targets TargetType.DRIVER v)
              (reviews db ++ [r]) =
            List.filter (review_targets TargetType.DRIVER v) (reviews db)).
  { intros v Hv. apply filter_snoc_false, review_targets_false.
    right. congruence. }
  assert (Hrestaurants : forall k,
            List.filter (review_targets TargetType.RESTAURANT k)
              (reviews db ++ [r]) =
            List.filter (review_targets TargetType.RESTAURANT k) (reviews db)).
  { intros k. apply filter_snoc_false, review_targets_false.
    left. congruence. }
  unfold store_driver_rating. cbn [driver_profiles set_reviews reviews].
  destruct (driver_profiles db !! u) as [d0|] eqn:Hu.
  - split.
    + intros k r1. cbn [restaurants set_driver_profiles reviews set_reviews].
      rewrite Hrestaurants. apply Hr.
    + intros v d. cbn [driver_profiles set_driver_profiles reviews set_reviews].
      destruct (decide (u = v)) as [<-|Hne].
      * rewrite lookup_insert_eq. intros [= <-] _. reflexivity.
      * rewrite lookup_insert_ne by exact Hne. rewrite Hother by congruence.
        apply Hd.
  - split.
    + intros k r1. cbn [restaurants reviews set_reviews].
      rewrite Hrestaurants. apply Hr.
    + intros v d Hv. cbn [driver_profiles set_reviews] in Hv.
      cbn [reviews set_reviews]. rewrite Hother by congruence.
      apply Hd, Hv.
Qed.

Lemma step_ratings_synced db db' :
  step db db' -> ratings_synced db -> ratings_synced db'.
Proof.
  destruct 1; intros Hsync;
    try (revert Hsync; apply ratings_synced_same; reflexivity).
  - apply ratings_synced_count_delivery. revert Hsync.
    apply ratings_synced_same; reflexivity.
  - apply ratings_synced_count_delivery. revert Hsync.
    apply ratings_synced_same; reflexivity.
  - apply ratings_synced_review_restaurant; assumption.
  - apply ratings_synced_review_driver; assumption.
Qed.

(** Checking a property of all jobs on a given database. *)
Lemma all_orders_check (P : FoodOrder.t -> Prop) `{!forall o, Decision (P o)} db :
  forallb (fun row => bool_decide (P (snd row))) (map_to_list (food_orders db))
  = true ->
  all_orders P db.
Proof.
  intros Hall k o Hk. rewrite forallb_forall in Hall.
  apply elem_of_map_to_list, list_elem_of_In in Hk.
  apply Hall in Hk. apply bool_decide_eq_true in Hk. exact Hk.
Qed.

Lemma all_parcels_check (P : ParcelDelivery.t -> Prop)
    `{!forall p, Decision (P p)} db :
  forallb (fun row => bool_decide (P (snd row)))
    (map_to_list (parcel_deliveries db)) = true ->
  all_parcels P db.
Proof.
  intros Hall k p Hk. rewrite forallb_forall in Hall.
  apply elem_of_map_to_list, list_elem_of_In in Hk.
  apply Hall in Hk. apply bool_decide_eq_true in Hk. exact Hk.
Qed.

Section Ratings.
Context `{PythonRuntime}.

(** X17 (food_orders.py, review_restaurant; parcels.py, review_driver;
    drivers.py, the delivered counter).  If the stored average of every
    restaurant and of every driver that has reviews is the average of
    these reviews, this is still so after any sequence of the ten
    operations: each review recomputes the average of its target from
    all the reviews of the target, and nothing else writes an average or
    a review. *)
Theorem stored_ratings_follow_reviews rs db :
  ratings_synced db -> ratings_synced (serve_all rs db).
Proof.
  apply (serve_all_invariant ratings_synced).
  intros d d'. apply step_ratings_synced.
Qed.

End Ratings.

Lemma order_columns_fixed_witness :
  let rs := [ClaimFoodOrder 1 30;
             UpdateFoodOrderStatus 1 OrderStatus.DELIVERED 30 7;
             CancelFoodOrder 3 10] in
  exists o',
    food_orders (@serve_all table_runtime rs listing_db) !! 1%N = Some o' /\
    order_progress (sample_order OrderStatus.CONFIRMED None) o' /\
    FoodOrder.customer_id o' = 10%N /\
    FoodOrder.restaurant_id o' = 1%N /\
    FoodOrder.subtotal o' = 2550 /\
    FoodOrder.delivery_fee o' = 399 /\
    FoodOrder.tax o' = 204 /\
    FoodOrder.total_amount o' = 3153 /\
    FoodOrder.confirmed_at o' = None.
Proof.
  cbv zeta.
  apply (@order_columns_fixed table_runtime _ listing_db 1%N
           (sample_order OrderStatus.CONFIRMED None)).
  reflexivity.
Defined.

Lemma parcel_columns_fixed_witness :
  let rs := [ClaimParcel 5 30;
             UpdateParcelStatus 5 ParcelStatus.PICKED_UP 30 7] in
  exists p',
    parcel_deliveries (@serve_all table_runtime rs listing_db) !! 5%N = Some p' /\
    parcel_progress (sample_parcel ParcelStatus.PENDING None) p' /\
    ParcelDelivery.sender_id p' = 10%N /\
    ParcelDelivery.parcel_size p' = ParcelSize.SMALL /\
    ParcelDelivery.delivery_fee p' = 1500 /\
    ParcelDelivery.estimated_distance_km p' = Some 5%float.
Proof.
  cbv zeta.
  apply (@parcel_columns_fixed table_runtime _ listing_db 5%N
           (sample_parcel ParcelStatus.PENDING None)).
  reflexivity.
Defined.

Lemma delivered_jobs_are_stamped_witness :
  let rs := [UpdateFoodOrderStatus 4 OrderStatus.DELIVERED 20 7;
             UpdateParcelStatus 6 ParcelStatus.PICKED_UP 20 8] in
  all_orders order_stamped (@serve_all table_runtime rs listing_db) /\
  all_parcels parcel_stamped (@serve_all table_runtime rs listing_db).
Proof.
  cbv zeta. apply (@delivered_jobs_are_stamped table_runtime).
  - apply (all_orders_check order_stamped). vm_compute. reflexivity.
  - apply (all_parcels_check parcel_stamped). vm_compute. reflexivity.
Defined.

Lemma stored_ratings_follow_reviews_witness :
  ratings_synced
    (@serve_all table_runtime
       [ReviewFoodOrder 3 (ReviewCreate.mk 4 None) 10 103] reviewed_db).
Proof.
  apply (@stored_ratings_follow_reviews table_runtime). split.
  - intros k r Hk _. cbn in Hk.
    destruct (decide (k = 1%N)) as [->|Hne].
    + rewrite lookup_singleton_eq in Hk. injection Hk as <-.
      vm_compute. reflexivity.
    + rewrite lookup_singleton_ne in Hk by congruence. discriminate.
  - intros u d Hu. cbn in Hu. rewrite lookup_empty in Hu. discriminate.
Defined.

(** ** The items of a food order *)

(** The entries the pricing loop adds, one per item and in their order. *)
Lemma price_items_data items :
  forall s acc db subtotal its,
    fst (price_items items s acc db) = Ok (subtotal, its) ->
    exists new,
      its = acc ++ new /\
      Forall2
        (fun item d =>
           exists m,
             menu_items db !! OrderItemCreate.menu_item_id item = Some m /\
             MenuItem.is_available m = true /\
             d = mk_item_data (OrderItemCreate.menu_item_id item)
                   (OrderItemCreate.quantity item)
                   (as_decimal (MenuItem.price m))
                   (dec_mul_int (as_decimal (MenuItem.price m))
                      (OrderItemCreate.quantity item))
                   (OrderItemCreate.special_instructions item))
        items new.
Proof.
  induction items as [|item rest IH]; intros s acc db subtotal its Hrun.
  - cbn in Hrun. injection Hrun as _ <-. exists [].
    split; [symmetry; apply app_nil_r|constructor].
  - cbn [price_items] in Hrun.
    rewrite bind_read_only in Hrun by apply read_only_query_first.
    unfold query_first in Hrun. cbn [fst] in Hrun.
    destruct (menu_items db !! OrderItemCreate.menu_item_id item)
      as [m|] eqn:Hm; [|discriminate].
    destruct (MenuItem.is_available m) eqn:Ha; [|discriminate].
    cbn [negb] in Hrun. apply IH in Hrun as (new & -> & Hall).
    eexists (_ :: new). split; [rewrite <- app_assoc; reflexivity|].
    constructor; [|exact Hall]. exists m. auto.
Qed.

Lemma order_item_rows_ok k ds :
  forall db rows,
    fst (order_item_rows k ds db) = Ok rows ->
    Forall2 (fun d row => fst (order_item_row k d db) = Ok row) ds rows.
Proof.
  induction ds as [|d ds IH]; intros db rows Hrun.
  - cbn in Hrun. injection Hrun as <-. constructor.
  - cbn [order_item_rows] in Hrun.
    rewrite bind_read_only in Hrun by apply read_only_order_item_row.
    destruct (fst (order_item_row k d db)) as [row|] eqn:Hrow; [|discriminate].
    rewrite bind_read_only in Hrun by apply read_only_order_item_rows.
    destruct (fst (order_item_rows k ds db)) as [rows'|] eqn:Hrows;
      [|discriminate].
    cbn in Hrun. injection Hrun as <-. constructor; [exact Hrow|].
    apply IH, Hrows.
Qed.

(** A price with two fractional digits and its multiple by an integer are
    stored as they are. *)
Lemma order_item_row_ok k item m db row :
  fst (order_item_row k
         (mk_item_data (OrderItemCreate.menu_item_id item)
            (OrderItemCreate.quantity item) (as_decimal (MenuItem.price m))
            (dec_mul_int (as_decimal (MenuItem.price m))
               (OrderItemCreate.quantity item))
            (OrderItemCreate.special_instructions item)) db) = Ok row ->
  row = OrderItem.mk k (OrderItemCreate.menu_item_id item)
          (OrderItemCreate.quantity item) (MenuItem.price m)
          (MenuItem.price m * OrderItemCreate.quantity item)
          (OrderItemCreate.special_instructions item).
Proof.
  unfold order_item_row. cbn [item_unit_price item_total_price
    item_menu_item_id item_quantity item_special_instructions].
  rewrite bind_read_only by apply read_only_integer_column.
  unfold integer_column at 1.
  destruct ((- 2 ^ 31 <=? OrderItemCreate.quantity item) &&
            (OrderItemCreate.quantity item <? 2 ^ 31)); [|discriminate].
  cbn [fst ret].
  rewrite bind_read_only by apply read_only_numeric_10_2.
  destruct (fst (numeric_10_2 (as_decimal (MenuItem.price m)) db))
    as [unit_price|] eqn:Hu; [|discriminate].
  rewrite bind_read_only by apply read_only_numeric_10_2.
  destruct (fst (numeric_10_2
                   (dec_mul_int (as_decimal (MenuItem.price m))
                      (OrderItemCreate.quantity item)) db))
    as [total_price|] eqn:Ht; [|discriminate].
  apply numeric_10_2_ok in Hu as [-> _], Ht as [-> _].
  cbn [fst ret]. intros [= <-].
  unfold quantize_cents, dec_mul_int, dec_mul, as_decimal.
  cbn [places coefficient Nat.add Nat.leb Nat.sub]. powers_of_ten.
  f_equal; lia.
Qed.

Lemma item_rows_total db k items rows :
  Forall2 (item_row db k) items rows ->
  fold_right Z.add 0 (OrderItem.total_price <$> rows) =
  sum_line_totals db items.
Proof.
  induction 1 as [|item row items rows (m & Hm & _ & ->) _ IH]; [reflexivity|].
  cbn [fmap list_fmap fold_right sum_line_totals OrderItem.total_price].
  rewrite Hm. f_equal. exact IH.
Qed.

(** The subtotal of a created order is the sum of the line totals. *)
Lemma create_food_order_subtotal order_data u k db o db' :
  create_food_order order_data u k db = (Ok o, db') ->
  FoodOrder.subtotal o = sum_line_totals db (FoodOrderCreate.items order_data).
Proof.
  intros Hrun. apply create_food_order_ok in Hrun.
  destruct Hrun as (r & subtotal & its & rows & _ & _ & Hp & Hs & _).
  apply numeric_10_2_ok in Hs as [Hs _].
  apply price_items_subtotal in Hp; [|cbn; lia].
  destruct Hp as [Hsum Hplaces].
  destruct subtotal as [c p]. cbn [places] in Hplaces.
  unfold rescale in Hsum. cbn [places coefficient] in Hsum.
  rewrite Hs. unfold quantize_cents. cbn [places coefficient].
  destruct (FoodOrderCreate.items order_data) as [|item rest]; subst p.
  - cbn in Hsum |- *. lia.
  - revert Hsum. cbn [Nat.leb Nat.sub]. powers_of_ten. lia.
Qed.

(** X18 (food_orders.py, create_food_order).  A created order gets one
    row of [order_items] per item of the request, appended in the order of
    the request: the row carries the key of the order, the menu item, the
    quantity and the instructions of the item, the price of the menu item
    as unit price, and unit price times quantity as total price; the
    subtotal of the order is the sum of the total prices of its rows. *)
Theorem order_items_match_order order_data u k db o db' :
  create_food_order order_data u k db = (Ok o, db') ->
  exists rows,
    order_items db' = order_items db ++ rows /\
    Forall2 (item_row db k) (FoodOrderCreate.items order_data) rows /\
    FoodOrder.subtotal o = fold_right Z.add 0 (OrderItem.total_price <$> rows).
Proof.
  intros Hrun. pose proof (create_food_order_subtotal _ _ _ _ _ _ Hrun) as Hsub.
  apply create_food_order_ok in Hrun.
  destruct Hrun as (r & subtotal & its & rows & _ & _ & Hp & _ & _ & _ & _ & _
                    & _ & _ & _ & _ & Hrows & ->).
  exists rows. split; [reflexivity|].
  apply price_items_data in Hp as (new & -> & Hnew). cbn [app] in Hrows.
  apply order_item_rows_ok in Hrows.
  assert (Hall : Forall2 (item_row db k) (FoodOrderCreate.items order_data) rows).
  { clear Hsub. revert rows Hrows.
    induction Hnew as [|item d items ds (m & Hm & Ha & ->) _ IH];
      intros rows Hrows; inversion Hrows as [|? row ? rows' Hrow Hrest]; subst.
    - constructor.
    - constructor; [|apply IH, Hrest].
      exists m. split; [exact Hm|]. split; [exact Ha|].
      eapply order_item_row_ok, Hrow. }
  split; [exact Hall|]. rewrite Hsub. symmetry. eapply item_rows_total, Hall.
Qed.

Lemma order_items_match_order_witness :
  exists rows,
    order_items
      (snd (create_food_order
              (order_at_1 [OrderItemCreate.mk 7 2 None;
                           OrderItemCreate.mk 8 1 (Some "no onions"%string)])
              10 1 menu_db)) = order_items menu_db ++ rows /\
    Forall2 (item_row menu_db 1)
      [OrderItemCreate.mk 7 2 None;
       OrderItemCreate.mk 8 1 (Some "no onions"%string)] rows /\
    FoodOrder.subtotal (priced_order 2550 204 3153) =
    fold_right Z.add 0 (OrderItem.total_price <$> rows).
Proof.
  apply (order_items_match_order
           (order_at_1 [OrderItemCreate.mk 7 2 None;
                        OrderItemCreate.mk 8 1 (Some "no onions"%string)])
           10 1 menu_db (priced_order 2550 204 3153)).
  vm_compute. reflexivity.
Defined.

(** ** Creating a job: all or nothing, and where the job shows *)

(** X19 (food_orders.py, create_food_order, get_order_details,
    list_user_orders).  A request that fails writes nothing; a missing or
    inactive restaurant gives 404.  A request that succeeds adds the order
    under its fresh key and touches no other order and no other table but
    [order_items]; the order is pending, without driver, of the caller;
    the caller can read it back and finds it on a page of their orders. *)
Theorem created_order_is_listed order_data u k db :
  (forall e db',
     create_food_order order_data u k db = (Raise e, db') -> db' = db) /\
  ((forall r,
      restaurants db !! FoodOrderCreate.restaurant_id order_data = Some r ->
      Restaurant.is_active r = false) ->
   create_food_order order_data u k db =
   (Raise (HTTPException 404 (Literal "Restaurant not found or inactive")),
    db)) /\
  (forall o db',
     create_food_order order_data u k db = (Ok o, db') ->
     food_orders db !! k = None /\
     food_orders db' = <[k := o]> (food_orders db) /\
     (restaurants db' = restaurants db /\ menu_items db' = menu_items db /\
      parcel_deliveries db' = parcel_deliveries db /\
      reviews db' = reviews db /\ driver_profiles db' = driver_profiles db) /\
     new_order o /\ FoodOrder.customer_id o = u /\
     (forall role, get_order_details k (User.mk u role) db' = (Ok o, db')) /\
     (forall created_at limit,
        0 < limit <= 100 ->
        exists skip rows,
          0 <= skip /\
          fst (list_user_orders created_at skip limit u db') = Ok rows /\
          (k, o) ∈ rows)).
Proof.
  split; [intros e db'; apply create_food_order_raise|]. split.
  - intros Hno. unfold create_food_order.
    rewrite bind_read_only by apply read_only_query_first.
    unfold query_first. cbn [fst].
    destruct (restaurants db !! FoodOrderCreate.restaurant_id order_data)
      as [r|]; [|reflexivity].
    rewrite (Hno r eq_refl). reflexivity.
  - intros o db' Hrun.
    pose proof (create_food_order_new_order _ _ _ _ _ _ Hrun) as Hnew.
    apply create_food_order_ok in Hrun.
    destruct Hrun as (r & subtotal & its & rows & _ & _ & _ & _ & _ & _ & _
                      & Hu & _ & _ & _ & Hfresh & _ & ->).
    assert (Hk : food_orders
                   (set_order_items (order_items db ++ rows)
                      (set_food_orders (<[k := o]> (food_orders db)) db)) !! k
                 = Some o) by (cbn; apply lookup_insert_eq).
    split; [exact Hfresh|]. split; [reflexivity|].
    split; [repeat split|]. split; [exact Hnew|]. split; [exact Hu|]. split.
    + intros role. rewrite get_order_details_run, Hk.
      rewrite decide_True by (left; exact Hu). reflexivity.
    + intros created_at limit Hlimit.
      apply (listing_complete food_orders _ (later created_at) limit _ k o Hk);
        [|exact Hlimit].
      apply bool_decide_eq_true. exact Hu.
Qed.

Lemma created_order_is_listed_witness :
  exists skip rows,
    0 <= skip /\
    fst (list_user_orders by_key skip 50 10
           (snd (create_food_order
                   (order_at_1 [OrderItemCreate.mk 7 2 None]) 10 1 menu_db)))
    = Ok rows /\
    (1%N, priced_order 2000 160 2559) ∈ rows.
Proof.
  apply (proj2 (proj2 (created_order_is_listed
                         (order_at_1 [OrderItemCreate.mk 7 2 None]) 10 1
                         menu_db))
           (priced_order 2000 160 2559) _);
    [vm_compute; reflexivity|lia].
Defined.

Section CreatedParcel.
Context `{PythonRuntime}.

(** X20 (parcels.py, create_parcel_delivery, get_parcel_details;
    drivers.py, get_available_parcels).  A request that fails writes
    nothing.  A request that succeeds adds the parcel under its fresh key
    and touches nothing else; the parcel is pending, without driver, of
    the caller, its fee is the fee of its estimated distance and size as
    the column stores it, which is NaN where the distance is a NaN; the
    caller can read it back, and every driver finds it on a page of the
    parcels on offer. *)
Theorem created_parcel_is_on_offer parcel_data u k db :
  (forall e db',
     create_parcel_delivery parcel_data u k db = (Raise e, db') -> db' = db) /\
  (forall p db',
     create_parcel_delivery parcel_data u k db = (Ok p, db') ->
     parcel_deliveries db !! k = None /\
     db' = set_parcel_deliveries (<[k := p]> (parcel_deliveries db)) db /\
     new_parcel p /\ ParcelDelivery.sender_id p = u /\
     ParcelDelivery.parcel_size p = ParcelDeliveryCreate.parcel_size parcel_data /\
     (exists distance_km,
        ParcelDelivery.estimated_distance_km p = Some distance_km /\
        fst (numeric_column
               (calculate_delivery_fee distance_km
                  (ParcelDelivery.parcel_size p)) db)
        = Ok (ParcelDelivery.delivery_fee p) /\
        (PrimFloat.is_nan distance_km = true ->
         ParcelDelivery.delivery_fee p = Numeric.NaN)) /\
     (forall role, get_parcel_details k (User.mk u role) db' = (Ok p, db')) /\
     (forall created_at limit,
        0 < limit <= 100 ->
        exists skip rows,
          0 <= skip /\
          fst (get_available_parcels created_at skip limit db') = Ok rows /\
          (k, p) ∈ rows)).
Proof.
  split; [intros e db'; apply create_parcel_delivery_raise|].
  intros p db' Hrun.
  assert (Hfee : exists distance_km,
            ParcelDelivery.estimated_distance_km p = Some distance_km /\
            fst (numeric_column
                   (calculate_delivery_fee distance_km
                      (ParcelDelivery.parcel_size p)) db)
            = Ok (ParcelDelivery.delivery_fee p) /\
            (PrimFloat.is_nan distance_km = true ->
             ParcelDelivery.delivery_fee p = Numeric.NaN)).
  { revert Hrun. unfold create_parcel_delivery.
    rewrite bind_read_only by apply read_only_distance_choice.
    match goal with
    | |- context [fst (?h db)] => destruct (fst (h db)) as [distance_km|]
    end; [|discriminate].
    rewrite bind_read_only by apply read_only_numeric_column.
    destruct (fst (numeric_column
                     (calculate_delivery_fee distance_km
                        (ParcelDeliveryCreate.parcel_size parcel_data)) db))
      as [fee|] eqn:Hfee; [|discriminate].
    rewrite bind_read_only by apply read_only_query_first.
    unfold query_first. cbn [fst].
    destruct (parcel_deliveries db !! k); [discriminate|].
    run_handler. intros [= <- _]. exists distance_km.
    split; [reflexivity|]. split; [exact Hfee|].
    intros Hnan. cbn [ParcelDelivery.delivery_fee].
    rewrite calculate_delivery_fee_nan in Hfee by exact Hnan.
    injection Hfee as <-. reflexivity. }
  apply create_parcel_delivery_row in Hrun as (Hfresh & -> & Hp).
  assert (Hk : parcel_deliveries
                 (set_parcel_deliveries (<[k := p]> (parcel_deliveries db)) db)
                 !! k = Some p) by (cbn; apply lookup_insert_eq).
  assert (Hnew : new_parcel p) by (rewrite Hp; repeat split).
  assert (Hu : ParcelDelivery.sender_id p = u) by (rewrite Hp; reflexivity).
  split; [exact Hfresh|]. split; [reflexivity|]. split; [exact Hnew|].
  split; [exact Hu|]. split; [rewrite Hp; reflexivity|].
  split; [exact Hfee|]. split.
  - intros role. rewrite get_parcel_details_run, Hk.
    rewrite decide_True by (left; exact Hu). reflexivity.
  - intros created_at limit Hlimit.
    apply (listing_complete parcel_deliveries available_parcel
             (earlier created_at) limit _ k p Hk); [|exact Hlimit].
    apply available_parcel_true. destruct Hnew as (Hd & Hs & _). auto.
Qed.

End CreatedParcel.

Lemma created_parcel_is_on_offer_witness :
  exists skip rows,
    0 <= skip /\
    fst (get_available_parcels by_key skip 50
           (snd (@create_parcel_delivery table_runtime equator_parcel 10 7
                   empty_db))) = Ok rows /\
    (7%N, equator_parcel_row) ∈ rows.
Proof.
  apply (proj2 (@created_parcel_is_on_offer table_runtime equator_parcel 10 7
                  empty_db) equator_parcel_row _);
    [vm_compute; reflexivity|lia].
Defined.

(** ** The availability flag of a driver *)

Lemma update_availability_run b u db :
  update_availability b u db =
  match driver_profiles db !! u with
  | None =>
      (Raise (HTTPException 404 (Literal "Driver profile not found")), db)
  | Some d =>
      (Ok ("Availability updated successfully"%string, b),
       set_driver_profiles (<[u := set_is_available b d]> (driver_profiles db))
         db)
  end.
Proof.
  unfold update_availability. run_handler.
  destruct (driver_profiles db !! u); reflexivity.
Qed.

(** X21 (drivers.py, update_availability, accept_food_order,
    accept_parcel).  Without a driver profile the call fails with 404 and
    writes nothing.  With one it sets the flag and nothing else: the
    rating and the delivery count of the profile, the other profiles and
    the other tables stay; setting the same value again changes nothing.
    The claim handlers do not read the flag: a claim has the same outcome
    whatever the availability of the driver. *)
Theorem availability_only_sets_the_flag b u db :
  (driver_profiles db !! u = None ->
   update_availability b u db =
   (Raise (HTTPException 404 (Literal "Driver profile not found")), db)) /\
  (forall d,
     driver_profiles db !! u = Some d ->
     exists db' d',
       update_availability b u db =
       (Ok ("Availability updated successfully"%string, b), db') /\
       driver_profiles db' !! u = Some d' /\
       DriverProfile.is_available d' = b /\
       DriverProfile.rating_average d' = DriverProfile.rating_average d /\
       DriverProfile.total_deliveries d' = DriverProfile.total_deliveries d /\
       (forall v, v <> u -> driver_profiles db' !! v = driver_profiles db !! v) /\
       (food_orders db' = food_orders db /\
        parcel_deliveries db' = parcel_deliveries db /\
        reviews db' = reviews db /\ restaurants db' = restaurants db) /\
       snd (update_availability b u db') = db' /\
       (forall k,
          fst (accept_food_order k u db') = fst (accept_food_order k u db) /\
          fst (accept_parcel k u db') = fst (accept_parcel k u db))).
Proof.
  rewrite update_availability_run. split; [intros ->; reflexivity|].
  intros d Hu. rewrite Hu. do 2 eexists. split; [reflexivity|].
  cbn [driver_profiles set_driver_profiles food_orders parcel_deliveries
       reviews restaurants].
  split; [apply lookup_insert_eq|]. do 3 (split; [reflexivity|]).
  split; [intros v Hv; apply lookup_insert_ne; congruence|].
  split; [repeat split|]. split.
  - rewrite update_availability_run.
    cbn [driver_profiles set_driver_profiles]. rewrite lookup_insert_eq.
    cbn [snd]. unfold set_driver_profiles. cbn. rewrite insert_insert_eq.
    reflexivity.
  - intros k. rewrite !accept_food_order_run, !accept_parcel_run.
    cbn [food_orders parcel_deliveries set_driver_profiles].
    split.
    + destruct (food_orders db !! k) as [o|]; [|reflexivity].
      destruct (FoodOrder.driver_id o); reflexivity.
    + destruct (parcel_deliveries db !! k) as [p|]; [|reflexivity].
      destruct (ParcelDelivery.driver_id p); reflexivity.
Qed.

Lemma availability_only_sets_the_flag_witness :
  exists db' d',
    update_availability false 20 listing_db =
    (Ok ("Availability updated successfully"%string, false), db') /\
    driver_profiles db' !! 20%N = Some d' /\
    DriverProfile.is_available d' = false /\
    DriverProfile.rating_average d' = 0%float /\
    DriverProfile.total_deliveries d' = 0 /\
    (forall v, v <> 20%N ->
       driver_profiles db' !! v = driver_profiles listing_db !! v) /\
    (food_orders db' = food_orders listing_db /\
     parcel_deliveries db' = parcel_deliveries listing_db /\
     reviews db' = reviews listing_db /\
     restaurants db' = restaurants listing_db) /\
    snd (update_availability false 20 db') = db' /\
    (forall k,
       fst (accept_food_order k 20 db') = fst (accept_food_order k 20 listing_db) /\
       fst (accept_parcel k 20 db') = fst (accept_parcel k 20 listing_db)).
Proof.
  apply (proj2 (availability_only_sets_the_flag false 20 listing_db)
           (sample_profile 0)).
  reflexivity.
Defined.

(** ** The order of the parcel fees *)

Section FeeOrder.
Context `{PythonRuntime}.


End FeeOrder.


(** ** Deleting a review (admin.py) *)

Lemma delete_review_run i db :
  delete_review i db =
  match List.filter (fun r => bool_decide (Review.id r = i)) (reviews db) with
  | [] => (Raise (HTTPException 404 (Literal "Review not found")), db)
  | _ :: _ =>
      (Ok "Review deleted successfully"%string,
       set_reviews
         (List.filter (fun r => negb (bool_decide (Review.id r = i)))
            (reviews db)) db)
  end.
Proof.
  unfold delete_review. run_handler.
  destruct (List.filter _ (reviews db)); reflexivity.
Qed.

(** The two cases of [delete_review]. *)
Lemma delete_review_cases i db :
  ((forall r, r ∈ reviews db -> Review.id r <> i) ->
   delete_review i db =
   (Raise (HTTPException 404 (Literal "Review not found")), db)) /\
  (forall r,
     r ∈ reviews db -> Review.id r = i ->
     delete_review i db =
     (Ok "Review deleted successfully"%string,
      set_reviews
        (List.filter (fun r => negb (bool_decide (Review.id r = i)))
           (reviews db)) db) /\
     delete_review i
       (set_reviews
          (List.filter (fun r => negb (bool_decide (Review.id r = i)))
             (reviews db)) db) =
     (Raise (HTTPException 404 (Literal "Review not found")),
      set_reviews
        (List.filter (fun r => negb (bool_decide (Review.id r = i)))
           (reviews db)) db)).
Proof.
  split.
  - intros Hnone. rewrite delete_review_run, filter_none; [reflexivity|].
    intros r Hr. apply bool_decide_eq_false, Hnone, Hr.
  - intros r Hr Hi. rewrite !delete_review_run.
    destruct (List.filter (fun r => bool_decide (Review.id r = i)) (reviews db))
      as [|r0 rest] eqn:Hsome.
    { assert (Hin : r ∈ List.filter (fun r => bool_decide (Review.id r = i))
                      (reviews db)).
      { apply elem_of_filter_bool. split; [exact Hr|].
        apply bool_decide_eq_true, Hi. }
      rewrite Hsome in Hin. apply elem_of_nil in Hin. destruct Hin. }
    split; [reflexivity|]. cbn [reviews set_reviews].
    rewrite filter_none; [reflexivity|].
    intros r' Hr'. apply elem_of_filter_bool in Hr' as [_ Hr'].
    apply negb_true_iff in Hr'. exact Hr'.
Qed.

(** X23 (admin.py, delete_review).  Deleting an id that no review has
    fails with 404 and writes nothing.  Deleting the id of a review
    removes the reviews of that id and no other, keeps the order of the
    rest, and leaves every other table as it is: the stored averages of
    the restaurants and of the drivers are not recomputed.  A second
    deletion of the same id fails with 404. *)
Theorem delete_review_removes_only_the_review i db :
  ((forall r, r ∈ reviews db -> Review.id r <> i) ->
   delete_review i db =
   (Raise (HTTPException 404 (Literal "Review not found")), db)) /\
  (forall r,
     r ∈ reviews db -> Review.id r = i ->
     exists db',
       delete_review i db = (Ok "Review deleted successfully"%string, db') /\
       (forall r', r' ∈ reviews db' <-> r' ∈ reviews db /\ Review.id r' <> i) /\
       reviews db' `sublist_of` reviews db /\
       (restaurants db' = restaurants db /\
        driver_profiles db' = driver_profiles db /\
        food_orders db' = food_orders db /\
        parcel_deliveries db' = parcel_deliveries db /\
        menu_items db' = menu_items db /\ order_items db' = order_items db) /\
       delete_review i db' =
       (Raise (HTTPException 404 (Literal "Review not found")), db')).
Proof.
  split; [apply delete_review_cases|].
  intros r Hr Hi.
  destruct (proj2 (delete_review_cases i db) r Hr Hi) as [Hdel Hagain].
  eexists. split; [exact Hdel|]. cbn [reviews set_reviews].
  split; [|split; [apply filter_sublist|split; [repeat split|exact Hagain]]].
  intros r'. rewrite elem_of_filter_bool, negb_true_iff, bool_decide_eq_false.
  reflexivity.
Qed.

Lemma delete_review_removes_only_the_review_witness :
  exists db',
    delete_review 101 reviewed_db =
    (Ok "Review deleted successfully"%string, db') /\
    (forall r', r' ∈ reviews db' <->
                r' ∈ reviews reviewed_db /\ Review.id r' <> 101%N) /\
    reviews db' `sublist_of` reviews reviewed_db /\
    (restaurants db' = restaurants reviewed_db /\
     driver_profiles db' = driver_profiles reviewed_db /\
     food_orders db' = food_orders reviewed_db /\
     parcel_deliveries db' = parcel_deliveries reviewed_db /\
     menu_items db' = menu_items reviewed_db /\
     order_items db' = order_items reviewed_db) /\
    delete_review 101 db' =
    (Raise (HTTPException 404 (Literal "Review not found")), db').
Proof.
  apply (proj2 (delete_review_removes_only_the_review 101 reviewed_db)
           (Review.mk 101 11 TargetType.RESTAURANT 1 (Some 1%N) 5 None)).
  - apply list_elem_of_here.
  - reflexivity.
Defined.

(** ** A deleted review can be given again *)

(** A review that [delete_review] keeps is a review of the database. *)
Lemma filter_filter_nil {A} (P Q : A -> bool) (l : list A) :
  (forall x, x ∈ l -> P x = true -> Q x = false) ->
  List.filter P (List.filter Q l) = [].
Proof.
  intros Hall. apply filter_none. intros x Hx.
  apply elem_of_filter_bool in Hx as [Hx HQ].
  apply not_true_is_false. intros HP. rewrite (Hall x Hx HP) in HQ.
  discriminate.
Qed.

(** Where there is at most one review per job, reviewer and target type,
    the reviews of one triple have the same id. *)
Lemma at_most_one_review_same db k u tt r1 r2 :
  at_most_one_review db ->
  r1 ∈ reviews db -> r2 ∈ reviews db ->
  review_of k u tt r1 = true -> review_of k u tt r2 = true -> r1 = r2.
Proof.
  intros Hone H1 H2 Hr1 Hr2. specialize (Hone k u tt).
  assert (Hin1 : r1 ∈ List.filter (review_of k u tt) (reviews db))
    by (apply elem_of_filter_bool; auto).
  assert (Hin2 : r2 ∈ List.filter (review_of k u tt) (reviews db))
    by (apply elem_of_filter_bool; auto).
  destruct (List.filter (review_of k u tt) (reviews db)) as [|x [|y rest]].
  - apply elem_of_nil in Hin1. destruct Hin1.
  - apply list_elem_of_singleton in Hin1, Hin2. congruence.
  - cbn in Hone. lia.
Qed.

(** X24 (admin.py, delete_review; food_orders.py, review_restaurant).  On
    a delivered order that its customer has reviewed, a further review is
    refused; once an admin has deleted that review, the customer can
    review the order again, and the average then stored on the restaurant
    is the average of the reviews that are left together with the new
    one. *)
Theorem deleted_review_can_be_given_again k u db d n o r0 restaurant :
  food_orders db !! k = Some o -> FoodOrder.customer_id o = u ->
  FoodOrder.status o = OrderStatus.DELIVERED ->
  restaurants db !! FoodOrder.restaurant_id o = Some restaurant ->
  ReviewCreate.valid d = true ->
  at_most_one_review db ->
  r0 ∈ reviews db -> review_of k u TargetType.RESTAURANT r0 = true ->
  (forall r, r ∈ reviews db -> Review.id r <> n) ->
  review_restaurant k d u n db =
  (Raise (HTTPException 400 (Literal "Order already reviewed")), db) /\
  exists db1 r db2 restaurant',
    delete_review (Review.id r0) db =
    (Ok "Review deleted successfully"%string, db1) /\
    review_restaurant k d u n db1 = (Ok r, db2) /\
    Review.rating r = ReviewCreate.rating d /\
    (forall r', r' ∈ reviews db2 <->
                (r' ∈ reviews db /\ Review.id r' <> Review.id r0) \/ r' = r) /\
    restaurants db2 !! FoodOrder.restaurant_id o = Some restaurant' /\
    Restaurant.rating_average restaurant' =
    avg_rating
      (List.filter
         (review_targets TargetType.RESTAURANT (FoodOrder.restaurant_id o))
         (reviews db2)).
Proof.
  intros Hk Hu Hs Hrest Hvalid Hone Hr0 Hof Hfresh. split.
  { apply (review_restaurant_again k u db d n o r0); auto.
    apply list_elem_of_In, Hr0. }
  destruct (proj2 (delete_review_cases (Review.id r0) db) r0 Hr0 eq_refl)
    as (Hdel & _).
  set (left := List.filter
                 (fun r => negb (bool_decide (Review.id r = Review.id r0)))
                 (reviews db)) in *.
  exists (set_reviews left db).
  set (r := Review.mk n u TargetType.RESTAURANT (FoodOrder.restaurant_id o)
              (Some k) (ReviewCreate.rating d) (ReviewCreate.comment d)).
  assert (Hnone : List.filter (review_of k u TargetType.RESTAURANT) left = []).
  { apply filter_filter_nil. intros x Hx Hofx.
    rewrite (at_most_one_review_same db k u TargetType.RESTAURANT x r0)
      by assumption.
    rewrite bool_decide_eq_true_2 by reflexivity. reflexivity. }
  assert (Hfree : List.filter (fun r' => bool_decide (Review.id r' = n)) left
                  = []).
  { apply filter_none. intros x Hx. apply elem_of_filter_bool in Hx as [Hx _].
    apply bool_decide_eq_false, Hfresh, Hx. }
  assert (Htargets : review_targets TargetType.RESTAURANT
                       (FoodOrder.restaurant_id o) r = true)
    by (apply review_targets_true; auto).
  assert (Hrun : review_restaurant k d u n (set_reviews left db) =
                 (Ok r,
                  set_restaurants
                    (<[FoodOrder.restaurant_id o :=
                         Restaurant.set_rating_average
                           (avg_rating
                              (List.filter
                                 (review_targets TargetType.RESTAURANT
                                    (FoodOrder.restaurant_id o))
                                 (left ++ [r]))) restaurant]>
                       (restaurants db))
                    (set_reviews (left ++ [r]) db))).
  { rewrite review_restaurant_run, Hvalid.
    cbn [food_orders reviews restaurants set_reviews]. rewrite Hk.
    destruct (decide (FoodOrder.customer_id o <> u)); [contradiction|].
    destruct (decide (FoodOrder.status o <> OrderStatus.DELIVERED));
      [contradiction|].
    rewrite Hnone, Hfree. cbv zeta. fold r.
    rewrite List.filter_app. cbn [List.filter]. rewrite Htargets.
    destruct (List.filter _ left ++ [r]) as [|x xs] eqn:Hall.
    { apply app_eq_nil in Hall as [_ Hall]. discriminate. }
    rewrite Hrest. reflexivity. }
  do 3 eexists. split; [exact Hdel|]. split; [exact Hrun|].
  split; [reflexivity|]. cbn [reviews restaurants set_restaurants set_reviews].
  split; [|split; [apply lookup_insert_eq|reflexivity]].
  intros r'. rewrite elem_of_app, list_elem_of_singleton. unfold left.
  rewrite elem_of_filter_bool, negb_true_iff, bool_decide_eq_false.
  reflexivity.
Qed.

Lemma deleted_review_can_be_given_again_witness :
  review_restaurant 3 (ReviewCreate.mk 2 None) 10 104 once_reviewed_db =
  (Raise (HTTPException 400 (Literal "Order already reviewed")),
   once_reviewed_db) /\
  exists db1 r db2 restaurant',
    delete_review 103 once_reviewed_db =
    (Ok "Review deleted successfully"%string, db1) /\
    review_restaurant 3 (ReviewCreate.mk 2 None) 10 104 db1 = (Ok r, db2) /\
    Review.rating r = 2 /\
    (forall r', r' ∈ reviews db2 <->
                (r' ∈ reviews once_reviewed_db /\ Review.id r' <> 103%N) \/
                r' = r) /\
    restaurants db2 !! 1%N = Some restaurant' /\
    Restaurant.rating_average restaurant' =
    avg_rating
      (List.filter (review_targets TargetType.RESTAURANT 1) (reviews db2)).
Proof.
  assert (Hreviews : reviews once_reviewed_db =
                     [Review.mk 103 10 TargetType.RESTAURANT 1 (Some 3%N) 4 None])
    by (vm_compute; reflexivity).
  apply (deleted_review_can_be_given_again 3 10 once_reviewed_db
           (ReviewCreate.mk 2 None) 104
           (sample_order OrderStatus.DELIVERED (Some 20%N))
           (Review.mk 103 10 TargetType.RESTAURANT 1 (Some 3%N) 4 None)
           (Restaurant.mk true 4%float 399)).
  - vm_compute. reflexivity.
  - reflexivity.
  - reflexivity.
  - vm_compute. reflexivity.
  - reflexivity.
  - apply review_restaurant_keeps_unique. intros k u tt. cbn. lia.
  - rewrite Hreviews. apply list_elem_of_here.
  - reflexivity.
  - intros r Hr. rewrite Hreviews in Hr.
    apply list_elem_of_singleton in Hr. subst r. discriminate.
Defined.

(** ** The distance of a parcel with coordinates *)

Section Distance.
Context `{PythonRuntime}.

Lemma calculate_distance_raises lat1 lon1 lat2 lon2 db e :
  fst (calculate_distance lat1 lon1 lat2 lon2 db) = Raise e -> e = ValueError.
Proof.
  unfold calculate_distance, math_sqrt, math_sin, math_cos, bind, ret, raise.
  cbv zeta.
  repeat match goal with
         | |- context [if ?b then _ else _] => destruct b
         end; cbn; congruence.
Qed.

(** An infinite latitude ends the computation at the sine of the difference
    or at its own cosine. *)
Lemma calculate_distance_infinite lat1 lon1 lat2 lon2 db :
  PrimFloat.is_infinity (math_radians lat1) = true \/
  PrimFloat.is_infinity (math_radians lat2) = true ->
  fst (calculate_distance lat1 lon1 lat2 lon2 db) = Raise ValueError.
Proof.
  intros Hinf.
  unfold calculate_distance, math_sin, math_cos, bind, ret, raise. cbv zeta.
  destruct (PrimFloat.is_infinity (math_radians (lat2 - lat1) / 2));
    [reflexivity|].
  destruct (PrimFloat.is_infinity (math_radians lat1)); [reflexivity|].
  destruct (PrimFloat.is_infinity (math_radians lat2)); [reflexivity|].
  destruct Hinf; discriminate.
Qed.

(** X25 (parcels.py, calculate_distance, create_parcel_delivery).  When
    the request carries all four coordinates and none of them is zero, the
    distance of the parcel is the haversine distance of the coordinates:
    the only error of its computation, the domain error of a sine or
    cosine of an infinity or of a square root of a negative number, ends
    the request with nothing written, and a latitude that is infinite in
    radians is such an error; otherwise a created parcel stores that
    distance as its estimate, and its fee is the fee of that distance and
    of its size as the column stores it, a NaN where the distance is a
    NaN. *)
Theorem distance_from_coordinates parcel_data u k db lat1 lon1 lat2 lon2 :
  ParcelDeliveryCreate.pickup_latitude parcel_data = Some lat1 ->
  ParcelDeliveryCreate.pickup_longitude parcel_data = Some lon1 ->
  ParcelDeliveryCreate.delivery_latitude parcel_data = Some lat2 ->
  ParcelDeliveryCreate.delivery_longitude parcel_data = Some lon2 ->
  forallb truthy [Some lat1; Some lon1; Some lat2; Some lon2] = true ->
  (forall e,
     fst (calculate_distance lat1 lon1 lat2 lon2 db) = Raise e ->
     e = ValueError /\
     create_parcel_delivery parcel_data u k db = (Raise ValueError, db)) /\
  (PrimFloat.is_infinity (math_radians lat1) = true \/
   PrimFloat.is_infinity (math_radians lat2) = true ->
   create_parcel_delivery parcel_data u k db = (Raise ValueError, db)) /\
  (forall distance_km p db',
     fst (calculate_distance lat1 lon1 lat2 lon2 db) = Ok distance_km ->
     create_parcel_delivery parcel_data u k db = (Ok p, db') ->
     ParcelDelivery.estimated_distance_km p = Some distance_km /\
     fst (numeric_column
            (calculate_delivery_fee distance_km
               (ParcelDeliveryCreate.parcel_size parcel_data)) db)
     = Ok (ParcelDelivery.delivery_fee p) /\
     (PrimFloat.is_nan distance_km = true ->
      ParcelDelivery.delivery_fee p = Numeric.NaN)).
Proof.
  intros Hlat1 Hlon1 Hlat2 Hlon2 Hall.
  assert (Hrun : forall db0,
            create_parcel_delivery parcel_data u k db0 =
            (do distance_km <- calculate_distance lat1 lon1 lat2 lon2;
             do delivery_fee_col <-
               numeric_column
                 (calculate_delivery_fee distance_km
                    (ParcelDeliveryCreate.parcel_size parcel_data));
             let parcel :=
               ParcelDelivery.mk u None
                 (ParcelDeliveryCreate.recipient_name parcel_data)
                 (ParcelDeliveryCreate.recipient_phone parcel_data)
                 (ParcelDeliveryCreate.pickup_address parcel_data)
                 (ParcelDeliveryCreate.pickup_latitude parcel_data)
                 (ParcelDeliveryCreate.pickup_longitude parcel_data)
                 (ParcelDeliveryCreate.delivery_address parcel_data)
                 (ParcelDeliveryCreate.delivery_latitude parcel_data)
                 (ParcelDeliveryCreate.delivery_longitude parcel_data)
                 (ParcelDeliveryCreate.parcel_description parcel_data)
                 (ParcelDeliveryCreate.parcel_size parcel_data)
                 (ParcelDeliveryCreate.weight_kg parcel_data)
                 ParcelStatus.PENDING delivery_fee_col (Some distance_km)
                 None None in
             do clash <- query_first parcel_deliveries k;
             match clash with
             | Some _ => raise IntegrityError
             | None =>
                 exec save_parcel k parcel;
                 exec db_commit;
                 ret parcel
             end) db0).
  { intros db0. unfold create_parcel_delivery.
    rewrite Hlat1, Hlon1, Hlat2, Hlon2, Hall. reflexivity. }
  rewrite Hrun.
  rewrite bind_read_only by apply read_only_calculate_distance.
  split; [|split].
  - intros e He. pose proof (calculate_distance_raises _ _ _ _ _ _ He) as ->.
    rewrite He. auto.
  - intros Hinf.
    rewrite (calculate_distance_infinite lat1 lon1 lat2 lon2 db Hinf).
    reflexivity.
  - intros distance_km p db' Hd. rewrite Hd.
    rewrite bind_read_only by apply read_only_numeric_column.
    destruct (fst (numeric_column
                     (calculate_delivery_fee distance_km
                        (ParcelDeliveryCreate.parcel_size parcel_data)) db))
      as [fee|] eqn:Hfee; [|discriminate].
    cbv zeta. rewrite bind_read_only by apply read_only_query_first.
    unfold query_first. cbn [fst].
    destruct (parcel_deliveries db !! k); [discriminate|].
    run_handler. intros [= <- _]. split; [reflexivity|].
    split; [reflexivity|]. intros Hnan. cbn [ParcelDelivery.delivery_fee].
    rewrite calculate_delivery_fee_nan in Hfee by exact Hnan.
    injection Hfee as <-. reflexivity.
Qed.

End Distance.

Lemma distance_from_coordinates_witness :
  ParcelDelivery.estimated_distance_km located_parcel_row = Some 0%float /\
  fst (numeric_column
         (@calculate_delivery_fee table_runtime 0%float
            (ParcelDeliveryCreate.parcel_size located_parcel)) empty_db)
  = Ok (ParcelDelivery.delivery_fee located_parcel_row) /\
  (PrimFloat.is_nan 0%float = true ->
   ParcelDelivery.delivery_fee located_parcel_row = Numeric.NaN).
Proof.
  apply (proj2 (proj2 (@distance_from_coordinates table_runtime located_parcel
                         10 7 empty_db 10%float 10%float 10%float 10%float
                         eq_refl eq_refl eq_refl eq_refl eq_refl))
           0%float located_parcel_row
           (set_parcel_deliveries {[7%N := located_parcel_row]} empty_db)).
  - vm_compute. reflexivity.
  - vm_compute. reflexivity.
Defined.

(** ** The rating and the reviews a restaurant shows (restaurants.py) *)

Lemma get_restaurant_reviews_run k skip limit db :
  get_restaurant_reviews k skip limit db =
  (if (0 <=? skip) && (limit <=? 100) then
     match restaurants db !! k with
     | None => Raise (HTTPException 404 (Literal "Restaurant not found"))
     | Some _ =>
         if limit <? 0 then Raise DataError
         else Ok (take (Z.to_nat limit)
                    (drop (Z.to_nat skip)
                       (List.filter (review_targets TargetType.RESTAURANT k)
                          (reviews db))))
     end
   else Raise (HTTPException HTTP_422_UNPROCESSABLE_ENTITY
                 (Literal "skip must be at least 0, limit at most 100")),
   db).
Proof.
  unfold get_restaurant_reviews, bind, validate_page, query_first,
    query_reviews, offset_limit, ret, raise.
  destruct ((0 <=? skip) && (limit <=? 100)); [|reflexivity].
  destruct (restaurants db !! k); [|reflexivity].
  destruct (limit <? 0); reflexivity.
Qed.

(** X26 (restaurants.py, get_restaurant and get_restaurant_reviews;
    food_orders.py, review_restaurant).  For a restaurant that does not
    exist both calls fail with 404.  A page of the reviews of a restaurant
    has at most [limit] rows, all of them reviews of the table that
    target this restaurant.  Where the stored averages follow the
    reviews, as they do after any sequence of the ten operations, the
    rating that [get_restaurant] shows is the average of the reviews that
    the first page shows, as soon as that page holds them all. *)
Theorem shown_rating_is_mean_of_shown_reviews k db :
  (restaurants db !! k = None ->
   get_restaurant k db =
   (Raise (HTTPException 404 (Literal "Restaurant not found")), db) /\
   forall skip limit,
     0 <= skip -> limit <= 100 ->
     get_restaurant_reviews k skip limit db =
     (Raise (HTTPException 404 (Literal "Restaurant not found")), db)) /\
  (forall skip limit rows,
     fst (get_restaurant_reviews k skip limit db) = Ok rows ->
     (length rows <= Z.to_nat limit)%nat /\
     forall r, r ∈ rows ->
       r ∈ reviews db /\ Review.target_type r = TargetType.RESTAURANT /\
       Review.target_id r = k) /\
  (forall restaurant rows,
     ratings_synced db ->
     fst (get_restaurant k db) = Ok restaurant ->
     fst (get_restaurant_reviews k 0 100 db) = Ok rows ->
     (0 < length rows < 100)%nat ->
     Restaurant.rating_average restaurant = avg_rating rows /\
     forall r, r ∈ rows <->
       r ∈ reviews db /\ Review.target_type r = TargetType.RESTAURANT /\
       Review.target_id r = k).
Proof.
  split; [|split].
  - intros Hk. split.
    + unfold get_restaurant, bind, query_first, raise. rewrite Hk. reflexivity.
    + intros skip limit Hskip Hlimit. rewrite get_restaurant_reviews_run, Hk.
      rewrite (proj2 (Z.leb_le 0 skip)), (proj2 (Z.leb_le limit 100)) by lia.
      reflexivity.
  - intros skip limit rows. rewrite get_restaurant_reviews_run. cbn [fst].
    destruct ((0 <=? skip) && (limit <=? 100)); [|discriminate].
    destruct (restaurants db !! k); [|discriminate].
    destruct (limit <? 0); [discriminate|]. intros [= <-].
    split; [apply firstn_le_length|].
    intros r Hr. eapply elem_of_sublist in Hr;
      [|etrans; [apply sublist_take|apply sublist_drop]].
    apply elem_of_filter_bool in Hr as [Hr Ht].
    apply review_targets_true in Ht. tauto.
  - intros restaurant rows [Hsync _].
    unfold get_restaurant, bind, query_first, ret, raise.
    rewrite get_restaurant_reviews_run. cbn [fst].
    destruct (restaurants db !! k) as [r0|] eqn:Hk; [|discriminate].
    intros [= <-].
    change ((0 <=? 0) && (100 <=? 100)) with true.
    change (100 <? 0) with false. cbv iota.
    change (Z.to_nat 0) with 0%nat. change (Z.to_nat 100) with 100%nat.
    rewrite drop_0. intros [= <-] [Hsome Hfew].
    assert (Hall : take 100
                     (List.filter (review_targets TargetType.RESTAURANT k)
                        (reviews db)) =
                   List.filter (review_targets TargetType.RESTAURANT k)
                     (reviews db)).
    { apply take_ge. rewrite length_take in Hfew. lia. }
    rewrite Hall in *. split.
    + apply (Hsync k r0 Hk). intros Hnil. rewrite Hnil in Hsome.
      cbn in Hsome. lia.
    + intros r. rewrite elem_of_filter_bool, review_targets_true. reflexivity.
Qed.

Lemma shown_rating_is_mean_of_shown_reviews_witness :
  Restaurant.rating_average (Restaurant.mk true 4%float 399) =
  avg_rating [Review.mk 103 10 TargetType.RESTAURANT 1 (Some 3%N) 4 None] /\
  forall r,
    r ∈ [Review.mk 103 10 TargetType.RESTAURANT 1 (Some 3%N) 4 None] <->
    r ∈ reviews once_reviewed_db /\
    Review.target_type r = TargetType.RESTAURANT /\ Review.target_id r = 1%N.
Proof.
  apply (proj2 (proj2 (shown_rating_is_mean_of_shown_reviews 1 once_reviewed_db))
           (Restaurant.mk true 4%float 399)
           [Review.mk 103 10 TargetType.RESTAURANT 1 (Some 3%N) 4 None]).
  - assert (Hrestaurants : restaurants once_reviewed_db =
                           {[1%N := Restaurant.mk true 4%float 399]})
      by (vm_compute; reflexivity).
    assert (Hprofiles : driver_profiles once_reviewed_db = ∅)
      by (vm_compute; reflexivity).
    split.
    + intros k r. rewrite Hrestaurants. intros Hk _.
      destruct (decide (k = 1%N)) as [->|Hne].
      * rewrite lookup_singleton_eq in Hk. injection Hk as <-.
        vm_compute. reflexivity.
      * rewrite lookup_singleton_ne in Hk by congruence. discriminate.
    + intros u d. rewrite Hprofiles, lookup_empty. discriminate.
  - vm_compute. reflexivity.
  - vm_compute. reflexivity.
  - cbn. lia.
Defined.

(** ** The statements without a premise of their own, on the sample data *)

Lemma order_details_authorization_witness :
  fst (get_order_details 3 (User.mk 99 UserRole.DRIVER) listing_db) =
  Ok (sample_order OrderStatus.PENDING None).
Proof.
  apply (proj1 (proj2 (order_details_authorization 3
                         (User.mk 99 UserRole.DRIVER) listing_db))
           (sample_order OrderStatus.PENDING None)).
  split; [reflexivity|right; left; reflexivity].
Defined.

Lemma parcel_details_authorization_witness :
  fst (get_parcel_details 5 (User.mk 11 UserRole.CUSTOMER) listing_db) =
  Raise (HTTPException 403 (Literal "Not authorized to view this parcel")).
Proof.
  apply (proj2 (proj2 (proj2 (parcel_details_authorization 5
                                (User.mk 11 UserRole.CUSTOMER) listing_db)))
           (sample_parcel ParcelStatus.PENDING None));
    [reflexivity|discriminate|reflexivity].
Defined.

Lemma reviews_append_only_witness :
  NoDup (Review.id <$>
         reviews (@serve_all table_runtime
                    [ReviewFoodOrder 3 (ReviewCreate.mk 4 None) 10 103;
                     ReviewFoodOrder 3 (ReviewCreate.mk 1 None) 10 104]
                    reviewed_db)).
Proof.
  apply (proj2 (@reviews_append_only table_runtime _ reviewed_db)).
  change (NoDup (Review.id <$> reviews reviewed_db)) with (NoDup [101%N; 102%N]).
  apply NoDup_cons. split; [rewrite list_elem_of_singleton; discriminate|].
  apply NoDup_singleton.
Defined.
